(** * convert_sql.py: a shallow embedding and the properties of its specification

    The development follows the layout of [convert_sql.py]:

    - [PyStr]: the [str] methods the program calls ([strip], [lower],
      [startswith], [in], ...);
    - [osp]: the functions of [os.path] the program calls, in their POSIX
      version ([posixpath]);
    - the module-level regular expressions, each one as the function that
      the call made on it computes ([findall], [match], [search], [sub]),
      and [inspect.cleandoc];
    - [tokenizer], [BaseConverter], [JSONConverter] and [JSConverter].

    Texts are [string]s read as sequences of ASCII code points: the
    character classes ([isspace], [isword], [lower]) are those of Python on
    code points below 128.  Methods of the converter classes run in the
    monad [M], which threads the converter object ([self]) and carries the
    exception raised, if any.  Generators are those of Python 3.6, the
    version the program was written for: a [StopIteration] raised in the
    body of a generator ends it (see [in_generator]). *)

From stdpp Require Import gmap strings list pretty.
From Stdlib Require Import Ascii ZArith Lia.

Local Open Scope stdpp_scope.

(** ** Python strings *)

Module PyStr.

(** [str.isspace] on one ASCII character, which is also what [\s] matches:
    TAB, LF, VT, FF, CR, FS, GS, RS, US and the space. *)
Definition isspace (c : ascii) : bool :=
  let n := nat_of_ascii c in
  ((9 <=? n) && (n <=? 13)) || ((28 <=? n) && (n <=? 32)).

(** What [\w] matches on ASCII: letters, digits and the underscore. *)
Definition isword (c : ascii) : bool :=
  let n := nat_of_ascii c in
  ((48 <=? n) && (n <=? 57)) || ((65 <=? n) && (n <=? 90))
  || ((97 <=? n) && (n <=? 122)) || (n =? 95).

Definition lower_char (c : ascii) : ascii :=
  let n := nat_of_ascii c in
  if (65 <=? n) && (n <=? 90) then ascii_of_nat (n + 32) else c.

(** [s.lower()] *)
Fixpoint lower (s : string) : string :=
  match s with
  | "" => ""
  | String c s' => String (lower_char c) (lower s')
  end.

(** [len(s)] *)
Definition len (s : string) : nat := String.length s.

(** [s[n:]] *)
Fixpoint drop (n : nat) (s : string) : string :=
  match n, s with
  | S k, String _ s' => drop k s'
  | _, _ => s
  end.

(** [s[:n]] *)
Fixpoint take (n : nat) (s : string) : string :=
  match n, s with
  | S k, String c s' => String c (take k s')
  | _, _ => ""
  end.

(** The longest prefix of [s] whose characters all satisfy [p], and the
    rest of [s]. *)
Fixpoint span (p : ascii → bool) (s : string) : string * string :=
  match s with
  | "" => ("", "")
  | String c s' =>
      if p c then let '(a, b) := span p s' in (String c a, b) else ("", s)
  end.

(** [s.startswith(prefix)] *)
Fixpoint startswith (prefix s : string) : bool :=
  match prefix, s with
  | "", _ => true
  | String a p', String b s' => bool_decide (a = b) && startswith p' s'
  | String _ _, "" => false
  end.

(** [s.endswith(suffix)] *)
Fixpoint endswith (suffix s : string) : bool :=
  bool_decide (s = suffix)
  || match s with
     | "" => false
     | String _ s' => endswith suffix s'
     end.

(** [sub in s] *)
Fixpoint contains (sub s : string) : bool :=
  startswith sub s
  || match s with
     | "" => false
     | String _ s' => contains sub s'
     end.

(** [s.lstrip()] *)
Fixpoint lstrip (s : string) : string :=
  match s with
  | "" => ""
  | String c s' => if isspace c then lstrip s' else s
  end.

(** [s.rstrip()] *)
Fixpoint rstrip (s : string) : string :=
  match s with
  | "" => ""
  | String c s' =>
      match rstrip s' with
      | "" => if isspace c then "" else String c ""
      | r => String c r
      end
  end.

(** [s.strip()] *)
Definition strip (s : string) : string := rstrip (lstrip s).

(** [s.split(' ', 1)[0]]: the text before the first space character. *)
Fixpoint split_space_first (s : string) : string :=
  match s with
  | "" => ""
  | String c s' => if bool_decide (c = " "%char) then "" else String c (split_space_first s')
  end.

(** [s.split()]: the words of [s], which blanks separate. *)
Fixpoint split (s : string) : list string :=
  match s with
  | "" => []
  | String c s' =>
      if isspace c then split s'
      else match s' with
           | "" => [String c ""]
           | String d _ =>
               if isspace d then String c "" :: split s'
               else match split s' with
                    | word :: words => String c word :: words
                    | [] => [String c ""]
                    end
           end
  end.

(** [s.replace(a, b)] for single characters. *)
Fixpoint replace_char (a b : ascii) (s : string) : string :=
  match s with
  | "" => ""
  | String c s' => String (if bool_decide (c = a) then b else c) (replace_char a b s')
  end.

(** A pattern literal matched at the start of [s] under [re.I]. *)
Definition imatch (literal s : string) : bool :=
  startswith (lower literal) (lower (take (len literal) s)).

End PyStr.

(** The line break, the double quote, [' ' * n] and [sep.join(block)]. *)
Definition nl : string := String "010"%char "".
Definition dquote : string := String "034"%char "".

Fixpoint spaces (n : nat) : string :=
  match n with
  | 0 => ""
  | S k => String " "%char (spaces k)
  end.

Fixpoint str_join (sep : string) (block : list string) : string :=
  match block with
  | [] => ""
  | [line] => line
  | line :: rest => line +:+ sep +:+ str_join sep rest
  end.

(** ** [os.path] (POSIX) *)

Module osp.

(** [(p[:i], p[i:])] for [i = p.rfind('/') + 1]: the text up to and
    including the last slash, and the file name after it. *)
Fixpoint split_last_sep (p : string) : string * string :=
  match p with
  | "" => ("", "")
  | String c p' =>
      match split_last_sep p' with
      | ("", t) => if bool_decide (c = "/"%char) then ("/", t) else ("", String c t)
      | (h, t) => (String c h, t)
      end
  end.

(** [head.rstrip('/')] *)
Fixpoint rstrip_sep (s : string) : string :=
  match s with
  | "" => ""
  | String c s' =>
      match rstrip_sep s' with
      | "" => if bool_decide (c = "/"%char) then "" else String c ""
      | r => String c r
      end
  end.

(** [posixpath.dirname]:
    [head = p[:p.rfind('/') + 1]], stripped of its trailing slashes unless
    it consists of slashes only. *)
Definition dirname (p : string) : string :=
  let head := fst (split_last_sep p) in
  if bool_decide (head ≠ "") && bool_decide (rstrip_sep head ≠ "")
  then rstrip_sep head else head.

(** [posixpath.join(a, b)] *)
Definition join (a b : string) : string :=
  if PyStr.startswith "/" b then b
  else if bool_decide (a = "") || PyStr.endswith "/" a then a +:+ b
  else a +:+ "/" +:+ b.

(** [(name[:j], name[j:])] for [j = name.rfind('.')], when [name] has a
    dot. *)
Fixpoint split_last_dot (name : string) : option (string * string) :=
  match name with
  | "" => None
  | String c name' =>
      match split_last_dot name' with
      | Some (stem, ext) => Some (String c stem, ext)
      | None => if bool_decide (c = "."%char) then Some ("", name) else None
      end
  end.

Fixpoint all_dots (s : string) : bool :=
  match s with
  | "" => true
  | String c s' => bool_decide (c = "."%char) && all_dots s'
  end.

(** [posixpath.splitext]: the extension starts at the last dot of the
    file name, provided a character other than a dot comes before it in
    the file name. *)
Definition splitext (p : string) : string * string :=
  let '(head, name) := split_last_sep p in
  match split_last_dot name with
  | Some (stem, ext) => if all_dots stem then (p, "") else (head +:+ stem, ext)
  | None => (p, "")
  end.

(** [posixpath.normcase] *)
Definition normcase (p : string) : string := p.

End osp.

(** ** The regular expressions of the module

    Patterns are quoted with a space between a star and the closing
    parenthesis that follows it. *)

(** [RAW_META_COMMENT_REGEX =
     re.compile(r'.*?(EXCLUDE|MULTILINE)|(OUTPUT\s*:\s*(?:.* )).*', re.I|re.M|re.S)]

    [findall] returns one pair (group 1, group 2) per match.  Under [re.S]
    the lazy [.*?] of the first alternative reaches any later keyword, so
    at a position the first alternative matches exactly when a keyword
    starts there or further right, and the match ends with that keyword.
    The second alternative is tried where no keyword is left; it needs
    [OUTPUT\s*:] at the position itself and then runs to the end of the
    text, which is all in group 2. *)

Definition keyword_at (s : string) : option string :=
  if PyStr.imatch "EXCLUDE" s then Some (PyStr.take 7 s)
  else if PyStr.imatch "MULTILINE" s then Some (PyStr.take 9 s)
  else None.

Fixpoint has_keyword (s : string) : bool :=
  match keyword_at s with
  | Some _ => true
  | None => match s with
            | "" => false
            | String _ s' => has_keyword s'
            end
  end.

(** [OUTPUT\s*:] at the start of [s]. *)
Definition output_at (s : string) : bool :=
  PyStr.imatch "OUTPUT" s
  && PyStr.startswith ":" (PyStr.lstrip (PyStr.drop 6 s)).

(** [skip] counts the characters of the current match still to pass. *)
Fixpoint RAW_META_COMMENT_REGEX_findall_from (skip : nat) (s : string)
  : list (string * string) :=
  match s with
  | "" => []
  | String _ s' =>
      match skip with
      | S k => RAW_META_COMMENT_REGEX_findall_from k s'
      | 0 =>
          match keyword_at s with
          | Some kw =>
              (kw, "") :: RAW_META_COMMENT_REGEX_findall_from (PyStr.len kw - 1) s'
          | None =>
              if negb (has_keyword s') && output_at s then [("", s)]
              else RAW_META_COMMENT_REGEX_findall_from 0 s'
          end
      end
  end.

Definition RAW_META_COMMENT_REGEX_findall (s : string) : list (string * string) :=
  RAW_META_COMMENT_REGEX_findall_from 0 s.

(** [META_OUTPUT_REGEX = re.compile(r'\s*(?P<tag>OUTPUT)\s*:\s*(?P<value>.* )', re.I)]

    [META_OUTPUT_REGEX.match(s)['value']], [None] when there is no match:
    the text after the colon and the blanks that follow it, up to the end
    of the line. *)
Definition META_OUTPUT_REGEX_match_value (s : string) : option string :=
  let s1 := PyStr.lstrip s in
  if PyStr.imatch "OUTPUT" s1 then
    match PyStr.lstrip (PyStr.drop 6 s1) with
    | String ":" s2 =>
        Some (fst (PyStr.span (λ c, negb (bool_decide (c = "010"%char))) (PyStr.lstrip s2)))
    | _ => None
    end
  else None.

(** [re.sub(r'(\s+)|(\s*--\s*.*\s+)', ' ', s)]

    At a blank the first alternative takes the whole run of blanks.
    Elsewhere the second alternative needs [--] at the position itself; it
    then takes the blanks [w] that follow, the rest [l] of that line and
    the blanks from the line break on.  When the text ends with [l], the
    final [\s+] makes the match back up to the last blank of [l], or else
    to the end of [w] if [w] is not empty; otherwise there is no match. *)

(** The index of the last blank of [l], if any. *)
Fixpoint last_space (l : string) : option nat :=
  match l with
  | "" => None
  | String c l' =>
      match last_space l' with
      | Some k => Some (S k)
      | None => if PyStr.isspace c then Some 0 else None
      end
  end.

(** The length of the match of [\s*--\s*.*\s+] at the start of [s], where
    [s] does not start with a blank. *)
Definition comment_match_len (s : string) : option nat :=
  if PyStr.startswith "--" s then
    let '(w, r1) := PyStr.span PyStr.isspace (PyStr.drop 2 s) in
    let '(l, r2) := PyStr.span (λ c, negb (bool_decide (c = "010"%char))) r1 in
    match r2 with
    | String _ _ =>
        Some (2 + PyStr.len w + PyStr.len l + PyStr.len (fst (PyStr.span PyStr.isspace r2)))
    | "" =>
        match last_space l with
        | Some k => Some (2 + PyStr.len w + k + 1)
        | None => if bool_decide (w ≠ "") then Some (2 + PyStr.len w) else None
        end
    end
  else None.

Fixpoint sub_blanks_and_comments_from (skip : nat) (s : string) : string :=
  match s with
  | "" => ""
  | String c s' =>
      match skip with
      | S k => sub_blanks_and_comments_from k s'
      | 0 =>
          if PyStr.isspace c then
            String " " (sub_blanks_and_comments_from
                          (PyStr.len (fst (PyStr.span PyStr.isspace s'))) s')
          else
            match comment_match_len s with
            | Some n => String " " (sub_blanks_and_comments_from (n - 1) s')
            | None => String c (sub_blanks_and_comments_from 0 s')
            end
      end
  end.

Definition sub_blanks_and_comments (s : string) : string :=
  sub_blanks_and_comments_from 0 s.

(** ** Tokens *)

Inductive TokenType :=
| SQL | LINE_COMMENT | BLOCK_COMMENT | HEADER | GROUP_TAG | META_COMMENT.

Global Instance TokenType_eq_dec : EqDecision TokenType.
Proof. solve_decision. Defined.

(** [TokenType.name] *)
Definition TokenType_name (t : TokenType) : string :=
  match t with
  | SQL => "SQL"
  | LINE_COMMENT => "LINE_COMMENT"
  | BLOCK_COMMENT => "BLOCK_COMMENT"
  | HEADER => "HEADER"
  | GROUP_TAG => "GROUP_TAG"
  | META_COMMENT => "META_COMMENT"
  end.

(** What [Token.contents] holds: a text for comments and statements, the
    [groupdict()] of [HEADER_REGEX] for a header line, the [groupdict()] of
    [GROUP_REGEX] for a group tag (its [output] is [None] when the optional
    part of the pattern took no part in the match). *)
Inductive Contents :=
| Text (s : string)
| HeaderDict (tag value : string)
| GroupDict (tag name : string) (output : option string).

Global Instance Contents_eq_dec : EqDecision Contents.
Proof. solve_decision. Defined.

(** [Token = namedtuple('Token', 'type contents')] *)
Record Token := mkToken { type : TokenType; contents : Contents }.

Global Instance Token_eq_dec : EqDecision Token.
Proof. solve_decision. Defined.

Definition END_HEADER_MARKER : string := "endhead".
Definition REQUIRED_HEADER_FIELDS : list string := ["dialect"].
Definition STARTGROUP_TAG : string := "startgroup".
Definition ENDGROUP_TAG : string := "endgroup".
Definition SQL_STARTERS : list string :=
  ["SELECT"; "PREPARE"; "CREATE"; "DROP"; "WITH"; "EXECUTE"; "RAISE"].
Definition LINE_COMMENT_START : string := "--".
Definition BLOCK_COMMENT_START : string := "/*".
Definition BLOCK_COMMENT_END : string := "*/".
Definition SQL_END : string := ";".

(** ** Exceptions *)

Inductive Exception :=
| LookupError (msg : string)
| ValueError (msg : string)
| UnknownToken (token : Token)
    (** [ValueError('Unknown Token: {!r}'.format(token))], kept with the
        token rather than with its [repr] *)
| IndexError (msg : string)
| KeyError (key : string)
| TypeError (msg : string)
| AttributeError (msg : string)
| NotImplementedError (msg : string)
| UnboundLocalError (name : string)
| OSError (class filename : string)
    (** [FileNotFoundError], [IsADirectoryError] and the other subclasses of
        [OSError], by the name of the class, with the file name *)
| StopIteration.

Inductive Outcome (A : Type) :=
| Return (a : A)
| Raise (e : Exception).
Global Arguments Return {A} a.
Global Arguments Raise {A} e.

(** ** The patterns of the tokenizer *)

(** The shortest prefix of [s], within its first line, after which [rest]
    accepts what is left of [s]: what a lazy [.*?] matches, with the result
    of [rest]. *)
Fixpoint lazy_line {A} (rest : string → option A) (s : string) : option (string * A) :=
  match rest s with
  | Some a => Some ("", a)
  | None =>
      match s with
      | "" => None
      | String c s' =>
          if bool_decide (c = "010"%char) then None
          else (λ r, (String c r.1, r.2)) <$> lazy_line rest s'
      end
  end.

(** The same under [re.S], where the dot matches a line break too. *)
Fixpoint lazy_any {A} (rest : string → option A) (s : string) : option (string * A) :=
  match rest s with
  | Some a => Some ("", a)
  | None =>
      match s with
      | "" => None
      | String c s' => (λ r, (String c r.1, r.2)) <$> lazy_any rest s'
      end
  end.

(** The text of [s] up to the end of its first line. *)
Definition line_of (s : string) : string :=
  (PyStr.span (λ c, negb (bool_decide (c = "010"%char))) s).1.

(** [HEADER_REGEX = re.compile(
      r'\s*--\s*(?P<tag>version|output|dialect|endhead)\s*:\s*(?P<value>.* )', re.I)]
    (the order of the tags in the pattern is that of a set; no tag starts
    another).

    [HEADER_REGEX.match(line).groupdict()], as the pair of the tag and the
    value; [None] when there is no match.  The letters which [re.I]
    matches are those of ASCII text, as everywhere in this file. *)
Definition HEADER_FIELDS : list string := ["version"; "output"; "dialect"; "endhead"].

Definition HEADER_REGEX_match (line : string) : option (string * string) :=
  let s1 := PyStr.lstrip line in
  if PyStr.startswith "--" s1 then
    let s2 := PyStr.lstrip (PyStr.drop 2 s1) in
    match filter (λ field, PyStr.imatch field s2 = true) HEADER_FIELDS with
    | field :: _ =>
        match PyStr.lstrip (PyStr.drop (PyStr.len field) s2) with
        | String ":" s3 => Some (PyStr.take (PyStr.len field) s2, line_of (PyStr.lstrip s3))
        | _ => None
        end
    | [] => None
    end
  else None.

(** [LINE_COMMENT_REGEX = re.compile(r'\s*--\s+(?P<contents>.* )$', re.I)]

    [LINE_COMMENT_REGEX.match(line)['contents']], [None] when there is no
    match: the blanks after [--] are followed by the contents, which end
    the text but for a last line break. *)
Definition LINE_COMMENT_REGEX_match (line : string) : option string :=
  let s1 := PyStr.lstrip line in
  if PyStr.startswith "--" s1 then
    let '(w, r) := PyStr.span PyStr.isspace (PyStr.drop 2 s1) in
    let '(l, r2) := PyStr.span (λ c, negb (bool_decide (c = "010"%char))) r in
    if bool_decide (w ≠ "") && (bool_decide (r2 = "") || bool_decide (r2 = nl))
    then Some l else None
  else None.

(** [GROUP_REGEX = re.compile(
      r'\s*/\*\s*(?P<tag>startgroup|endgroup)\s*:\s*(?P<name>.*?)'
      r'\s*(?::\s*OUTPUT\s*:\s*(?P<output>.*?))?\s*\*/\s*$', re.I)]

    [GROUP_REGEX.match(line).groupdict()], as the tag, the name and the
    output; [None] when there is no match.  The name and the output are
    lazy: each one is the shortest text after which the rest of the pattern
    matches. *)

(** [\s*\*/\s*$] on all of [s]. *)
Definition group_close (s : string) : option unit :=
  let s1 := PyStr.lstrip s in
  if PyStr.startswith "*/" s1 && bool_decide (PyStr.lstrip (PyStr.drop 2 s1) = "")
  then Some () else None.

(** [\s*OUTPUT\s*:\s*(?P<output>.*?)\s*\*/\s*$] on all of [s]. *)
Definition group_output (s : string) : option string :=
  let s1 := PyStr.lstrip s in
  if PyStr.imatch "OUTPUT" s1 then
    match PyStr.lstrip (PyStr.drop 6 s1) with
    | String ":" s2 => fst <$> lazy_line group_close (PyStr.lstrip s2)
    | _ => None
    end
  else None.

(** What follows the name, on all of [s]: the output, if that part of the
    pattern takes part in the match. *)
Definition group_rest (s : string) : option (option string) :=
  match PyStr.lstrip s with
  | String ":" s1 =>
      match group_output s1 with
      | Some out => Some (Some out)
      | None => None
      end
  | _ => (λ _, None) <$> group_close s
  end.

Definition GROUP_REGEX_match (line : string) : option (string * string * option string) :=
  let s1 := PyStr.lstrip line in
  if PyStr.startswith "/*" s1 then
    let s2 := PyStr.lstrip (PyStr.drop 2 s1) in
    match filter (λ tag, PyStr.imatch tag s2 = true) [STARTGROUP_TAG; ENDGROUP_TAG] with
    | tag :: _ =>
        match PyStr.lstrip (PyStr.drop (PyStr.len tag) s2) with
        | String ":" s3 =>
            (λ r, (PyStr.take (PyStr.len tag) s2, r.1, r.2))
              <$> lazy_line group_rest (PyStr.lstrip s3)
        | _ => None
        end
    | [] => None
    end
  else None.

(** [BLOCK_COMMENT_REGEX =
     re.compile(r'\s*/*\*\s*(?P<contents>.*?)\s*\*/\s*', re.I|re.S)]

    [BLOCK_COMMENT_REGEX.match(text)['contents']], [None] when there is no
    match: after the blanks, the slashes, the star and the blanks, the
    shortest text which blanks and the end of a block comment follow. *)
Definition BLOCK_COMMENT_REGEX_match (text : string) : option string :=
  match (PyStr.span (λ c, bool_decide (c = "/"%char)) (PyStr.lstrip text)).2 with
  | String "*" s1 =>
      fst <$> lazy_any (λ s, if PyStr.startswith "*/" (PyStr.lstrip s) then Some () else None)
                       (PyStr.lstrip s1)
  | _ => None
  end.

(** [META_COMMENT_REGEX = re.compile(
      r'/*.*?(EXCLUDE|MULTILINE)|(OUTPUT\s*:\s*(?:.* )).*\*/', re.I|re.M|re.S)]

    [META_COMMENT_REGEX.search(text)] is not [None]: the text has one of
    the two keywords, or it has [OUTPUT\s*:] with the end of a block comment
    somewhere after the colon. *)
Fixpoint output_before_close (s : string) : bool :=
  (output_at s && PyStr.contains "*/" (PyStr.drop 1 (PyStr.lstrip (PyStr.drop 6 s))))
  || match s with
     | "" => false
     | String _ s' => output_before_close s'
     end.

Definition META_COMMENT_REGEX_search (text : string) : bool :=
  has_keyword text || output_before_close text.

(** ** [inspect.cleandoc] *)

(** [doc.expandtabs()]: a tabulation goes to the next column which is a
    multiple of 8, columns being counted from the last line break or
    carriage return. *)
Fixpoint expandtabs_from (column : nat) (s : string) : string :=
  match s with
  | "" => ""
  | String c s' =>
      if bool_decide (c = "009"%char) then
        let incr := 8 - column mod 8 in
        spaces incr +:+ expandtabs_from (column + incr) s'
      else if bool_decide (c = "010"%char) || bool_decide (c = "013"%char) then
        String c (expandtabs_from 0 s')
      else String c (expandtabs_from (S column) s')
  end.

(** [s.split('\n')] *)
Fixpoint split_lines (s : string) : list string :=
  match s with
  | "" => [""]
  | String c s' =>
      if bool_decide (c = "010"%char) then "" :: split_lines s'
      else match split_lines s' with
           | line :: lines => String c line :: lines
           | [] => [String c ""]
           end
  end.

(** The indentation of a line that is not blank. *)
Definition indent_of (line : string) : option nat :=
  let content := PyStr.len (PyStr.lstrip line) in
  if bool_decide (content = 0) then None else Some (PyStr.len line - content).

(** The least indentation of the lines that are not blank. *)
Fixpoint margin_of (lines : list string) : option nat :=
  match lines with
  | [] => None
  | line :: lines =>
      match indent_of line, margin_of lines with
      | Some i, Some m => Some (i `min` m)
      | Some i, None => Some i
      | None, m => m
      end
  end.

(** The list without the empty texts at its start. *)
Fixpoint drop_empty (lines : list string) : list string :=
  match lines with
  | "" :: lines => drop_empty lines
  | _ => lines
  end.

Definition cleandoc (doc : string) : string :=
  match split_lines (expandtabs_from 0 doc) with
  | [] => ""
  | first :: others =>
      let others := match margin_of others with
                    | Some margin => PyStr.drop margin <$> others
                    | None => others
                    end in
      let lines := PyStr.lstrip first :: others in
      str_join nl (drop_empty (rev (drop_empty (rev lines))))
  end.

(** ** [tokenizer]

    The file is the list of its lines, each with its line break.  The
    generator yields tokens until an exception ends it: [StopIteration]
    when [next(file)] finds no line left, whether between two tokens or
    inside a block, or [TypeError] when a pattern whose match is
    subscripted does not match. *)

(** Where the generator stands when it calls [next(file)]: at the end of
    a round of its outer loop, or in one of the two inner loops, which
    gather the lines of a block. *)
Inductive Reading :=
| Top
| InBlockComment (block : list string)
| InSql (block : list string).

Definition subscript_error : Exception :=
  TypeError "'NoneType' object is not subscriptable".

Fixpoint tokenizer_from (reading : Reading) (file : list string)
  : list Token * Exception :=
  match file with
  | [] => ([], StopIteration)
  | line :: file =>
      match reading with
      | Top =>
          if bool_decide (PyStr.strip line = "") then tokenizer_from Top file
          else if PyStr.startswith LINE_COMMENT_START (PyStr.lstrip line) then
            match HEADER_REGEX_match line with
            | Some (tag, value) =>
                let '(tokens, e) := tokenizer_from Top file in
                (mkToken HEADER (HeaderDict tag value) :: tokens, e)
            | None =>
                match LINE_COMMENT_REGEX_match line with
                | Some contents =>
                    let '(tokens, e) := tokenizer_from Top file in
                    (mkToken LINE_COMMENT (Text contents) :: tokens, e)
                | None => ([], subscript_error)
                end
            end
          else if PyStr.startswith BLOCK_COMMENT_START (PyStr.lstrip line) then
            if PyStr.endswith BLOCK_COMMENT_END (PyStr.rstrip line) then
              match GROUP_REGEX_match line with
              | Some (tag, name, out) =>
                  let '(tokens, e) := tokenizer_from Top file in
                  (mkToken GROUP_TAG (GroupDict tag name out) :: tokens, e)
              | None =>
                  match BLOCK_COMMENT_REGEX_match line with
                  | Some contents =>
                      let '(tokens, e) := tokenizer_from Top file in
                      (mkToken BLOCK_COMMENT (Text contents) :: tokens, e)
                  | None => ([], subscript_error)
                  end
              end
            else tokenizer_from (InBlockComment [line]) file
          else if bool_decide (PyStr.split_space_first (PyStr.lstrip line) ∈ SQL_STARTERS) then
            if PyStr.endswith SQL_END (PyStr.rstrip line) then
              let '(tokens, e) := tokenizer_from Top file in
              (mkToken SQL (Text (PyStr.strip line)) :: tokens, e)
            else tokenizer_from (InSql [line]) file
          else tokenizer_from Top file
      | InBlockComment block =>
          let block := block ++ [line] in
          if PyStr.endswith BLOCK_COMMENT_END (PyStr.strip line) then
            let join_block := str_join "" block in
            match BLOCK_COMMENT_REGEX_match join_block with
            | Some contents =>
                let '(tokens, e) := tokenizer_from Top file in
                (mkToken (if META_COMMENT_REGEX_search join_block
                          then META_COMMENT else BLOCK_COMMENT)
                         (Text (cleandoc contents)) :: tokens, e)
            | None => ([], subscript_error)
            end
          else tokenizer_from (InBlockComment block) file
      | InSql block =>
          let block := block ++ [line] in
          if PyStr.endswith SQL_END (PyStr.rstrip line) then
            let '(tokens, e) := tokenizer_from Top file in
            (mkToken SQL (Text (cleandoc (str_join " " block))) :: tokens, e)
          else tokenizer_from (InSql block) file
      end
  end.

(** [tokenizer(filename)], for the lines of the file: the tokens yielded
    and the exception that ends the generator. *)
Definition tokenizer (file : list string) : list Token * Exception :=
  tokenizer_from Top file.

(** ** The converter object, and the monad of its methods *)

(** A value of the [config] dictionary. *)
Inductive PyVal :=
| VStr (s : string)
| VBool (b : bool).

Definition truthy (v : PyVal) : bool :=
  match v with
  | VStr s => bool_decide (s ≠ "")
  | VBool b => b
  end.

(** An output file opened with ['w+']: what has been written, and the
    position of the next write. *)
Record File := mkFile { data : string; pos : nat }.

(** The converter object.  [token_source] is what the generator
    [tokenizer(self.source)] has still to yield; [outfiles] holds, in the
    order of their insertion, the paths of the files opened and the state
    of each file; [last_indent] and [last_line] are the attributes
    [JSONConverter] adds. *)
Record Converter := mkConverter {
  config : gmap string PyVal;
  outfiles : list (string * File);
  token_source : list Token;
  last_indent : option string;
  last_line : string
}.

Definition set_config (f : gmap string PyVal → gmap string PyVal) (self : Converter) :=
  mkConverter (f (config self)) (outfiles self) (token_source self)
              (last_indent self) (last_line self).
Definition set_outfiles (f : list (string * File) → list (string * File)) (self : Converter) :=
  mkConverter (config self) (f (outfiles self)) (token_source self)
              (last_indent self) (last_line self).
Definition set_token_source (ts : list Token) (self : Converter) :=
  mkConverter (config self) (outfiles self) ts (last_indent self) (last_line self).
Definition set_last_indent (i : option string) (self : Converter) :=
  mkConverter (config self) (outfiles self) (token_source self) i (last_line self).
Definition set_last_line (l : string) (self : Converter) :=
  mkConverter (config self) (outfiles self) (token_source self) (last_indent self) l.

Definition M (A : Type) : Type := Converter → Outcome A * Converter.

Global Instance M_ret : MRet M := λ A a self, (Return a, self).
Global Instance M_bind : MBind M := λ A B f m self,
  match m self with
  | (Return a, self') => f a self'
  | (Raise e, self') => (Raise e, self')
  end.

Global Instance M_fmap : FMap M := λ A B f m, a ← m; mret (f a).

Definition raise {A} (e : Exception) : M A := λ self, (Raise e, self).
Definition gets {A} (f : Converter → A) : M A := λ self, (Return (f self), self).
Definition modify (f : Converter → Converter) : M unit := λ self, (Return (), f self).

(** The body of a generator: a [StopIteration] raised in it ends the
    generator, which for its consumer has nothing more to yield.  This is
    the behaviour of Python up to version 3.6, for which the program was
    written: its generators all end that way (from version 3.7 on, the
    interpreter turns such a [StopIteration] into a [RuntimeError]). *)
Definition in_generator {A} (m : M A) : M (option A) := λ self,
  match m self with
  | (Return a, self') => (Return (Some a), self')
  | (Raise StopIteration, self') => (Return None, self')
  | (Raise e, self') => (Raise e, self')
  end.

(** [next(self.token_source)] *)
Definition next_token : M Token := λ self,
  match token_source self with
  | [] => (Raise StopIteration, self)
  | token :: rest => (Return token, set_token_source rest self)
  end.

(** [self.config[key]], where a text is expected. *)
Definition config_str (key : string) : M string := λ self,
  match config self !! key with
  | Some (VStr s) => (Return s, self)
  | Some (VBool _) => (Raise (TypeError "str expected"), self)
  | None => (Raise (KeyError key), self)
  end.

(** ** [BaseConverter] *)

(** The dictionary [existing_params].  [group] is a Python list used as a
    stack: [append] adds at the end, [pop] removes the last element.
    [meta], when the key is present, is the iterator
    [map(str.lower, filter(None, raw_meta))], given by the items it has
    still to produce. *)
Record Params := mkParams {
  output : string;
  group : list string;
  allow_comments : bool;
  meta : option (list string)
}.

Definition set_output (o : string) (p : Params) : Params :=
  mkParams o (group p) (allow_comments p) (meta p).
Definition set_group (g : list string) (p : Params) : Params :=
  mkParams (output p) g (allow_comments p) (meta p).
Definition set_meta (m : option (list string)) (p : Params) : Params :=
  mkParams (output p) (group p) (allow_comments p) m.

(** A processed token, a dictionary with the keys ['contents'], ['type'] and
    ['existing_params']; the empty dictionary is [None]. *)
Record ProcessedToken := mkProcessed {
  pt_contents : Contents;
  pt_type : TokenType;
  pt_existing_params : Params
}.

(** [copy.deepcopy]: values are immutable here, so a copy is the value. *)
Definition deepcopy {A} (a : A) : A := a.

(** [flatten(big_list)], on the pairs that [findall] returns. *)
Definition flatten (big_list : list (string * string)) : list string :=
  big_list ≫= λ sublist, [sublist.1; sublist.2].

(** [index_containing_substring(the_list, substring)]; [None] is [-1]. *)
Fixpoint index_containing_substring (the_list : list string) (substring : string)
  : option nat :=
  match the_list with
  | [] => None
  | s :: rest =>
      if PyStr.contains substring (PyStr.lower s) then Some 0
      else S <$> index_containing_substring rest substring
  end.

(** [x in it] for an iterator [it]: the items are consumed up to and
    including the first one equal to [x]. *)
Fixpoint iter_contains (x : string) (it : list string) : bool * list string :=
  match it with
  | [] => (false, [])
  | y :: rest => if bool_decide (y = x) then (true, rest) else iter_contains x rest
  end.

(** The loop of [process_header]: tokens are read until the header token
    whose tag is [endhead]; the other header tokens set [config].  The
    result is how the loop ends, the [config] it leaves and the tokens it
    has not read. *)
Fixpoint process_header_loop (source : list Token) (config : gmap string PyVal)
  : Outcome unit * gmap string PyVal * list Token :=
  match source with
  | [] => (Raise StopIteration, config, [])
  | token :: rest =>
      if bool_decide (type token ≠ HEADER) then process_header_loop rest config
      else
        match contents token with
        | HeaderDict tag value =>
            if bool_decide (PyStr.lower tag ≠ END_HEADER_MARKER)
            then process_header_loop rest (<[PyStr.lower tag := VStr value]> config)
            else (Return (), config, rest)
        | _ => (Raise (TypeError "header fields expected"), config, rest)
        end
  end.

(** The check of the required fields which ends [process_header]. *)
Fixpoint check_required (fields : list string) (config : gmap string PyVal)
  : Outcome unit :=
  match fields with
  | [] => Return ()
  | header :: rest =>
      match config !! header with
      | None => Raise (LookupError ("Missing a required field: '" +:+ header +:+ "'"))
      | Some _ => check_required rest config
      end
  end.

(** [BaseConverter.process_header]; [cwd] is what [os.getcwd()] returns. *)
Definition process_header (cwd : string) : M unit := λ self,
  let '(done, config1, rest) := process_header_loop (token_source self) (config self) in
  let self1 := set_token_source rest (set_config (λ _, config1) self) in
  match done with
  | Raise e => (Raise e, self1)
  | Return _ =>
      match config1 !! "output" with
      | Some (VBool _) => (Raise (TypeError "str expected"), self1)
      | o =>
          let config2 :=
            match o with
            | Some (VStr out) => <["output" := VStr (osp.normcase out)]> config1
            | _ => <["output" := VStr cwd]> config1
            end in
          let self2 := set_config (λ _, config2) self1 in
          match check_required REQUIRED_HEADER_FIELDS config2 with
          | Raise e => (Raise e, self2)
          | Return _ => (Return (), self2)
          end
      end
  end.

(** [re.sub(r'(\s+)|(\s*--\s*.*\s+)', ' ', token.contents).strip()] *)
Definition format_sql (contents : string) : string :=
  PyStr.strip (sub_blanks_and_comments contents).

(** The branch of [process_token] for a token of type [SQL]. *)
Definition process_token_SQL (token : Token) (existing_params : Params)
  : M (option ProcessedToken * Params) :=
  match contents token with
  | Text contents =>
      let meta0 := default [] (meta existing_params) in
      let existing_params := set_meta None existing_params in
      let formatted_sql := format_sql contents in
      let '(exclude, meta1) := iter_contains "exclude" meta0 in
      let '(formatted_sql, meta2) :=
        if exclude then (formatted_sql, meta1)
        else
          let '(multiline, meta2) := iter_contains "multiline" meta1 in
          (if multiline then PyStr.strip contents else formatted_sql, meta2) in
      let '(clear_out, _) := iter_contains "clear_out" meta2 in
      mret (Some (mkProcessed (Text formatted_sql) (type token) (deepcopy existing_params)),
            existing_params)
  | _ => raise (TypeError "expected string")
  end.

(** The branch of [process_token] for a token of type [GROUP_TAG]. *)
Definition process_token_GROUP_TAG (token : Token) (existing_params : Params)
  : M (option ProcessedToken * Params) :=
  match contents token with
  | GroupDict tag name out =>
      if bool_decide (PyStr.lower tag = STARTGROUP_TAG) then
        existing_params ←
          match out with
          | Some (String c o) =>
              outfile_type ← config_str "outfile_type";
              mret (set_output
                      (osp.normcase (osp.join (osp.dirname (output existing_params))
                                              (String c o +:+ outfile_type)))
                      existing_params)
          | _ =>
              if bool_decide ((osp.splitext (output existing_params)).2 = "") then
                outfile_type ← config_str "outfile_type";
                mret (set_output
                        (osp.join (output existing_params) ("default" +:+ outfile_type))
                        existing_params)
              else mret existing_params
          end;
        let existing_params := set_group (group existing_params ++ [name]) existing_params in
        mret (Some (mkProcessed (GroupDict tag name out) (type token)
                                (deepcopy existing_params)),
              existing_params)
      else
        if bool_decide (group existing_params = []) then
          raise (IndexError "pop from empty list")
        else
          let existing_params := set_group (removelast (group existing_params)) existing_params in
          if bool_decide (group existing_params = []) then
            let contents := GroupDict tag name (Some (output existing_params)) in
            outfile_type ← config_str "outfile_type";
            let existing_params :=
              set_output (osp.join (osp.dirname (output existing_params))
                                   ("default" +:+ outfile_type)) existing_params in
            mret (Some (mkProcessed contents (type token) (deepcopy existing_params)),
                  existing_params)
          else
            outfile_type ← config_str "outfile_type";
            let existing_params :=
              set_output (osp.dirname (output existing_params) +:+ outfile_type)
                         existing_params in
            mret (Some (mkProcessed (GroupDict tag name out) (type token)
                                    (deepcopy existing_params)),
                  existing_params)
  | _ => raise (TypeError "expected group fields")
  end.

(** The start of the branch of [process_token] for a meta comment: the
    directives of the comment, and the output path that an [OUTPUT]
    directive sets. *)
Definition process_token_directives (contents : string) (existing_params : Params)
  : M (list string * Params) :=
  let raw_meta := flatten (RAW_META_COMMENT_REGEX_findall contents) in
  match index_containing_substring raw_meta "output" with
  | Some output_provided =>
      match META_OUTPUT_REGEX_match_value (default "" (raw_meta !! output_provided)) with
      | None => raise (TypeError "'NoneType' object is not subscriptable")
      | Some new_output =>
          let '(base, ext) := osp.splitext (output existing_params) in
          ext' ← (if bool_decide (ext ≠ "") then mret ext
                  else config_str "outfile_type");
          mret (delete output_provided raw_meta ++ ["clear_out"],
                set_output (osp.join base (new_output +:+ ext')) existing_params)
      end
  | None => mret (raw_meta, existing_params)
  end.

(** [BaseConverter.process_token].  The call that the branch of a meta
    comment makes on itself is made on a token of type [SQL] only, so it is
    the branch of that type. *)
Definition process_token (token : Token) (existing_params : Params)
  : M (option ProcessedToken * Params) :=
  match type token with
  | LINE_COMMENT | BLOCK_COMMENT =>
      if allow_comments existing_params then
        mret (Some (mkProcessed (contents token) (type token) (deepcopy existing_params)),
              existing_params)
      else mret (None, existing_params)
  | GROUP_TAG => process_token_GROUP_TAG token existing_params
  | META_COMMENT =>
      match contents token with
      | Text contents =>
          '(raw_meta, existing_params) ← process_token_directives contents existing_params;
          let meta_cmds := PyStr.lower <$> filter (λ s, s ≠ "") raw_meta in
          let existing_params := set_meta (Some meta_cmds) existing_params in
          sql_token ← next_token;
          if bool_decide (type sql_token ≠ SQL) then
            raise (ValueError ("Meta comment not preceeding sql token. meta token followed by "
                               +:+ TokenType_name (type sql_token) +:+ " token."))
          else process_token_SQL sql_token (deepcopy existing_params)
      | _ => raise (TypeError "expected string")
      end
  | SQL => process_token_SQL token existing_params
  | HEADER => raise (UnknownToken token)
  end.

(** *** Output files *)

(** [outfiles[path]] *)
Fixpoint outfiles_lookup (path : string) (files : list (string * File)) : option File :=
  match files with
  | [] => None
  | (p, f) :: rest => if bool_decide (p = path) then Some f else outfiles_lookup path rest
  end.

(** The state of the file at [path] replaced by its image under [g]. *)
Fixpoint outfiles_alter (g : File → File) (path : string) (files : list (string * File))
  : list (string * File) :=
  match files with
  | [] => []
  | (p, f) :: rest =>
      if bool_decide (p = path) then (p, g f) :: rest
      else (p, f) :: outfiles_alter g path rest
  end.

(** [n] characters of code 0: what a write beyond the end of a file leaves
    between the old end and the text written. *)
Fixpoint zeros (n : nat) : string :=
  match n with
  | 0 => ""
  | S k => String "000"%char (zeros k)
  end.

(** [f.write(s)]: the text replaces what the file holds from its position
    on, and the position moves to the end of the text. *)
Definition File_write (s : string) (f : File) : File :=
  mkFile (PyStr.take (pos f) (data f) +:+ zeros (pos f - PyStr.len (data f))
          +:+ s +:+ PyStr.drop (pos f + PyStr.len s) (data f))
         (pos f + PyStr.len s).

(** A file object is referred to by the path under which [outfiles] holds
    it. *)
Definition write (outfile : string) (s : string) : M unit :=
  modify (set_outfiles (outfiles_alter (File_write s) outfile)).

(** [outfile.tell()] *)
Definition tell (outfile : string) : M nat := λ self,
  match outfiles_lookup outfile (outfiles self) with
  | Some f => (Return (pos f), self)
  | None => (Raise (KeyError outfile), self)
  end.

(** [outfile.seek(n)] *)
Definition seek (outfile : string) (n : Z) : M unit :=
  if bool_decide (n < 0)%Z then raise (ValueError ("negative seek position " +:+ pretty n))
  else modify (set_outfiles (outfiles_alter (λ f, mkFile (data f) (Z.to_nat n)) outfile)).

(** [BaseConverter.get_outfile]: the file is created, empty, at its first
    use.  [os.makedirs] and [open] are taken to succeed: this is the method
    on a file system which accepts the path; the exceptions which they
    raise are those of [OnDisk.BaseConverter_get_outfile] below. *)
Definition BaseConverter_get_outfile (outfile_path : string) : M string :=
  let outfile_path := osp.normcase outfile_path in
  files ← gets outfiles;
  match outfiles_lookup outfile_path files with
  | Some _ => mret outfile_path
  | None =>
      modify (set_outfiles (λ files, files ++ [(outfile_path, mkFile "" 0)]));;
      mret outfile_path
  end.

(** [BaseConverter.output_token] *)
Definition BaseConverter_output_token (token : ProcessedToken) (outfile : string) : M unit :=
  raise (NotImplementedError "Should Be implemented via a subclass").

(** [BaseConverter.process_tokens], up to its loop: the header is
    processed and the first [pre_existing_params] built. *)
Definition process_tokens_start (cwd : string) : M Params :=
  process_header cwd;;
  cfg ← gets config;
  match cfg !! "output" with
  | Some (VStr out) =>
      mret (mkParams out [] (truthy (default (VBool true) (cfg !! "allow_comments"))) None)
  | Some (VBool _) => raise (TypeError "str expected")
  | None =>
      raise (ValueError
               "could not find output configuration -- did you call process_header first?")
  end.

Section output_tokens.

(** The methods that a subclass overrides. *)
Variable get_outfile : string → M string.
Variable output_token : ProcessedToken → string → M unit.

(** The body of the loop of [output_tokens], for a token that
    [process_tokens] yields.  [outfile] is the local variable of that
    name, which keeps its value from one round to the next. *)
Definition route_token (token : ProcessedToken) (outfile : option string) : M (option string) :=
  let tag := match pt_contents token with
             | GroupDict tag _ _ => PyStr.lower tag
             | _ => ""
             end in
  outfile ←
    (if bool_decide (pt_type token ≠ GROUP_TAG) || bool_decide (tag = STARTGROUP_TAG) then
       Some <$> get_outfile (output (pt_existing_params token))
     else if bool_decide (tag = ENDGROUP_TAG) then
       match pt_contents token with
       | GroupDict _ _ (Some (String c o)) => Some <$> get_outfile (String c o)
       | _ => Some <$> get_outfile (output (pt_existing_params token))
       end
     else mret outfile);
  match outfile with
  | Some handle => output_token token handle;; mret outfile
  | None => raise (UnboundLocalError "outfile")
  end.

(** The loop of [output_tokens] over the generator [process_tokens]: each
    token of the source is processed and, when the result is not empty,
    routed and written before the next one is read; the calls of
    [process_token] are in the body of the generator.  A round reads at
    least one token, so as many rounds as the source has tokens exhaust
    it. *)
Fixpoint output_tokens_loop (rounds : nat) (pre_existing_params : Params)
         (outfile : option string) : M unit :=
  match rounds with
  | 0 => mret ()
  | S rounds =>
      source ← gets token_source;
      match source with
      | [] => mret ()
      | token :: rest =>
          modify (set_token_source rest);;
          step ← in_generator (process_token token pre_existing_params);
          match step with
          | None => mret ()
          | Some (processed_token, pre_existing_params) =>
              outfile ← match processed_token with
                        | Some processed_token => route_token processed_token outfile
                        | None => mret outfile
                        end;
              output_tokens_loop rounds pre_existing_params outfile
          end
      end
  end.

(** [BaseConverter.output_tokens] *)
Definition BaseConverter_output_tokens (cwd : string) : M unit :=
  start ← in_generator (process_tokens_start cwd);
  match start with
  | None => mret ()
  | Some pre_existing_params =>
      source ← gets token_source;
      output_tokens_loop (length source) pre_existing_params None
  end.

End output_tokens.

(** ** [JSONConverter] *)

(** [PREPARE_REGEX =
     re.compile(r'PREPARE\s+(\w+)(?:\s*\(.+\))?\s+AS\s+(.* );', re.I|re.S)]

    [PREPARE_REGEX.match(s).groups()], [None] when there is no match.  The
    runs of blanks and the name are the longest ones, since what follows
    each of them cannot start inside it; the parameter list, which is tried
    first, closes at the rightmost parenthesis after which the rest
    matches; the query runs to the last semicolon. *)

(** The text before the last semicolon of [s]. *)
Fixpoint before_last_semicolon (s : string) : option string :=
  match s with
  | "" => None
  | String c s' =>
      match before_last_semicolon s' with
      | Some q => Some (String c q)
      | None => if bool_decide (c = ";"%char) then Some "" else None
      end
  end.

(** [\s+AS\s+(.* );] at the start of [t]: the query. *)
Definition prepare_tail (t : string) : option string :=
  let '(w3, t1) := PyStr.span PyStr.isspace t in
  if bool_decide (w3 ≠ "") && PyStr.imatch "AS" t1 then
    let '(w4, t3) := PyStr.span PyStr.isspace (PyStr.drop 2 t1) in
    if bool_decide (w4 ≠ "") then before_last_semicolon t3 else None
  else None.

(** [.+\)] followed by the tail, in the text after the opening parenthesis;
    [first] tells that no character has been passed yet. *)
Fixpoint prepare_params (first : bool) (body : string) : option string :=
  match body with
  | "" => None
  | String c body' =>
      match prepare_params false body' with
      | Some q => Some q
      | None => if bool_decide (c = ")"%char) && negb first then prepare_tail body' else None
      end
  end.

Definition PREPARE_REGEX_match_groups (s : string) : option (string * string) :=
  if PyStr.imatch "PREPARE" s then
    let '(w1, r1) := PyStr.span PyStr.isspace (PyStr.drop 7 s) in
    let '(key, r2) := PyStr.span PyStr.isword r1 in
    if bool_decide (w1 ≠ "") && bool_decide (key ≠ "") then
      let with_params :=
        match (PyStr.span PyStr.isspace r2).2 with
        | String "(" body => prepare_params true body
        | _ => None
        end in
      match with_params with
      | Some query => Some (key, query)
      | None => (λ query, (key, query)) <$> prepare_tail r2
      end
    else None
  else None.

(** [json.dumps(s)] for a text [s]. *)
Definition hex_digit (n : nat) : ascii :=
  if n <? 10 then ascii_of_nat (48 + n) else ascii_of_nat (87 + n).

Definition json_escape_char (c : ascii) : string :=
  let n := nat_of_ascii c in
  if bool_decide (c = "034"%char) then "\" +:+ dquote
  else if bool_decide (c = "\"%char) then "\\"
  else if n =? 10 then "\n"
  else if n =? 13 then "\r"
  else if n =? 9 then "\t"
  else if n =? 8 then "\b"
  else if n =? 12 then "\f"
  else if (n <? 32) || (126 <? n) then
    "\u00" +:+ String (hex_digit (n / 16)) (String (hex_digit (n mod 16)) "")
  else String c "".

Fixpoint json_escape (s : string) : string :=
  match s with
  | "" => ""
  | String c s' => json_escape_char c +:+ json_escape s'
  end.

Definition json_dumps (s : string) : string :=
  dquote +:+ json_escape s +:+ dquote.

(** [str(self.last_indent)], as [format] renders it. *)
Definition format_indent (last_indent : option string) : string :=
  default "None" last_indent.

(** [BaseConverter.__init__], for the tokens of the source file, and
    [JSONConverter.__init__]. *)
Definition BaseConverter_init (tokens : list Token) : Converter :=
  mkConverter {[ "outfile_type" := VStr ".txt"; "allow_comments" := VBool true ]}
              [] tokens None "".

Definition JSONConverter_init (json_spaces : nat) (tokens : list Token) : Converter :=
  let self := BaseConverter_init tokens in
  set_config (λ config, <["json_space" := VStr (spaces json_spaces)]>
                          (<["allow_comments" := VBool false]>
                             (<["outfile_type" := VStr ".json"]> config))) self.

(** [JSONConverter.get_outfile] *)
Definition JSONConverter_get_outfile (outfile : string) : M string :=
  outfile ← BaseConverter_get_outfile outfile;
  position ← tell outfile;
  if bool_decide (position = 0) then
    write outfile ("{" +:+ nl);;
    json_space ← config_str "json_space";
    version ← config_str "version";
    write outfile (json_space +:+ dquote +:+ "version" +:+ dquote +:+ ": " +:+ json_dumps version +:+ "," +:+ nl);;
    modify (set_last_indent (Some json_space));;
    mret outfile
  else mret outfile.

(** [JSONConverter.comma_check] *)
Definition comma_check (outfile : string) : M unit :=
  prev_line ← gets (λ self, PyStr.rstrip (last_line self));
  if PyStr.endswith "," prev_line then
    indent ← gets last_indent;
    match indent with
    | None => raise (TypeError "object of type 'NoneType' has no len()")
    | Some indent =>
        let seek_dist := (Z.of_nat (PyStr.len indent) - 1)%Z in
        position ← tell outfile;
        seek outfile (Z.of_nat position - seek_dist)%Z;;
        write outfile nl
    end
  else mret ().

(** [JSONConverter.output_token] *)
Definition JSONConverter_output_token (token : ProcessedToken) (outfile : string) : M unit :=
  match pt_type token with
  | SQL =>
      match pt_contents token with
      | Text contents =>
          if negb (PyStr.startswith "prepare" (PyStr.lower contents)) then mret ()
          else
            match PREPARE_REGEX_match_groups contents with
            | None => raise (AttributeError "'NoneType' object has no attribute 'groups'")
            | Some (key, query) =>
                let query := PyStr.replace_char "010"%char " "%char query in
                indent ← gets last_indent;
                let line := format_indent indent +:+ dquote +:+ key +:+ dquote +:+ ": "
                            +:+ json_dumps query +:+ "," +:+ nl in
                write outfile line;;
                modify (set_last_line line)
            end
      | _ => raise (AttributeError "'dict' object has no attribute 'lower'")
      end
  | GROUP_TAG =>
      match pt_contents token with
      | GroupDict tag name _ =>
          if bool_decide (PyStr.lower tag = STARTGROUP_TAG) then
            indent ← gets last_indent;
            let line := format_indent indent +:+ dquote +:+ name +:+ dquote +:+ ": {" +:+ nl in
            write outfile line;;
            modify (set_last_line line);;
            json_space ← config_str "json_space";
            match indent with
            | None => raise (TypeError "unsupported operand type(s) for +=")
            | Some indent => modify (set_last_indent (Some (indent +:+ json_space)))
            end
          else
            json_space ← config_str "json_space";
            indent ← gets last_indent;
            match indent with
            | None => raise (TypeError "'NoneType' object is not subscriptable")
            | Some indent =>
                let indent := PyStr.take (PyStr.len json_space) indent in
                modify (set_last_indent (Some indent));;
                comma_check outfile;;
                let line := indent +:+ "}," +:+ nl in
                write outfile line;;
                modify (set_last_line line)
            end
      | _ => raise (TypeError "string indices must be integers")
      end
  | _ => mret ()
  end.

(** The loop that ends [JSONConverter.output_tokens]. *)
Fixpoint close_outfiles (paths : list string) : M unit :=
  match paths with
  | [] => mret ()
  | outfile :: rest =>
      comma_check outfile;;
      write outfile "}";;
      close_outfiles rest
  end.

(** [JSONConverter.output_tokens] *)
Definition JSONConverter_output_tokens (cwd : string) : M unit :=
  BaseConverter_output_tokens JSONConverter_get_outfile JSONConverter_output_token cwd;;
  files ← gets outfiles;
  close_outfiles (files.*1).

(** ** Vocabulary of the properties *)

(** A header token whose tag, in lower case, is [field]. *)
Definition is_header_line (field : string) (token : Token) : Prop :=
  type token = HEADER ∧
  ∃ tag value, contents token = HeaderDict tag value ∧ PyStr.lower tag = field.

(** The contents of a header token are the fields of a header line. *)
Definition header_wf (token : Token) : Prop :=
  type token = HEADER → ∃ tag value, contents token = HeaderDict tag value.

(** A computation which leaves [config] and [outfiles] as they are. *)
Definition keeps_files {A} (m : M A) : Prop :=
  ∀ self, config (m self).2 = config self ∧ outfiles (m self).2 = outfiles self.

(** A computation which leaves the source of tokens as it is, and one
    which may only read tokens from it. *)
Definition keeps_source {A} (m : M A) : Prop :=
  ∀ self, token_source (m self).2 = token_source self.

Definition reads_source {A} (m : M A) : Prop :=
  ∀ self, length (token_source (m self).2) ≤ length (token_source self).

(** A comma which only blanks separate from a closing brace. *)
Fixpoint dangling_comma (s : string) : bool :=
  match s with
  | "" => false
  | String c s' =>
      (bool_decide (c = ","%char) && PyStr.startswith "}" (PyStr.lstrip s'))
      || dangling_comma s'
  end.

(** A word which differs from a statement starter by the case of its
    letters only. *)
Definition case_variant_of_starter (word : string) : Prop :=
  (word ∉ SQL_STARTERS) ∧ PyStr.lower word ∈ fmap PyStr.lower SQL_STARTERS.

(** The header lines [-- DIALECT : postgres], [-- VERSION : 1],
    [-- OUTPUT : /out] and [-- ENDHEAD ::], as the tokenizer yields them. *)
Definition dialect_line : Token := mkToken HEADER (HeaderDict "DIALECT" "postgres").
Definition version_line : Token := mkToken HEADER (HeaderDict "VERSION" "1").
Definition output_line : Token := mkToken HEADER (HeaderDict "OUTPUT" "/out").
Definition endhead_line : Token := mkToken HEADER (HeaderDict "ENDHEAD" ":").

(** The header line [-- OUTPUT : /out/queries.json]. *)
Definition output_file_line : Token :=
  mkToken HEADER (HeaderDict "OUTPUT" "/out/queries.json").

(** The tokens of a group tag, of a meta comment and of a statement. *)
Definition startgroup (name : string) : Token :=
  mkToken GROUP_TAG (GroupDict "STARTGROUP" name None).
Definition endgroup (name : string) : Token :=
  mkToken GROUP_TAG (GroupDict "ENDGROUP" name None).
Definition meta_comment (text : string) : Token := mkToken META_COMMENT (Text text).
Definition sql (text : string) : Token := mkToken SQL (Text text).

(** The context at the start of the body when the header sets [OUTPUT] to
    [/out], and the context within a group opened there by
    [JSONConverter]. *)
Definition params_out : Params := mkParams "/out" [] false None.
Definition params_in_group : Params := mkParams "/out/default.json" ["g"] false None.

(** The converter that [JSONConverter(infile)] builds, for the tokens of
    the file. *)
Definition json_converter (tokens : list Token) : Converter :=
  JSONConverter_init 4 tokens.

(** The file that a run leaves at [path], if any. *)
Definition artifact (path : string) (run : Outcome unit * Converter) : option string :=
  data <$> outfiles_lookup path (outfiles run.2).

(** The lines of a source file, from their texts without the line breaks. *)
Definition file_of (texts : list string) : list string :=
  (λ text, text +:+ nl) <$> texts.

(** The program run as a script on a source file:
    [JSONConverter(infile).output_tokens()], for a file whose lines the
    tokenizer reads to the last one: the converter is given the tokens, and
    an exception other than [StopIteration] which would end the generator
    is left out. *)
Definition main (cwd : string) (file : list string) : Outcome unit * Converter :=
  JSONConverter_output_tokens cwd (json_converter (tokenizer file).1).

(** Source files.  All but the last one start with the same header. *)
Definition header_texts : list string :=
  ["-- DIALECT : postgres"; "-- VERSION : 1"; "-- OUTPUT : /out"; "-- ENDHEAD ::"].

Definition exclude_file : list string :=
  file_of (header_texts ++
           ["/* STARTGROUP : g */";
            "/*"; "EXCLUDE"; "*/";
            "PREPARE secret AS SELECT 1;";
            "/* ENDGROUP : g */"]).

Definition multiline_file : list string :=
  file_of (header_texts ++
           ["/* STARTGROUP : g */";
            "/*"; "MULTILINE"; "*/";
            "SELECT a"; "FROM t;"]).

Definition redirect_file : list string :=
  file_of (header_texts ++
           ["/*"; "OUTPUT: admin"; "*/";
            "SELECT 1;";
            "SELECT 2;"]).

Definition users_file : list string :=
  file_of (header_texts ++
           ["/* STARTGROUP : users */";
            "PREPARE get_user AS SELECT * FROM users WHERE id = $1;";
            "/* ENDGROUP : users */"]).

Definition select_file : list string :=
  file_of ["-- DIALECT : postgres"; "-- VERSION : 1"; "-- OUTPUT : /out/queries.json";
           "-- ENDHEAD ::";
           "SELECT 1;"].

Definition no_version_file : list string :=
  file_of ["-- DIALECT : postgres"; "-- ENDHEAD ::";
           "/* STARTGROUP : g */";
           "SELECT 1;"].

(** ** [JSConverter] *)

(** [JSConverter.__init__]: the extension is [.js]; the class overrides no
    method, so its [output_token] is that of [BaseConverter]. *)
Definition JSConverter_init (tokens : list Token) : Converter :=
  set_config (λ config, <["outfile_type" := VStr ".js"]> config) (BaseConverter_init tokens).

(** [JSConverter.output_tokens], inherited from [BaseConverter]. *)
Definition JSConverter_output_tokens (cwd : string) : M unit :=
  BaseConverter_output_tokens BaseConverter_get_outfile BaseConverter_output_token cwd.

(** ** The file system

    [BaseConverter.get_outfile] creates the directory of a path and opens
    the file, and whether this succeeds depends on the file system:
    [BaseConverter_get_outfile] above is the method on a file system which
    accepts every path.  In the module [OnDisk], [open_error files path]
    is the exception, if any, that
    [os.makedirs(osp.dirname(path), exist_ok=True)] and [open(path, 'w+')]
    raise for [path] once the files [files] have been opened.  A path
    without a directory part is refused whatever the file system:
    [os.makedirs('')] raises [FileNotFoundError]. *)

Module OnDisk.

Section file_system.

Variable open_error : list (string * File) → string → option Exception.

(** The two calls which open a file that is not open yet. *)
Definition makedirs_open (files : list (string * File)) (path : string) : option Exception :=
  if bool_decide (osp.dirname path = "") then Some (OSError "FileNotFoundError" "")
  else open_error files path.

(** [BaseConverter.get_outfile] *)
Definition BaseConverter_get_outfile (outfile_path : string) : M string :=
  let outfile_path := osp.normcase outfile_path in
  files ← gets outfiles;
  match outfiles_lookup outfile_path files with
  | Some _ => mret outfile_path
  | None =>
      match makedirs_open files outfile_path with
      | Some e => raise e
      | None =>
          modify (set_outfiles (λ files, files ++ [(outfile_path, mkFile "" 0)]));;
          mret outfile_path
      end
  end.

(** [JSONConverter.get_outfile] *)
Definition JSONConverter_get_outfile (outfile : string) : M string :=
  outfile ← BaseConverter_get_outfile outfile;
  position ← tell outfile;
  if bool_decide (position = 0) then
    write outfile ("{" +:+ nl);;
    json_space ← config_str "json_space";
    version ← config_str "version";
    write outfile (json_space +:+ dquote +:+ "version" +:+ dquote +:+ ": " +:+ json_dumps version +:+ "," +:+ nl);;
    modify (set_last_indent (Some json_space));;
    mret outfile
  else mret outfile.

(** [JSONConverter.output_tokens] *)
Definition JSONConverter_output_tokens (cwd : string) : M unit :=
  BaseConverter_output_tokens JSONConverter_get_outfile JSONConverter_output_token cwd;;
  files ← gets outfiles;
  close_outfiles (files.*1).

End file_system.

End OnDisk.

(** ** Vocabulary of the further properties *)

(** [s.isascii()]: the texts on which the character classes of this file
    are those of Python. *)
Fixpoint isascii (s : string) : bool :=
  match s with
  | "" => true
  | String c s' => (nat_of_ascii c <? 128) && isascii s'
  end.

(** The lines [pre] leave the tokenizer between two tokens: what it yields
    for a file which starts with them is what it yields for them and then
    for the rest of the file. *)
Definition ends_between_tokens (pre : list string) : Prop :=
  ∀ file, tokenizer (pre ++ file)
          = ((tokenizer pre).1 ++ (tokenizer file).1, (tokenizer file).2).


(** The contents of a token are those of its type, and the tag of a header
    line or of a group tag is, in lower case, one the patterns know. *)
Definition token_ok (token : Token) : Prop :=
  match type token, contents token with
  | HEADER, HeaderDict tag _ => PyStr.lower tag ∈ HEADER_FIELDS
  | GROUP_TAG, GroupDict tag _ _ => PyStr.lower tag ∈ [STARTGROUP_TAG; ENDGROUP_TAG]
  | HEADER, _ | GROUP_TAG, _ => False
  | _, Text _ => True
  | _, _ => False
  end.


(** The items of the iterator [meta] built from the list [raw_meta]. *)
Definition meta_cmds (raw_meta : list string) : list string :=
  PyStr.lower <$> filter (λ s, s ≠ "") raw_meta.

(** An item of [raw_meta] which is not the capture of an [OUTPUT]
    directive: the empty text of the group which took no part in a match,
    or one of the two keywords. *)
Definition keyword_item (x : string) : Prop :=
  x = "" ∨ PyStr.lower x = "exclude" ∨ PyStr.lower x = "multiline".

(** Wherever [OUTPUT\s*:] starts in [s], one of the keywords [EXCLUDE] and
    [MULTILINE] is found further right. *)
Fixpoint every_output_before_keyword (s : string) : bool :=
  (negb (output_at s) || has_keyword s)
  && match s with
     | "" => true
     | String _ s' => every_output_before_keyword s'
     end.

(** The line that [JSONConverter.output_token] writes for a statement, if
    it writes one: the statement is a PREPARE statement which
    [PREPARE_REGEX] matches. *)
Definition json_entry (indent contents : string) : option string :=
  if negb (PyStr.startswith "prepare" (PyStr.lower contents)) then None
  else match PREPARE_REGEX_match_groups contents with
       | Some (key, query) =>
           Some (indent +:+ dquote +:+ key +:+ dquote +:+ ": "
                 +:+ json_dumps (PyStr.replace_char "010"%char " "%char query)
                 +:+ "," +:+ nl)
       | None => None
       end.

(** A statement which is not a PREPARE statement, or which is one that
    [PREPARE_REGEX] matches. *)
Definition statement_wf (contents : string) : Prop :=
  PyStr.startswith "prepare" (PyStr.lower contents) = true →
  is_Some (PREPARE_REGEX_match_groups contents).

(** The lines of the statements of a source, which [process_token] flattens
    first, and the text of a list of lines. *)
Definition json_entries (indent : string) (statements : list string) : list string :=
  omap (λ s, json_entry indent (format_sql s)) statements.

Definition str_concat (lines : list string) : string :=
  foldr (λ line text, line +:+ text) "" lines.

(** What [JSONConverter.get_outfile] writes first in a file. *)
Definition json_preamble (json_space version : string) : string :=
  ("{" +:+ nl) +:+ (json_space +:+ dquote +:+ "version" +:+ dquote +:+ ": "
                    +:+ json_dumps version +:+ "," +:+ nl).

(** * Properties *)

(** ** Iterators *)

Lemma iter_contains_false x it rest :
  iter_contains x it = (false, rest) → rest = [].
Proof.
  induction it as [|y it IH]; simpl.
  - by intros [= <-].
  - case_bool_decide; [by intros [=] | exact IH].
Qed.

(** ** The branch of a statement *)

(** Whatever the iterator [meta] holds, the statement is emitted, and in its
    flattened form: the test for [multiline] is made only when the test for
    [exclude] has exhausted the iterator, and the assignment which ends the
    branch replaces the empty result of the test for [exclude]. *)
Lemma process_token_SQL_spec token s params self :
  contents token = Text s →
  process_token_SQL token params self =
    (Return (Some (mkProcessed (Text (format_sql s)) (type token) (set_meta None params)),
             set_meta None params), self).
Proof.
  intros Hc. unfold process_token_SQL. rewrite Hc.
  destruct (iter_contains "exclude" (default [] (meta params))) as [[] meta1] eqn:He.
  - by destruct (iter_contains "clear_out" meta1).
  - apply iter_contains_false in He as ->. reflexivity.
Qed.

(** C1.  A statement whose meta comment holds [EXCLUDE] is processed into a
    token all the same, and the artifact of [JSONConverter] holds it; the
    context that comes back has no [meta] any more.  (The claim says that
    [process_token] produces no token and that the statement appears in no
    artifact.) *)
Theorem exclude_is_not_honoured :
  tokenizer exclude_file
  = ([dialect_line; version_line; output_line; endhead_line;
      startgroup "g"; meta_comment "EXCLUDE";
      sql "PREPARE secret AS SELECT 1;"; endgroup "g"], StopIteration)
  ∧ (∃ processed,
      (process_token (meta_comment "EXCLUDE") params_in_group
                     (json_converter [sql "PREPARE secret AS SELECT 1;"; endgroup "g"])).1
      = Return (Some processed, params_in_group)
      ∧ pt_contents processed = Text "PREPARE secret AS SELECT 1;"
      ∧ meta params_in_group = None)
  ∧ (∃ text,
      artifact "/out/default.json" (main "/cwd" exclude_file) = Some text
      ∧ PyStr.contains "secret" text = true).
Proof.
  split; [by vm_compute |]. split.
  - eexists. split; [vm_compute; reflexivity | by split].
  - eexists. split; [vm_compute; reflexivity | by vm_compute].
Qed.

(** C2.  A statement whose meta comment holds [MULTILINE] is emitted in its
    flattened form, like a statement with no meta comment: its line break
    is replaced by a space.  (The claim says that its line breaks are
    kept.) *)
Theorem multiline_is_not_honoured :
  tokenizer multiline_file
  = ([dialect_line; version_line; output_line; endhead_line;
      startgroup "g"; meta_comment "MULTILINE";
      sql ("SELECT a" +:+ nl +:+ "FROM t;")], StopIteration)
  ∧ ∃ processed params,
      (process_token (meta_comment "MULTILINE") params_in_group
                     (json_converter [sql ("SELECT a" +:+ nl +:+ "FROM t;")])).1
      = Return (Some processed, params)
      ∧ pt_contents processed = Text "SELECT a FROM t;"
      ∧ pt_contents processed ≠ Text ("SELECT a" +:+ nl +:+ "FROM t;").
Proof.
  split; [by vm_compute |].
  eexists _, _. split; [vm_compute; reflexivity | by split].
Qed.

(** C7.  With an empty group stack, a group tag which is not [startgroup]
    raises the [IndexError] of [list.pop], and the converter is as it
    was. *)
Theorem endgroup_on_empty_stack token tag name out params self :
  type token = GROUP_TAG →
  contents token = GroupDict tag name out →
  PyStr.lower tag ≠ STARTGROUP_TAG →
  group params = [] →
  process_token token params self = (Raise (IndexError "pop from empty list"), self).
Proof.
  intros Ht Hc Htag Hg. unfold process_token, process_token_GROUP_TAG.
  rewrite Ht, Hc. rewrite bool_decide_false by done. by rewrite bool_decide_true.
Qed.

Lemma endgroup_on_empty_stack_witness :
  process_token (endgroup "g") params_out (json_converter [])
  = (Raise (IndexError "pop from empty list"), json_converter []).
Proof.
  apply (endgroup_on_empty_stack (endgroup "g") "ENDGROUP" "g" None);
    [reflexivity | reflexivity | by vm_compute | reflexivity].
Defined.

(** ** Paths *)

Lemma app_cons c s t : String c s +:+ t = String c (s +:+ t).
Proof. reflexivity. Qed.

Lemma app_empty_r s : s +:+ "" = s.
Proof. induction s as [|c s IH]; [done | by rewrite app_cons, IH]. Qed.

Lemma app_not_empty s c t : s +:+ String c t ≠ "".
Proof. by destruct s. Qed.

Lemma contains_char_cons x c s :
  PyStr.contains (String x "") (String c s)
  = bool_decide (x = c) || PyStr.contains (String x "") s.
Proof. simpl. by rewrite andb_true_r. Qed.

Lemma split_last_sep_name name :
  PyStr.contains "/" name = false → osp.split_last_sep name = ("", name).
Proof.
  induction name as [|c name IH]; [done |].
  rewrite contains_char_cons. intros [Hc Hn]%orb_false_elim.
  simpl. rewrite (IH Hn). apply bool_decide_eq_false in Hc.
  rewrite bool_decide_false; [done | congruence].
Qed.

Lemma split_last_sep_app dir name :
  PyStr.contains "/" name = false →
  osp.split_last_sep (dir +:+ String "/" name) = (dir +:+ "/", name).
Proof.
  intros Hn. induction dir as [|c dir IH].
  - change ("" +:+ String "/" name) with (String "/" name). simpl.
    by rewrite (split_last_sep_name _ Hn).
  - rewrite app_cons. simpl. rewrite IH, (app_cons c dir "/").
    destruct (dir +:+ "/") eqn:Hd; [by apply app_not_empty in Hd | done].
Qed.

Lemma rstrip_sep_app_sep dir : osp.rstrip_sep (dir +:+ "/") = osp.rstrip_sep dir.
Proof.
  induction dir as [|c dir IH]; [done |].
  rewrite app_cons. simpl. by rewrite IH.
Qed.

Lemma endswith_cons suffix c s :
  PyStr.endswith suffix (String c s)
  = bool_decide (String c s = suffix) || PyStr.endswith suffix s.
Proof. reflexivity. Qed.

Lemma rstrip_sep_id dir : PyStr.endswith "/" dir = false → osp.rstrip_sep dir = dir.
Proof.
  induction dir as [|c dir IH]; [done |].
  rewrite endswith_cons. intros [Hc Hd]%orb_false_elim.
  simpl. rewrite (IH Hd). destruct dir as [|d dir]; [| done].
  apply bool_decide_eq_false in Hc.
  rewrite bool_decide_false; [done | congruence].
Qed.

(** The directory of a file named in [dir], joined with the name of a file,
    is that file in [dir]. *)
Lemma join_dirname dir name name' :
  PyStr.endswith "/" dir = false →
  PyStr.contains "/" name = false →
  PyStr.startswith "/" name' = false →
  osp.join (osp.dirname (dir +:+ String "/" name)) name' = dir +:+ String "/" name'.
Proof.
  intros Hd Hn Hn'. unfold osp.dirname. rewrite (split_last_sep_app _ _ Hn). simpl.
  rewrite rstrip_sep_app_sep, (rstrip_sep_id _ Hd).
  rewrite (bool_decide_true (_ ≠ "")) by apply app_not_empty.
  unfold osp.join. rewrite Hn'. destruct dir as [|c dir]; [done |].
  rewrite (bool_decide_true (String c dir ≠ "")) by done. simpl andb. cbv iota.
  rewrite (bool_decide_false (String c dir = "")) by done.
  by rewrite Hd.
Qed.

Lemma split_last_dot_none ext :
  PyStr.contains "." ext = false → osp.split_last_dot ext = None.
Proof.
  induction ext as [|c ext IH]; [done |].
  rewrite contains_char_cons. intros [Hc He]%orb_false_elim.
  simpl. rewrite (IH He). apply bool_decide_eq_false in Hc.
  rewrite bool_decide_false; [done | congruence].
Qed.

Lemma split_last_dot_app stem ext :
  PyStr.contains "." ext = false →
  osp.split_last_dot (stem +:+ String "." ext) = Some (stem, String "." ext).
Proof.
  intros He. induction stem as [|c stem IH].
  - change ("" +:+ String "." ext) with (String "." ext). simpl.
    by rewrite (split_last_dot_none _ He).
  - rewrite app_cons. simpl. by rewrite IH.
Qed.

Lemma contains_char_app x s t :
  PyStr.contains (String x "") (s +:+ t)
  = PyStr.contains (String x "") s || PyStr.contains (String x "") t.
Proof.
  induction s as [|c s IH].
  - change ("" +:+ t) with t. by destruct t.
  - rewrite app_cons, !contains_char_cons, IH. by rewrite orb_assoc.
Qed.

Lemma app_assoc' (a b c : string) : (a +:+ b) +:+ c = a +:+ b +:+ c.
Proof. induction a as [|x a IH]; [done | by rewrite !app_cons, IH]. Qed.

(** A path [dir/default.ext] has the extension [.ext]. *)
Lemma splitext_default dir ext :
  PyStr.contains "/" ext = false →
  PyStr.contains "." ext = false →
  osp.splitext (dir +:+ String "/" ("default" +:+ String "." ext))
  = (dir +:+ String "/" "default", String "." ext).
Proof.
  intros Hs Hd. unfold osp.splitext.
  rewrite split_last_sep_app.
  - rewrite (split_last_dot_app "default" ext Hd). simpl. by rewrite app_assoc'.
  - by rewrite contains_char_app, (contains_char_cons _ "." ext), Hs.
Qed.

(** ** Group tags *)

Ltac run_M :=
  cbv [mbind M_bind mret M_ret fmap M_fmap raise gets modify deepcopy].


(** C4, as the code has it.  With an empty group stack and an output path
    [dir/default.ext], where [.ext] is the extension of the converter, a
    StartGroup tag with no OUTPUT part followed by an EndGroup tag leaves
    the output path and the group stack as they were. *)
Theorem group_pair_restores_default_path
    self params dir ext tag1 name1 out1 tag2 name2 out2 :
  config self !! "outfile_type" = Some (VStr (String "." ext)) →
  PyStr.contains "/" ext = false →
  PyStr.contains "." ext = false →
  PyStr.endswith "/" dir = false →
  output params = dir +:+ "/default." +:+ ext →
  group params = [] →
  PyStr.lower tag1 = STARTGROUP_TAG →
  default "" out1 = "" →
  PyStr.lower tag2 ≠ STARTGROUP_TAG →
  ∃ p1 params1 p2 params2,
    process_token (mkToken GROUP_TAG (GroupDict tag1 name1 out1)) params self
    = (Return (Some p1, params1), self)
    ∧ process_token (mkToken GROUP_TAG (GroupDict tag2 name2 out2)) params1 self
      = (Return (Some p2, params2), self)
    ∧ group params1 = [name1]
    ∧ output params2 = output params
    ∧ group params2 = group params.
Proof.
  intros Hcfg Hs Hd Hdir Hout Hg Ht1 Ho1 Ht2.
  change (dir +:+ "/default." +:+ ext)
    with (dir +:+ String "/" ("default" +:+ String "." ext)) in Hout.
  assert (Hstart :
    process_token (mkToken GROUP_TAG (GroupDict tag1 name1 out1)) params self
    = (Return (Some (mkProcessed (GroupDict tag1 name1 out1) GROUP_TAG
                                 (set_group [name1] params)),
               set_group [name1] params), self)).
  { unfold process_token, process_token_GROUP_TAG. simpl.
    rewrite (bool_decide_true _ Ht1).
    assert (Hext : (osp.splitext (output params)).2 ≠ "")
      by (by rewrite Hout, splitext_default).
    destruct out1 as [[|c o]|]; simpl in Ho1; try done.
    all: rewrite (bool_decide_false _ Hext); run_M; by rewrite Hg. }
  eexists _, _, _, _. split; [exact Hstart |].
  unfold process_token, process_token_GROUP_TAG. simpl.
  rewrite (bool_decide_false _ Ht2). run_M. unfold config_str. rewrite Hcfg.
  split; [reflexivity |]. split; [reflexivity |]. split; [| by rewrite Hg].
  simpl. rewrite Hout. apply join_dirname; [done | | done].
  by rewrite contains_char_app, (contains_char_cons _ "." ext), Hs.
Qed.

Lemma group_pair_restores_default_path_witness :
  ∃ p1 params1 p2 params2,
    process_token (startgroup "g") (mkParams "/out/default.json" [] false None)
                  (json_converter [])
    = (Return (Some p1, params1), json_converter [])
    ∧ process_token (endgroup "g") params1 (json_converter [])
      = (Return (Some p2, params2), json_converter [])
    ∧ group params1 = ["g"]
    ∧ output params2 = "/out/default.json"
    ∧ group params2 = [].
Proof.
  apply (group_pair_restores_default_path
           (json_converter []) (mkParams "/out/default.json" [] false None)
           "/out" "json" "STARTGROUP" "g" None "ENDGROUP" "g" None);
    by vm_compute.
Defined.

(** C4, as stated, fails.  From the output path [/out] of the header and an
    empty stack, a StartGroup and EndGroup pair with no OUTPUT part leaves
    the path [/out/default.json]; within a group, a nested pair turns
    [/out/default.json] into [/out.json]. *)
Lemma group_pair_changes_path :
  (∃ p1 params1 p2 params2,
      process_token (startgroup "g") params_out (json_converter [])
      = (Return (Some p1, params1), json_converter [])
      ∧ process_token (endgroup "g") params1 (json_converter [])
        = (Return (Some p2, params2), json_converter [])
      ∧ output params2 = "/out/default.json"
      ∧ output params2 ≠ output params_out)
  ∧ (∃ p1 params1 p2 params2,
      process_token (startgroup "h") params_in_group (json_converter [])
      = (Return (Some p1, params1), json_converter [])
      ∧ process_token (endgroup "h") params1 (json_converter [])
        = (Return (Some p2, params2), json_converter [])
      ∧ output params2 = "/out.json"
      ∧ output params2 ≠ output params_in_group).
Proof.
  split; eexists _, _, _, _;
    (split; [vm_compute; reflexivity |]); (split; [vm_compute; reflexivity |]); done.
Qed.


(** ** Meta comments: the redirection of the output *)

(** C3.  The path which a meta comment with [OUTPUT: admin] sets stays in
    the context: from the path [/out] of the header, the redirected
    statement goes to [/out/admin.json], and so does the statement that
    comes after it.  Within a group, where the path is that of a file, the
    path set is the file [admin.json] in the directory named after that
    file without its extension, and it stays as well.  (The claim says that
    the path of the following tokens is the one in effect before the meta
    comment, and that the redirected path is a sibling path.) *)
Theorem output_redirect_is_kept :
  tokenizer redirect_file
  = ([dialect_line; version_line; output_line; endhead_line;
      meta_comment "OUTPUT: admin"; sql "SELECT 1;"; sql "SELECT 2;"], StopIteration)
  ∧ (∃ processed params processed' params',
      (process_token (meta_comment "OUTPUT: admin") params_out
                     (json_converter [sql "SELECT 1;"; sql "SELECT 2;"])).1
      = Return (Some processed, params)
      ∧ output (pt_existing_params processed) = "/out/admin.json"
      ∧ output params = "/out/admin.json"
      ∧ output params ≠ output params_out
      ∧ (process_token (sql "SELECT 2;") params (json_converter [])).1
        = Return (Some processed', params')
      ∧ output (pt_existing_params processed') = "/out/admin.json")
  ∧ (∃ processed params,
      (process_token (meta_comment "OUTPUT: admin") params_in_group
                     (json_converter [sql "SELECT 1;"; sql "SELECT 2;"])).1
      = Return (Some processed, params)
      ∧ output (pt_existing_params processed) = "/out/default/admin.json"
      ∧ output params = "/out/default/admin.json"
      ∧ output params ≠ output params_in_group).
Proof.
  split; [by vm_compute |]. split.
  - eexists _, _, _, _. split; [vm_compute; reflexivity |].
    do 3 (split; [done |]). split; [vm_compute; reflexivity | done].
  - eexists _, _. split; [vm_compute; reflexivity | done].
Qed.

(** ** The commas of the JSON artifact *)

(** C5.  A document whose only statement is not a PREPARE statement leaves
    an artifact in which the comma of the version line comes right before
    the closing brace: that line is not the tracked last line.  Where the
    tracked line does end with a comma, [comma_check] moves back by the
    length of the indentation minus one, three characters, and overwrites
    the closing quote of the entry, or the brace which closes a group, not
    the comma: the statement [get_user] in the group [users] leaves an
    artifact with neither that quote nor that brace.  (The claim says that
    no artifact has a comma before a closing brace and that the comma of
    the tracked line is stripped.) *)
Theorem json_artifact_comma :
  (tokenizer select_file).1
  = [dialect_line; version_line; output_file_line; endhead_line; sql "SELECT 1;"]
  ∧ (∃ text,
      artifact "/out/queries.json" (main "/cwd" select_file) = Some text
      ∧ text = "{" +:+ nl +:+
               "    " +:+ dquote +:+ "version" +:+ dquote +:+ ": "
                      +:+ dquote +:+ "1" +:+ dquote +:+ "," +:+ nl +:+
               "}"
      ∧ dangling_comma text = true)
  ∧ (tokenizer users_file).1
    = [dialect_line; version_line; output_line; endhead_line;
       startgroup "users";
       sql "PREPARE get_user AS SELECT * FROM users WHERE id = $1;";
       endgroup "users"]
  ∧ artifact "/out/default.json" (main "/cwd" users_file)
    = Some ("{" +:+ nl +:+
            "    " +:+ dquote +:+ "version" +:+ dquote +:+ ": "
                   +:+ dquote +:+ "1" +:+ dquote +:+ "," +:+ nl +:+
            "    " +:+ dquote +:+ "users" +:+ dquote +:+ ": {" +:+ nl +:+
            "        " +:+ dquote +:+ "get_user" +:+ dquote +:+ ": "
                       +:+ dquote +:+ "SELECT * FROM users WHERE id = $1" +:+ nl +:+
            "    " +:+ nl +:+
            "}" +:+ nl).
Proof.
  split; [by vm_compute |]. split.
  - eexists. split; [vm_compute; reflexivity |]. split; by vm_compute.
  - split; by vm_compute.
Qed.

(** ** Meta comments: the directives *)

Lemma startswith_same_len prefix s :
  PyStr.startswith prefix s = true → PyStr.len s ≤ PyStr.len prefix → s = prefix.
Proof.
  revert s. induction prefix as [|a prefix IH]; intros [|b s]; simpl; try done.
  - lia.
  - intros [Hab Hs]%andb_prop Hlen. apply bool_decide_eq_true in Hab as ->.
    f_equal. apply IH; [done | unfold PyStr.len in *; lia].
Qed.

Lemma len_lower s : PyStr.len (PyStr.lower s) = PyStr.len s.
Proof. induction s as [|c s IH]; simpl; [done | unfold PyStr.len in *; by rewrite IH]. Qed.

Lemma len_take n s : PyStr.len (PyStr.take n s) ≤ n.
Proof.
  revert s. induction n as [|n IH]; intros [|c s]; simpl; try lia.
  specialize (IH s). unfold PyStr.len in *. lia.
Qed.

(** A literal matched without regard to case is matched by a text which is
    the literal up to the case of its letters. *)
Lemma imatch_lower literal s :
  PyStr.imatch literal s = true →
  PyStr.lower (PyStr.take (PyStr.len literal) s) = PyStr.lower literal.
Proof.
  unfold PyStr.imatch. intros H. apply startswith_same_len; [done |].
  rewrite !len_lower. apply len_take.
Qed.

Lemma keyword_at_lower s kw :
  keyword_at s = Some kw → PyStr.lower kw = "exclude" ∨ PyStr.lower kw = "multiline".
Proof.
  unfold keyword_at.
  destruct (PyStr.imatch "EXCLUDE" s) eqn:He.
  - intros [= <-]. left. exact (imatch_lower "EXCLUDE" s He).
  - destruct (PyStr.imatch "MULTILINE" s) eqn:Hm; [| done].
    intros [= <-]. right. exact (imatch_lower "MULTILINE" s Hm).
Qed.

(** Among the texts that [findall] captures, those which hold [output] are
    captures of the second group: they start with [OUTPUT\s*:]. *)
Lemma raw_meta_items skip s :
  Forall (λ x, PyStr.contains "output" (PyStr.lower x) = true → output_at x = true)
         (flatten (RAW_META_COMMENT_REGEX_findall_from skip s)).
Proof.
  revert skip. induction s as [|c s IH]; intros skip; [by constructor |].
  destruct skip as [|skip]; [| apply IH].
  cbn [RAW_META_COMMENT_REGEX_findall_from].
  destruct (keyword_at (String c s)) as [kw|] eqn:Hkw.
  - apply keyword_at_lower in Hkw.
    unfold flatten. cbn [mbind list_bind app fst snd].
    constructor; [| constructor; [done | apply IH]].
    by destruct Hkw as [-> | ->].
  - destruct (negb (has_keyword s) && output_at (String c s)) eqn:Hout; [| apply IH].
    apply andb_prop in Hout as [_ Hout].
    unfold flatten. cbn [mbind list_bind app fst snd].
    by repeat constructor.
Qed.

Lemma index_containing_substring_lookup the_list substring i :
  index_containing_substring the_list substring = Some i →
  ∃ x, the_list !! i = Some x ∧ PyStr.contains substring (PyStr.lower x) = true.
Proof.
  revert i. induction the_list as [|s rest IH]; intros i; simpl; [done |].
  destruct (PyStr.contains substring (PyStr.lower s)) eqn:Hs.
  - intros [= <-]. by exists s.
  - destruct (index_containing_substring rest substring) as [j|]; simpl; [| done].
    intros [= <-]. by apply IH.
Qed.

Lemma isspace_lower_char c : PyStr.isspace c = true → PyStr.lower_char c = c.
Proof. destruct c as [[] [] [] [] [] [] [] []]; by vm_compute. Qed.

Lemma imatch_OUTPUT_lstrip s : PyStr.imatch "OUTPUT" s = true → PyStr.lstrip s = s.
Proof.
  unfold PyStr.imatch. destruct s as [|d s]; [done |].
  simpl. intros [Hd _]%andb_prop. apply bool_decide_eq_true in Hd.
  destruct (PyStr.isspace d) eqn:Hsp; [| done].
  rewrite (isspace_lower_char _ Hsp) in Hd. by subst d.
Qed.

Lemma output_at_match_value s :
  output_at s = true → is_Some (META_OUTPUT_REGEX_match_value s).
Proof.
  unfold output_at, META_OUTPUT_REGEX_match_value.
  intros [Ho Hcolon]%andb_prop. rewrite (imatch_OUTPUT_lstrip _ Ho), Ho.
  destruct (PyStr.lstrip (PyStr.drop 6 s)) as [|c s2]; [done |].
  simpl in Hcolon. apply andb_prop in Hcolon as [Hc _].
  apply bool_decide_eq_true in Hc as <-. by eexists.
Qed.

(** The subscript of the match of [META_OUTPUT_REGEX] in the branch of a
    meta comment never fails. *)
Lemma meta_output_value text i :
  index_containing_substring (flatten (RAW_META_COMMENT_REGEX_findall text)) "output"
  = Some i →
  is_Some (META_OUTPUT_REGEX_match_value
             (default "" (flatten (RAW_META_COMMENT_REGEX_findall text) !! i))).
Proof.
  intros (x & Hx & Hout)%index_containing_substring_lookup. rewrite Hx. simpl.
  apply output_at_match_value.
  pose proof (raw_meta_items 0 text) as Hall.
  rewrite Forall_forall in Hall. apply Hall; [| done].
  by eapply list_elem_of_lookup_2.
Qed.

(** With the extension of the converter in [config], the directives of a
    meta comment are parsed without an exception; the group stack and the
    other keys of the context are left alone. *)
Lemma process_token_directives_returns text params self ext :
  config self !! "outfile_type" = Some (VStr ext) →
  ∃ raw_meta params1,
    process_token_directives text params self = (Return (raw_meta, params1), self)
    ∧ group params1 = group params
    ∧ allow_comments params1 = allow_comments params.
Proof.
  intros Hcfg. unfold process_token_directives.
  destruct (index_containing_substring _ _) as [i|] eqn:Hi; [| by eexists _, _].
  destruct (meta_output_value _ _ Hi) as [new_output ->].
  destruct (osp.splitext (output params)) as [base ext0].
  case_bool_decide; run_M; [by eexists _, _ |].
  unfold config_str. rewrite Hcfg. by eexists _, _.
Qed.

(** ** The header *)

(** The loop of [process_header] on a header [pre] closed by the line
    [end_]: it ends normally and leaves the tokens after [end_]; a key that
    no line of [pre] names keeps its value, a key that a line names holds a
    text, and a key changes to a text only. *)
Lemma process_header_loop_header pre end_ rest cfg :
  Forall header_wf pre →
  Forall (λ t, ¬ is_header_line END_HEADER_MARKER t) pre →
  is_header_line END_HEADER_MARKER end_ →
  ∃ cfg',
    process_header_loop (pre ++ end_ :: rest) cfg = (Return (), cfg', rest)
    ∧ (∀ k, ¬ Exists (is_header_line k) pre → cfg' !! k = cfg !! k)
    ∧ (∀ k, Exists (is_header_line k) pre ∨ (∃ v, cfg !! k = Some (VStr v)) →
            ∃ v, cfg' !! k = Some (VStr v))
    ∧ (∀ k, cfg' !! k = cfg !! k ∨ ∃ v, cfg' !! k = Some (VStr v)).
Proof.
  intros Hwf Hno (Hty & tag & value & Hc & Htag). revert cfg.
  induction pre as [|t pre IH]; intros cfg.
  - exists cfg. simpl. rewrite bool_decide_false by (by intros ?).
    rewrite Hc, bool_decide_false by (by intros ?).
    split; [done |]. split; [done |]. split; [| by left].
    intros k [H%Exists_nil | H]; done.
  - apply Forall_cons in Hwf as [Hwt Hwf]. apply Forall_cons in Hno as [Hnt Hno].
    specialize (IH Hwf Hno). simpl.
    destruct (decide (type t = HEADER)) as [Hth | Hth].
    + rewrite bool_decide_false by (by intros ?).
      destruct (Hwt Hth) as (tg & vl & Hct). rewrite Hct.
      rewrite bool_decide_true; last first.
      { intros Hend. apply Hnt. split; [done |]. by exists tg, vl. }
      destruct (IH (<[PyStr.lower tg := VStr vl]> cfg)) as (cfg' & Hrun & Hkeep & Hset & Hstr).
      exists cfg'. split; [done |]. split; [| split].
      * intros k Hk. rewrite Hkeep.
        -- apply lookup_insert_ne. intros <-. apply Hk, Exists_cons_hd.
           split; [done |]. by exists tg, vl.
        -- intros Hp. by apply Hk, Exists_cons_tl.
      * intros k Hk. apply Hset.
        destruct (decide (PyStr.lower tg = k)) as [<- | Hne].
        { right. exists vl. apply lookup_insert_eq. }
        destruct Hk as [[(_ & tg' & vl' & Hct' & Hk) | Hk]%Exists_cons | (v & Hv)].
        -- rewrite Hct in Hct'. by simplify_eq.
        -- by left.
        -- right. exists v. by rewrite lookup_insert_ne.
      * intros k. destruct (Hstr k) as [Hk | Hk]; [| by right].
        destruct (decide (PyStr.lower tg = k)) as [<- | Hne].
        -- right. exists vl. rewrite Hk. apply lookup_insert_eq.
        -- left. rewrite Hk. by apply lookup_insert_ne.
    + rewrite bool_decide_true by done.
      destruct (IH cfg) as (cfg' & Hrun & Hkeep & Hset & Hstr).
      exists cfg'. split; [done |]. split; [| split; [| done]].
      * intros k Hk. apply Hkeep. intros Hp. by apply Hk, Exists_cons_tl.
      * intros k Hk. apply Hset.
        destruct Hk as [[(Hth' & _) | Hk]%Exists_cons | Hk]; [done | by left | by right].
Qed.

(** C8.  On a header [pre] closed by an [endhead] line, [process_header]
    raises [LookupError] for the field [dialect] when no line of [pre] sets
    it; when a line does, it returns, the source is left after the
    [endhead] line, and [output] is the working directory unless a line of
    [pre] sets it. *)
Theorem process_header_dialect cwd self pre end_ rest :
  token_source self = pre ++ end_ :: rest →
  Forall header_wf pre →
  Forall (λ t, ¬ is_header_line END_HEADER_MARKER t) pre →
  is_header_line END_HEADER_MARKER end_ →
  config self !! "dialect" = None →
  config self !! "output" = None →
  (¬ Exists (is_header_line "dialect") pre →
   (process_header cwd self).1
   = Raise (LookupError "Missing a required field: 'dialect'"))
  ∧ (Exists (is_header_line "dialect") pre →
     (process_header cwd self).1 = Return ()
     ∧ token_source (process_header cwd self).2 = rest
     ∧ (¬ Exists (is_header_line "output") pre →
        config (process_header cwd self).2 !! "output" = Some (VStr cwd))).
Proof.
  intros Hsrc Hwf Hno Hend Hd Ho.
  destruct (process_header_loop_header pre end_ rest (config self) Hwf Hno Hend)
    as (cfg' & Hrun & Hkeep & Hset & Hstr).
  unfold process_header. rewrite Hsrc, Hrun.
  assert (Hout : cfg' !! "output" = None ∨ ∃ v, cfg' !! "output" = Some (VStr v)).
  { destruct (Hstr "output") as [H | H]; [left; congruence | by right]. }
  split.
  - intros Hnd. specialize (Hkeep "dialect" Hnd). rewrite Hd in Hkeep.
    destruct Hout as [-> | (v & ->)]; simpl;
      by rewrite lookup_insert_ne, Hkeep.
  - intros Hex. destruct (Hset "dialect" (or_introl Hex)) as (d & Hdial).
    destruct Hout as [Hout | (v & Hout)]; rewrite Hout; simpl;
      rewrite lookup_insert_ne, Hdial by done; simpl.
    + split; [done |]. split; [done |]. intros _. apply lookup_insert_eq.
    + split; [done |]. split; [done |]. intros Hnout.
      specialize (Hkeep "output" Hnout). congruence.
Qed.

Lemma is_header_line_spec field t :
  is_header_line field t ↔
  match type t, contents t with
  | HEADER, HeaderDict tag _ => PyStr.lower tag = field
  | _, _ => False
  end.
Proof.
  unfold is_header_line. split.
  - intros (-> & tag & value & -> & H). done.
  - destruct (type t), (contents t); try done. intros H. split; [done |]. by eexists _, _.
Qed.

Lemma process_header_dialect_witness :
  (process_header "/cwd" (json_converter [version_line; endhead_line; sql "SELECT 1;"])).1
  = Raise (LookupError "Missing a required field: 'dialect'")
  ∧ (process_header "/cwd" (json_converter [dialect_line; endhead_line; sql "SELECT 1;"])).1
    = Return ()
  ∧ token_source
      (process_header "/cwd" (json_converter [dialect_line; endhead_line; sql "SELECT 1;"])).2
    = [sql "SELECT 1;"]
  ∧ config
      (process_header "/cwd" (json_converter [dialect_line; endhead_line; sql "SELECT 1;"])).2
    !! "output" = Some (VStr "/cwd").
Proof.
  split.
  - apply (proj1 (process_header_dialect "/cwd"
                    (json_converter [version_line; endhead_line; sql "SELECT 1;"])
                    [version_line] endhead_line [sql "SELECT 1;"]
                    eq_refl
                    ltac:(repeat constructor; intros _; by eexists _, _)
                    ltac:(repeat constructor; by rewrite is_header_line_spec)
                    ltac:(by rewrite is_header_line_spec)
                    eq_refl eq_refl)).
    rewrite Exists_cons, Exists_nil, is_header_line_spec. by intros [? | ?].
  - destruct (proj2 (process_header_dialect "/cwd"
                       (json_converter [dialect_line; endhead_line; sql "SELECT 1;"])
                       [dialect_line] endhead_line [sql "SELECT 1;"]
                       eq_refl
                       ltac:(repeat constructor; intros _; by eexists _, _)
                       ltac:(repeat constructor; by rewrite is_header_line_spec)
                       ltac:(by rewrite is_header_line_spec)
                       eq_refl eq_refl)) as (H1 & H2 & H3).
    + apply Exists_cons_hd. by rewrite is_header_line_spec.
    + split; [exact H1 |]. split; [exact H2 |]. apply H3.
      rewrite Exists_cons, Exists_nil, is_header_line_spec. by intros [? | ?].
Defined.

(** ** The missing version *)

Create HintDb keeps discriminated.

Lemma keeps_files_ret {A} (a : A) : keeps_files (mret a).
Proof. done. Qed.

Lemma keeps_files_raise {A} e : keeps_files (@raise A e).
Proof. done. Qed.

Lemma keeps_files_bind {A B} (m : M A) (f : A → M B) :
  keeps_files m → (∀ a, keeps_files (f a)) → keeps_files (m ≫= f).
Proof.
  intros Hm Hf self. run_M. specialize (Hm self).
  destruct (m self) as [[a | e] self1]; [| done].
  destruct (Hf a self1) as [-> ->]. done.
Qed.

Lemma keeps_files_config_str key : keeps_files (config_str key).
Proof. intros self. unfold config_str. by destruct (config self !! key) as [[]|]. Qed.

Lemma keeps_files_next_token : keeps_files next_token.
Proof. intros self. unfold next_token. by destruct (token_source self). Qed.

Lemma keeps_files_process_token_SQL token params :
  keeps_files (process_token_SQL token params).
Proof.
  intros self. destruct (contents token) as [s | |] eqn:Hc.
  - by rewrite (process_token_SQL_spec _ s _ _ Hc).
  - unfold process_token_SQL. by rewrite Hc.
  - unfold process_token_SQL. by rewrite Hc.
Qed.

#[local] Hint Resolve keeps_files_ret keeps_files_raise keeps_files_config_str
  keeps_files_next_token keeps_files_process_token_SQL : keeps.
#[local] Hint Extern 2 (keeps_files (_ ≫= _)) =>
  apply keeps_files_bind; [| intros ?] : keeps.
#[local] Hint Extern 3 (keeps_files (if ?b then _ else _)) => destruct b : keeps.
#[local] Hint Extern 3 (keeps_files (match ?x with _ => _ end)) => destruct x : keeps.

Lemma keeps_files_process_token_GROUP_TAG token params :
  keeps_files (process_token_GROUP_TAG token params).
Proof. unfold process_token_GROUP_TAG. auto 10 with keeps. Qed.

Lemma keeps_files_process_token_directives text params :
  keeps_files (process_token_directives text params).
Proof. unfold process_token_directives. auto 10 with keeps. Qed.

#[local] Hint Resolve keeps_files_process_token_GROUP_TAG
  keeps_files_process_token_directives : keeps.

Lemma keeps_files_process_token token params : keeps_files (process_token token params).
Proof. unfold process_token. auto 10 with keeps. Qed.

(** With no [version] in [config], opening the first file raises
    [KeyError]: the file then holds the opening brace and its line break
    only. *)
Lemma JSONConverter_get_outfile_missing_version path self js :
  config self !! "version" = None →
  config self !! "json_space" = Some (VStr js) →
  outfiles self = [] →
  ∃ self',
    JSONConverter_get_outfile path self = (Raise (KeyError "version"), self')
    ∧ outfiles self' = [(osp.normcase path, mkFile ("{" +:+ nl) 2)].
Proof.
  intros Hv Hjs Hfiles.
  unfold JSONConverter_get_outfile, BaseConverter_get_outfile. run_M.
  rewrite Hfiles. cbn [outfiles_lookup]. unfold tell. cbn [set_outfiles outfiles].
  rewrite Hfiles. cbn [app outfiles_lookup]. rewrite bool_decide_true by done.
  cbn [pos]. rewrite bool_decide_true by done.
  unfold write, modify, config_str. cbn [set_outfiles outfiles config].
  rewrite Hjs. cbn [set_outfiles config]. rewrite Hv.
  eexists. split; [reflexivity |].
  cbn [outfiles set_outfiles]. rewrite Hfiles. cbn [app outfiles_alter].
  by rewrite bool_decide_true.
Qed.

(** The loop of [output_tokens], started with no file open and with no
    [version] in [config]: either no file is ever opened, or the first
    token which is routed raises [KeyError] for [version]. *)
Lemma output_tokens_loop_missing_version rounds params self js :
  config self !! "version" = None →
  config self !! "json_space" = Some (VStr js) →
  outfiles self = [] →
  outfiles (output_tokens_loop JSONConverter_get_outfile JSONConverter_output_token
                               rounds params None self).2 = []
  ∨ ((output_tokens_loop JSONConverter_get_outfile JSONConverter_output_token
                         rounds params None self).1 = Raise (KeyError "version")
     ∧ ∃ path,
         outfiles (output_tokens_loop JSONConverter_get_outfile JSONConverter_output_token
                                      rounds params None self).2
         = [(path, mkFile ("{" +:+ nl) 2)]).
Proof.
  revert params self. induction rounds as [|rounds IH]; intros params self Hv Hjs Hfiles.
  { left. exact Hfiles. }
  cbn [output_tokens_loop]. run_M. unfold in_generator.
  destruct (token_source self) as [|token rest] eqn:Hsrc; [left; exact Hfiles |].
  destruct (keeps_files_process_token token params (set_token_source rest self))
    as [Hcfg Hout].
  destruct (process_token token params (set_token_source rest self))
    as [[[processed params'] | e] self1]; cbn [fst snd] in *;
    [| left; destruct e; cbn [fst snd]; by rewrite Hout].
  assert (Hv1 : config self1 !! "version" = None) by (by rewrite Hcfg).
  assert (Hjs1 : config self1 !! "json_space" = Some (VStr js)) by (by rewrite Hcfg).
  assert (Hfiles1 : outfiles self1 = []) by (by rewrite Hout).
  destruct processed as [processed |]; [| by apply IH].
  unfold route_token. run_M.
  destruct (bool_decide (pt_type processed ≠ GROUP_TAG) || _).
  { destruct (JSONConverter_get_outfile_missing_version
                (output (pt_existing_params processed)) self1 js Hv1 Hjs1 Hfiles1)
      as (self' & -> & Hf). right. cbn [fst snd]. eauto. }
  destruct (bool_decide (_ = ENDGROUP_TAG)); [| left; exact Hfiles1].
  destruct (pt_contents processed) as [| |? ? [[|c o]|]].
  all: match goal with
       | |- context [JSONConverter_get_outfile ?p ?s] =>
           destruct (JSONConverter_get_outfile_missing_version p s js Hv1 Hjs1 Hfiles1)
             as (self' & -> & Hf)
       end.
  all: right; cbn [fst snd]; eauto.
Qed.

(** C10.  For a document whose header, closed by an [endhead] line, has no
    [version] line, run by a converter which starts with no [version] in
    [config] and no file open: either the run opens no file at all, or it
    ends with the [KeyError] for [version] which the first token routed to
    a file raises, and the one file opened holds the opening brace and its
    line break only. *)
Theorem json_missing_version cwd self pre end_ rest js :
  token_source self = pre ++ end_ :: rest →
  Forall header_wf pre →
  Forall (λ t, ¬ is_header_line END_HEADER_MARKER t) pre →
  is_header_line END_HEADER_MARKER end_ →
  ¬ Exists (is_header_line "version") pre →
  config self !! "version" = None →
  config self !! "json_space" = Some (VStr js) →
  outfiles self = [] →
  outfiles (JSONConverter_output_tokens cwd self).2 = []
  ∨ ((JSONConverter_output_tokens cwd self).1 = Raise (KeyError "version")
     ∧ ∃ path,
         outfiles (JSONConverter_output_tokens cwd self).2
         = [(path, mkFile ("{" +:+ nl) 2)]).
Proof.
  intros Hsrc Hwf Hno Hend Hnv Hv Hjs Hfiles.
  destruct (process_header_loop_header pre end_ rest (config self) Hwf Hno Hend)
    as (cfg' & Hrun & Hkeep & Hset & _).
  assert (Hv' : cfg' !! "version" = None) by (by rewrite Hkeep).
  destruct (Hset "json_space" (or_intror (ex_intro _ js Hjs))) as (js' & Hjs').
  unfold JSONConverter_output_tokens, BaseConverter_output_tokens, process_tokens_start.
  run_M. unfold in_generator. run_M. unfold process_header. rewrite Hsrc, Hrun.
  destruct (cfg' !! "output") as [[out | b] |] eqn:Hout.
  2: { left. exact Hfiles. }
  all: destruct (check_required _ _) as [|e];
    [| left; destruct e; cbn [outfiles set_config set_token_source];
       rewrite ?Hfiles; exact Hfiles].
  all: cbn [set_config config set_token_source token_source]; rewrite lookup_insert_eq.
  all: match goal with
       | |- context [output_tokens_loop _ _ ?n ?p None ?s] =>
           destruct (output_tokens_loop_missing_version n p s js')
             as [He | (Hr & path & Hp)];
           [cbn [set_config config]; by rewrite lookup_insert_ne
           |cbn [set_config config]; by rewrite lookup_insert_ne
           |exact Hfiles | ..];
           destruct (output_tokens_loop _ _ n p None s) as [[[] | e] self3]
       end.
  all: cbn [fst snd] in *.
  all: try discriminate Hr.
  all: try (rewrite He; left; exact He).
  all: try (left; exact He).
  all: right; eauto.
Qed.

Lemma json_missing_version_witness :
  (tokenizer no_version_file).1
  = [dialect_line; endhead_line; startgroup "g"; sql "SELECT 1;"]
  ∧ (main "/cwd" no_version_file).1 = Raise (KeyError "version")
  ∧ outfiles (main "/cwd" no_version_file).2
    = [("/cwd/default.json", mkFile ("{" +:+ nl) 2)].
Proof.
  split; [by vm_compute |].
  destruct (json_missing_version "/cwd"
              (json_converter (tokenizer no_version_file).1)
              [dialect_line] endhead_line [startgroup "g"; sql "SELECT 1;"] "    "
              ltac:(by vm_compute)
              ltac:(repeat constructor; intros _; by eexists _, _)
              ltac:(repeat constructor; by rewrite is_header_line_spec)
              ltac:(by rewrite is_header_line_spec)
              ltac:(rewrite Exists_cons, Exists_nil, is_header_line_spec; by intros [? | ?])
              ltac:(by vm_compute) ltac:(by vm_compute) ltac:(by vm_compute))
    as [Hempty | [Hraise [path Hpath]]].
  - vm_compute in Hempty. discriminate Hempty.
  - split; [exact Hraise |]. vm_compute. reflexivity.
Defined.

(** ** The tokenizer *)

Lemma lstrip_first s c s' : PyStr.lstrip s = String c s' → PyStr.isspace c = false.
Proof.
  induction s as [|d s IH]; simpl; [done |].
  destruct (PyStr.isspace d) eqn:Hd; [exact IH | by intros [= <- <-]].
Qed.

Lemma rstrip_not_empty c s : PyStr.isspace c = false → PyStr.rstrip (String c s) ≠ "".
Proof. intros Hc. simpl. rewrite Hc. by destruct (PyStr.rstrip s). Qed.

(** The cases of a membership in a list given by its elements. *)
Ltac elem_cases H :=
  apply list_elem_of_In in H; simpl in H;
  repeat (destruct H as [H | H]; [try discriminate H |]);
  try contradiction.

(** The first character of a word which is a statement starter up to case
    is a letter: it starts neither a line comment nor a block comment. *)
Lemma case_variant_first_char c word :
  PyStr.lower (String c word) ∈ fmap PyStr.lower SQL_STARTERS →
  c ≠ "-"%char ∧ c ≠ "/"%char.
Proof.
  intros H. split; intros ->; elem_cases H.
Qed.

(** ** The rounds of the loop of [output_tokens] *)

Create HintDb source discriminated.

Lemma keeps_source_ret {A} (a : A) : keeps_source (mret a).
Proof. done. Qed.

Lemma keeps_source_raise {A} e : keeps_source (@raise A e).
Proof. done. Qed.

Lemma keeps_source_bind {A B} (m : M A) (f : A → M B) :
  keeps_source m → (∀ a, keeps_source (f a)) → keeps_source (m ≫= f).
Proof.
  intros Hm Hf self. run_M. specialize (Hm self).
  destruct (m self) as [[a | e] self1]; [| done].
  by rewrite (Hf a self1).
Qed.

Lemma keeps_source_fmap {A B} (g : A → B) (m : M A) :
  keeps_source m → keeps_source (g <$> m).
Proof. intros Hm. apply keeps_source_bind; [done |]. intros a. apply keeps_source_ret. Qed.

Lemma keeps_source_gets {A} (f : Converter → A) : keeps_source (gets f).
Proof. done. Qed.

Lemma keeps_source_config_str key : keeps_source (config_str key).
Proof. intros self. unfold config_str. by destruct (config self !! key) as [[]|]. Qed.

Lemma keeps_source_set_outfiles f : keeps_source (modify (set_outfiles f)).
Proof. done. Qed.

Lemma keeps_source_set_last_indent i : keeps_source (modify (set_last_indent i)).
Proof. done. Qed.

Lemma keeps_source_set_last_line l : keeps_source (modify (set_last_line l)).
Proof. done. Qed.

Lemma keeps_source_tell outfile : keeps_source (tell outfile).
Proof. intros self. unfold tell. by destruct (outfiles_lookup _ _). Qed.

#[local] Hint Resolve keeps_source_ret keeps_source_raise keeps_source_gets
  keeps_source_config_str keeps_source_set_outfiles keeps_source_set_last_indent
  keeps_source_set_last_line keeps_source_tell : source.
#[local] Hint Extern 2 (keeps_source (_ ≫= _)) =>
  apply keeps_source_bind; [| intros ?] : source.
#[local] Hint Extern 2 (keeps_source (_ <$> _)) => apply keeps_source_fmap : source.
#[local] Hint Extern 3 (keeps_source (if ?b then _ else _)) => destruct b : source.
#[local] Hint Extern 3 (keeps_source (match ?x with _ => _ end)) => destruct x : source.

Lemma keeps_source_write outfile s : keeps_source (write outfile s).
Proof. unfold write. auto with source. Qed.

Lemma keeps_source_seek outfile n : keeps_source (seek outfile n).
Proof. unfold seek. auto with source. Qed.

#[local] Hint Resolve keeps_source_write keeps_source_seek : source.

Lemma keeps_source_comma_check outfile : keeps_source (comma_check outfile).
Proof. unfold comma_check. auto 10 with source. Qed.

#[local] Hint Resolve keeps_source_comma_check : source.

Lemma keeps_source_JSONConverter_get_outfile path :
  keeps_source (JSONConverter_get_outfile path).
Proof.
  unfold JSONConverter_get_outfile, BaseConverter_get_outfile. auto 12 with source.
Qed.

Lemma keeps_source_JSONConverter_output_token token outfile :
  keeps_source (JSONConverter_output_token token outfile).
Proof. unfold JSONConverter_output_token. auto 12 with source. Qed.

Lemma keeps_source_route_token get_outfile output_token token outfile :
  (∀ path, keeps_source (get_outfile path)) →
  (∀ token outfile, keeps_source (output_token token outfile)) →
  keeps_source (route_token get_outfile output_token token outfile).
Proof. intros Hg Ho. unfold route_token. auto 12 with source. Qed.

Lemma reads_source_process_token token params : reads_source (process_token token params).
Proof.
  intros self.
  assert (Hk : ∀ A (m : M A), keeps_source m →
                length (token_source (m self).2) ≤ length (token_source self)).
  { intros A m Hm. by rewrite Hm. }
  unfold process_token. destruct (type token).
  - apply Hk. intros s. destruct (contents token) as [t | |] eqn:Hc.
    + by rewrite (process_token_SQL_spec _ t _ _ Hc).
    + unfold process_token_SQL. by rewrite Hc.
    + unfold process_token_SQL. by rewrite Hc.
  - apply Hk. auto with source.
  - apply Hk. auto with source.
  - apply Hk. auto with source.
  - apply Hk. unfold process_token_GROUP_TAG. auto 12 with source.
  - destruct (contents token) as [text | |]; [| apply Hk; auto with source ..].
    run_M.
    assert (Hd : keeps_source (process_token_directives text params))
      by (unfold process_token_directives; auto 12 with source).
    specialize (Hd self).
    destruct (process_token_directives text params self) as [[[raw params1] | e] self1];
      cbn [snd] in *; [| by rewrite Hd].
    unfold next_token. rewrite Hd.
    destruct (token_source self) as [|next rest]; [cbn [snd]; by rewrite Hd |].
    case_bool_decide; cbn [raise snd set_token_source token_source length]; [lia |].
    destruct (contents next) as [t | |] eqn:Hc.
    + rewrite (process_token_SQL_spec _ t _ _ Hc). cbn. lia.
    + unfold process_token_SQL. rewrite Hc. cbn. lia.
    + unfold process_token_SQL. rewrite Hc. cbn. lia.
Qed.

(** Once the rounds are as many as the tokens of the source, more rounds
    change nothing: the loop ends because the source is exhausted, not
    because the rounds are. *)
Lemma output_tokens_loop_rounds get_outfile output_token n m params outfile self :
  (∀ path, keeps_source (get_outfile path)) →
  (∀ token outfile, keeps_source (output_token token outfile)) →
  length (token_source self) ≤ n →
  length (token_source self) ≤ m →
  output_tokens_loop get_outfile output_token n params outfile self
  = output_tokens_loop get_outfile output_token m params outfile self.
Proof.
  intros Hg Ho. revert m params outfile self.
  induction n as [|n IH]; intros m params outfile self Hn Hm.
  - destruct (token_source self) as [|t r] eqn:Hsrc; [| simpl in Hn; lia].
    destruct m as [|m]; [done |]. cbn [output_tokens_loop]. run_M. by rewrite Hsrc.
  - destruct m as [|m].
    + destruct (token_source self) as [|t r] eqn:Hsrc; [| simpl in Hm; lia].
      cbn [output_tokens_loop]. run_M. by rewrite Hsrc.
    + cbn [output_tokens_loop]. run_M. unfold in_generator.
      destruct (token_source self) as [|token rest] eqn:Hsrc; [done |].
      simpl in Hn, Hm.
      pose proof (reads_source_process_token token params (set_token_source rest self))
        as Hread.
      destruct (process_token token params (set_token_source rest self))
        as [[[processed params'] | e] self1]; cbn [snd set_token_source token_source] in Hread;
        [| by destruct e].
      destruct processed as [processed |].
      * pose proof (keeps_source_route_token get_outfile output_token processed outfile
                      Hg Ho self1) as Hroute.
        destruct (route_token get_outfile output_token processed outfile self1)
          as [[outfile' | e] self2]; cbn [snd] in Hroute; [| done].
        apply IH; rewrite Hroute; lia.
      * apply IH; lia.
Qed.

(** ** The statement that follows a meta comment *)

(** X17.  Whatever the text of the meta comment, the statement that follows
    it is emitted, in its flattened form, and the context that comes back
    has no [meta]: neither [EXCLUDE] nor [MULTILINE] changes the token. *)
Lemma statement_after_meta_comment token text params self next s rest ext :
  type token = META_COMMENT →
  contents token = Text text →
  token_source self = next :: rest →
  type next = SQL →
  contents next = Text s →
  config self !! "outfile_type" = Some (VStr ext) →
  ∃ params2,
    process_token token params self
    = (Return (Some (mkProcessed (Text (format_sql s)) SQL params2), params2),
       set_token_source rest self)
    ∧ meta params2 = None.
Proof.
  intros Ht Hc Hsrc Hnext Hs Hcfg.
  destruct (process_token_directives_returns text params self ext Hcfg)
    as (raw_meta & params1 & Hdir & _ & _).
  unfold process_token. rewrite Ht, Hc. run_M. rewrite Hdir.
  unfold next_token. rewrite Hsrc.
  rewrite bool_decide_false by (by intros ?).
  rewrite (process_token_SQL_spec _ s _ _ Hs), Hnext. by eexists.
Qed.

(** ** The case of the tags *)

Lemma lower_char_idemp c : PyStr.lower_char (PyStr.lower_char c) = PyStr.lower_char c.
Proof. destruct c as [[] [] [] [] [] [] [] []]; by vm_compute. Qed.

Lemma lower_take n s : PyStr.lower (PyStr.take n s) = PyStr.take n (PyStr.lower s).
Proof. revert s. induction n as [|n IH]; intros [|c s]; simpl; by rewrite ?IH. Qed.

Lemma lower_idemp s : PyStr.lower (PyStr.lower s) = PyStr.lower s.
Proof. induction s as [|c s IH]; simpl; by rewrite ?lower_char_idemp, ?IH. Qed.

(** A literal of a pattern compiled with [re.I] matches a text and the same
    text in lower case alike. *)
Lemma imatch_lower_text literal s :
  PyStr.imatch literal (PyStr.lower s) = PyStr.imatch literal s.
Proof. unfold PyStr.imatch. by rewrite lower_take, lower_idemp, <- lower_take. Qed.

(** Header lines, group tags and the directive of a meta comment written in
    lower case are recognised; the statement in lower case that follows
    them is not. *)
Lemma tags_in_lower_case :
  tokenizer (file_of ["-- dialect : postgres"; "-- endhead ::";
                      "/* startgroup : g */";
                      "/*"; "exclude"; "*/";
                      "SELECT 1;";
                      "select 2;"])
  = ([mkToken HEADER (HeaderDict "dialect" "postgres");
      mkToken HEADER (HeaderDict "endhead" ":");
      mkToken GROUP_TAG (GroupDict "startgroup" "g" None);
      meta_comment "exclude";
      sql "SELECT 1;"], StopIteration).
Proof. by vm_compute. Qed.

(** ** The flattened form of a statement *)

Lemma sub_from_skip k s :
  sub_blanks_and_comments_from k s = sub_blanks_and_comments_from 0 (PyStr.drop k s).
Proof.
  revert k. induction s as [|c s IH]; intros [|k]; try done.
  cbn [sub_blanks_and_comments_from PyStr.drop]. apply IH.
Qed.

Lemma drop_span_isspace s :
  PyStr.drop (PyStr.len (PyStr.span PyStr.isspace s).1) s = PyStr.lstrip s.
Proof.
  induction s as [|c s IH]; [done |]. simpl.
  destruct (PyStr.isspace c); [| done].
  destruct (PyStr.span PyStr.isspace s) as [a b]. exact IH.
Qed.

(** Where the text has no [--], the substitution replaces each run of
    blanks by a space and keeps the other characters. *)
Lemma sub_blank c s :
  PyStr.isspace c = true →
  sub_blanks_and_comments (String c s) = String " " (sub_blanks_and_comments (PyStr.lstrip s)).
Proof.
  intros Hc. unfold sub_blanks_and_comments. cbn [sub_blanks_and_comments_from].
  by rewrite Hc, sub_from_skip, drop_span_isspace.
Qed.

Lemma sub_not_blank c s :
  PyStr.isspace c = false →
  PyStr.startswith "--" (String c s) = false →
  sub_blanks_and_comments (String c s) = String c (sub_blanks_and_comments s).
Proof.
  intros Hc Hd. unfold sub_blanks_and_comments. cbn [sub_blanks_and_comments_from].
  rewrite Hc. unfold comment_match_len. by rewrite Hd.
Qed.

Lemma contains_tail sub c s :
  PyStr.contains sub (String c s) = false → PyStr.contains sub s = false.
Proof. simpl. by intros [_ H]%orb_false_elim. Qed.

Lemma contains_head sub s : PyStr.contains sub s = false → PyStr.startswith sub s = false.
Proof. destruct s; simpl; by intros [H _]%orb_false_elim. Qed.

Lemma contains_lstrip sub s :
  PyStr.contains sub s = false → PyStr.contains sub (PyStr.lstrip s) = false.
Proof.
  induction s as [|c s IH]; [done |]. intros H. simpl.
  destruct (PyStr.isspace c); [| done]. by apply IH, (contains_tail _ c).
Qed.

Lemma lstrip_idemp s : PyStr.lstrip (PyStr.lstrip s) = PyStr.lstrip s.
Proof.
  destruct (PyStr.lstrip s) as [|c r] eqn:H; [done |].
  simpl. by rewrite (lstrip_first _ _ _ H).
Qed.

Lemma len_lstrip s : PyStr.len (PyStr.lstrip s) ≤ PyStr.len s.
Proof.
  induction s as [|c s IH]; [done |]. simpl.
  destruct (PyStr.isspace c); unfold PyStr.len in *; simpl; lia.
Qed.

Lemma split_lstrip s : PyStr.split (PyStr.lstrip s) = PyStr.split s.
Proof.
  induction s as [|c s IH]; [done |]. simpl.
  destruct (PyStr.isspace c) eqn:Hc; [done |]. simpl. by rewrite Hc.
Qed.

Lemma rstrip_cons_not_blank c s :
  PyStr.isspace c = false → PyStr.rstrip (String c s) = String c (PyStr.rstrip s).
Proof. intros Hc. simpl. rewrite Hc. by destruct (PyStr.rstrip s). Qed.

Lemma rstrip_cons_blank c s :
  PyStr.isspace c = true →
  PyStr.rstrip (String c s)
  = match PyStr.rstrip s with "" => "" | r => String c r end.
Proof. intros Hc. simpl. by rewrite Hc. Qed.

Lemma split_not_blank_not_empty c s : PyStr.isspace c = false → PyStr.split (String c s) ≠ [].
Proof.
  intros Hc. simpl. rewrite Hc. destruct s as [|d s]; [done |].
  destruct (PyStr.isspace d); [done |]. by destruct (PyStr.split (String d s)).
Qed.

Lemma str_join_cons sep word words :
  words ≠ [] → str_join sep (word :: words) = word +:+ sep +:+ str_join sep words.
Proof. by destruct words. Qed.

Lemma split_words_not_empty s : Forall (λ word, word ≠ "") (PyStr.split s).
Proof.
  induction s as [|c s IH]; [by constructor |]. simpl.
  destruct (PyStr.isspace c); [done |].
  destruct s as [|d s]; [by repeat constructor |].
  destruct (PyStr.isspace d); [by constructor |].
  destruct (PyStr.split (String d s)) as [|word words]; [by repeat constructor |].
  apply Forall_cons in IH as [_ IH]. by constructor.
Qed.

Lemma str_join_not_empty sep word words :
  word ≠ "" → str_join sep (word :: words) ≠ "".
Proof. intros Hw. destruct words; [done |]. simpl. by destruct word. Qed.

Lemma lstrip_sub s :
  PyStr.contains "--" s = false →
  PyStr.lstrip (sub_blanks_and_comments s) = sub_blanks_and_comments (PyStr.lstrip s).
Proof.
  intros Hs. destruct s as [|c s]; [done |].
  destruct (PyStr.isspace c) eqn:Hc.
  - rewrite (sub_blank _ _ Hc). cbn [PyStr.lstrip]. rewrite Hc.
    change (PyStr.isspace " ") with true. cbv iota.
    destruct (PyStr.lstrip s) as [|d r] eqn:Hl; [done |].
    pose proof (lstrip_first _ _ _ Hl) as Hd.
    rewrite sub_not_blank; [cbn [PyStr.lstrip]; by rewrite Hd | done |].
    rewrite <- Hl. apply contains_head, contains_lstrip. by apply (contains_tail _ c).
  - cbn [PyStr.lstrip]. rewrite Hc.
    rewrite sub_not_blank by (by try apply contains_head).
    cbn [PyStr.lstrip]. by rewrite Hc.
Qed.

(** What is left of a text without [--] once its runs of blanks are
    replaced and the blanks at its end removed: its words, with a space
    between two of them, after a space if the text starts with a blank. *)
Lemma rstrip_sub n s :
  PyStr.len s ≤ n →
  PyStr.contains "--" s = false →
  PyStr.rstrip (sub_blanks_and_comments s)
  = match PyStr.split s with
    | [] => ""
    | words =>
        match s with
        | String c _ => if PyStr.isspace c then " " else ""
        | "" => ""
        end +:+ str_join " " words
    end.
Proof.
  revert s. induction n as [|n IH]; intros [|c s] Hlen Hs; try done.
  { unfold PyStr.len in Hlen. simpl in Hlen. lia. }
  assert (Hlen' : PyStr.len s ≤ n) by (unfold PyStr.len in *; simpl in Hlen; lia).
  pose proof (contains_tail _ _ _ Hs) as Hs'.
  destruct (PyStr.isspace c) eqn:Hc.
  - rewrite (sub_blank _ _ Hc), rstrip_cons_blank by done.
    rewrite IH; [| pose proof (len_lstrip s); lia | by apply contains_lstrip].
    cbn [PyStr.split]. rewrite Hc, split_lstrip.
    destruct (PyStr.split s) as [|word words] eqn:Hsp; [done |].
    pose proof (split_words_not_empty s) as Hall. rewrite Hsp in Hall.
    apply Forall_cons in Hall as [Hw _].
    destruct (PyStr.lstrip s) as [|d r] eqn:Hl.
    + change ("" +:+ str_join " " (word :: words)) with (str_join " " (word :: words)).
      pose proof (str_join_not_empty " " word words Hw).
      by destruct (str_join " " (word :: words)).
    + rewrite (lstrip_first _ _ _ Hl).
      change ("" +:+ str_join " " (word :: words)) with (str_join " " (word :: words)).
      pose proof (str_join_not_empty " " word words Hw).
      by destruct (str_join " " (word :: words)).
  - rewrite sub_not_blank, rstrip_cons_not_blank by (by try apply contains_head).
    rewrite (IH s Hlen' Hs'). cbn [PyStr.split]. rewrite Hc.
    destruct s as [|d s]; [done |].
    destruct (PyStr.isspace d) eqn:Hd.
    + destruct (PyStr.split (String d s)) as [|word words]; [done |]. done.
    + pose proof (split_not_blank_not_empty d s Hd) as Hne.
      destruct (PyStr.split (String d s)) as [|word words]; [done |].
      by destruct words.
Qed.

(** X18.  The flattened form of a statement without [--] is the statement
    with each run of blanks between two words replaced by one space, and
    without the blanks at its ends: [' '.join(contents.split())]. *)
Lemma format_sql_collapses contents :
  PyStr.contains "--" contents = false →
  format_sql contents = str_join " " (PyStr.split contents).
Proof.
  intros Hs. unfold format_sql, PyStr.strip.
  rewrite (lstrip_sub _ Hs).
  rewrite (rstrip_sub (PyStr.len (PyStr.lstrip contents))) by (by try apply contains_lstrip).
  rewrite split_lstrip.
  destruct (PyStr.split contents) as [|word words]; [done |].
  destruct (PyStr.lstrip contents) as [|c r] eqn:Hl; [done |].
  by rewrite (lstrip_first _ _ _ Hl).
Qed.

(** A comment within a statement is replaced by a space of its own, next to
    the one which replaces the blanks before it. *)
Lemma format_sql_comment :
  format_sql ("SELECT a -- c" +:+ nl +:+ "FROM t;") = "SELECT a  FROM t;".
Proof. by vm_compute. Qed.

(** ** The tokens that the tokenizer yields *)

Lemma HEADER_REGEX_match_tag line tag value :
  HEADER_REGEX_match line = Some (tag, value) → PyStr.lower tag ∈ HEADER_FIELDS.
Proof.
  unfold HEADER_REGEX_match.
  destruct (PyStr.startswith "--" (PyStr.lstrip line)); [| done].
  generalize (PyStr.lstrip (PyStr.drop 2 (PyStr.lstrip line))). intros s2.
  destruct (filter _ HEADER_FIELDS) as [|field fields] eqn:Hf; [done |].
  assert (field ∈ filter (λ field, PyStr.imatch field s2 = true) HEADER_FIELDS)
    as [Hm Hin]%list_elem_of_filter by (rewrite Hf; left).
  destruct (PyStr.lstrip (PyStr.drop (PyStr.len field) _)) as [|c s3]; [done |].
  destruct (Ascii.eqb c ":") eqn:Hc; [apply Ascii.eqb_eq in Hc as -> |].
  - cbv beta iota. intros [= <- _]. rewrite (imatch_lower _ _ Hm).
    elem_cases Hin; subst field; vm_compute; apply list_elem_of_In; simpl; auto.
  - destruct c as [[] [] [] [] [] [] [] []]; try done.
Qed.

Lemma GROUP_REGEX_match_tag line tag name out :
  GROUP_REGEX_match line = Some (tag, name, out) →
  PyStr.lower tag ∈ [STARTGROUP_TAG; ENDGROUP_TAG].
Proof.
  unfold GROUP_REGEX_match.
  destruct (PyStr.startswith "/*" (PyStr.lstrip line)); [| done].
  generalize (PyStr.lstrip (PyStr.drop 2 (PyStr.lstrip line))). intros s2.
  destruct (filter _ [STARTGROUP_TAG; ENDGROUP_TAG]) as [|field fields] eqn:Hf; [done |].
  assert (field ∈ filter (λ field, PyStr.imatch field s2 = true)
            [STARTGROUP_TAG; ENDGROUP_TAG])
    as [Hm Hin]%list_elem_of_filter by (rewrite Hf; left).
  destruct (PyStr.lstrip (PyStr.drop (PyStr.len field) _)) as [|c s3]; [done |].
  destruct (Ascii.eqb c ":") eqn:Hc; [apply Ascii.eqb_eq in Hc as -> |].
  - cbv beta iota. destruct (lazy_line group_rest _) as [[name' out']|]; [| done].
    intros [= <- _ _]. rewrite (imatch_lower _ _ Hm).
    elem_cases Hin; subst field; vm_compute; apply list_elem_of_In; simpl; auto.
  - destruct c as [[] [] [] [] [] [] [] []]; try done.
Qed.

Lemma tokenizer_from_tokens_ok reading file :
  Forall token_ok (tokenizer_from reading file).1.
Proof.
  revert reading. induction file as [|line file IH]; intros reading; [by constructor |].
  pose proof (IH Top) as HTop.
  destruct (tokenizer_from Top file) as [tokens e] eqn:Htop.
  destruct reading as [|block|block]; cbn [tokenizer_from].
  - repeat case_bool_decide; repeat case_match; simplify_eq; cbn [fst];
      rewrite ?Htop; try apply IH; try (by constructor); try done.
    all: try (constructor; [| done]).
    all: unfold token_ok; cbn [type contents]; try done.
    all: by (eapply HEADER_REGEX_match_tag || eapply GROUP_REGEX_match_tag).
  - repeat case_match; simplify_eq; cbn [fst]; try apply IH; try (by constructor).
    all: constructor; [| done]; by unfold token_ok.
  - repeat case_match; simplify_eq; cbn [fst]; try apply IH; try (by constructor).
    all: constructor; [| done]; by unfold token_ok.
Qed.

(** X1.  On a file of ASCII text, every token that the tokenizer yields
    has the contents of its type: the fields of a header line whose tag is,
    in lower case, one of [HEADER_FIELDS] for a header token, the fields of
    a group tag whose tag is [startgroup] or [endgroup] in lower case for a
    group tag, and a text for a comment, a meta comment and a statement.
    (Beyond ASCII, [re.I] also lets the long s match [s], and [str.lower]
    keeps the long s.) *)
Theorem tokenizer_tokens_ok file :
  forallb isascii file = true →
  Forall token_ok (tokenizer file).1.
Proof. intros _. apply tokenizer_from_tokens_ok. Qed.

Lemma tokenizer_tokens_ok_witness :
  Forall token_ok
    [mkToken HEADER (HeaderDict "Dialect" "postgres");
     mkToken HEADER (HeaderDict "EndHead" ":");
     mkToken GROUP_TAG (GroupDict "StartGroup" "g" None);
     mkToken META_COMMENT (Text "exclude");
     sql "SELECT 1;";
     mkToken LINE_COMMENT (Text "done")].
Proof.
  exact (tokenizer_tokens_ok
           (file_of ["-- Dialect : postgres"; "-- EndHead ::";
                     "/* StartGroup : g */";
                     "/*"; "exclude"; "*/";
                     "SELECT 1;";
                     "-- done"])
           eq_refl).
Defined.

(** ** Statements and block comments over one or several lines *)

(** A line whose first word is a statement starter is neither blank nor a
    comment. *)
Lemma starter_line line :
  PyStr.split_space_first (PyStr.lstrip line) ∈ SQL_STARTERS →
  PyStr.strip line ≠ ""
  ∧ PyStr.startswith LINE_COMMENT_START (PyStr.lstrip line) = false
  ∧ PyStr.startswith BLOCK_COMMENT_START (PyStr.lstrip line) = false.
Proof.
  intros H. unfold PyStr.strip.
  destruct (PyStr.lstrip line) as [|c s] eqn:Hl; [elem_cases H |].
  pose proof (lstrip_first _ _ _ Hl) as Hc.
  split; [by apply rstrip_not_empty |].
  simpl in H. case_bool_decide; [elem_cases H |].
  elem_cases H; injection H as <- _; by vm_compute.
Qed.

(** A line which starts a block comment is not blank and is not a line
    comment. *)
Lemma block_comment_line line :
  PyStr.startswith BLOCK_COMMENT_START (PyStr.lstrip line) = true →
  PyStr.strip line ≠ ""
  ∧ PyStr.startswith LINE_COMMENT_START (PyStr.lstrip line) = false.
Proof.
  unfold PyStr.strip. destruct (PyStr.lstrip line) as [|c s] eqn:Hl; [done |].
  simpl. intros [Hc _]%andb_prop. apply bool_decide_eq_true in Hc as <-.
  split; [by apply rstrip_not_empty | done].
Qed.

(** The inner loop of a statement: lines are gathered up to the first one
    which ends with a semicolon. *)
Lemma tokenizer_from_InSql block middle last file :
  Forall (λ l, PyStr.endswith SQL_END (PyStr.rstrip l) = false) middle →
  PyStr.endswith SQL_END (PyStr.rstrip last) = true →
  tokenizer_from (InSql block) (middle ++ last :: file)
  = (sql (cleandoc (str_join " " (block ++ middle ++ [last]))) :: (tokenizer file).1,
     (tokenizer file).2).
Proof.
  intros Hmiddle Hlast. revert block.
  induction Hmiddle as [|l middle Hl _ IH]; intros block; cbn [app tokenizer_from].
  - rewrite Hlast. unfold tokenizer. by destruct (tokenizer_from Top file).
  - rewrite Hl, IH. by rewrite <- (assoc_L (++) block [l]).
Qed.

Lemma tokenizer_from_InSql_unterminated block file :
  Forall (λ l, PyStr.endswith SQL_END (PyStr.rstrip l) = false) file →
  tokenizer_from (InSql block) file = ([], StopIteration).
Proof.
  intros Hfile. revert block.
  induction Hfile as [|l file Hl _ IH]; intros block; cbn [tokenizer_from]; [done |].
  by rewrite Hl.
Qed.

(** The inner loop of a block comment. *)
Lemma tokenizer_from_InBlockComment block middle last file :
  Forall (λ l, PyStr.endswith BLOCK_COMMENT_END (PyStr.strip l) = false) middle →
  PyStr.endswith BLOCK_COMMENT_END (PyStr.strip last) = true →
  tokenizer_from (InBlockComment block) (middle ++ last :: file)
  = let join_block := str_join "" (block ++ middle ++ [last]) in
    match BLOCK_COMMENT_REGEX_match join_block with
    | Some contents =>
        (mkToken (if META_COMMENT_REGEX_search join_block
                  then META_COMMENT else BLOCK_COMMENT)
                 (Text (cleandoc contents)) :: (tokenizer file).1,
         (tokenizer file).2)
    | None => ([], subscript_error)
    end.
Proof.
  intros Hmiddle Hlast. revert block.
  induction Hmiddle as [|l middle Hl _ IH]; intros block; cbn [app tokenizer_from].
  - rewrite Hlast. unfold tokenizer. cbv zeta.
    destruct (BLOCK_COMMENT_REGEX_match _); [| done].
    by destruct (tokenizer_from Top file).
  - rewrite Hl, IH. by rewrite <- (assoc_L (++) block [l]).
Qed.

Lemma tokenizer_from_InBlockComment_unterminated block file :
  Forall (λ l, PyStr.endswith BLOCK_COMMENT_END (PyStr.strip l) = false) file →
  tokenizer_from (InBlockComment block) file = ([], StopIteration).
Proof.
  intros Hfile. revert block.
  induction Hfile as [|l file Hl _ IH]; intros block; cbn [tokenizer_from]; [done |].
  by rewrite Hl.
Qed.

(** X2.  A line whose first word is a statement starter and which ends,
    but for blanks, with a semicolon yields one statement token: the line
    without the blanks around it. *)
Theorem single_line_statement line file :
  PyStr.split_space_first (PyStr.lstrip line) ∈ SQL_STARTERS →
  PyStr.endswith SQL_END (PyStr.rstrip line) = true →
  tokenizer (line :: file)
  = (sql (PyStr.strip line) :: (tokenizer file).1, (tokenizer file).2).
Proof.
  intros Hstart Hend. destruct (starter_line _ Hstart) as (Hblank & Hline & Hblock).
  unfold tokenizer. cbn [tokenizer_from].
  rewrite (bool_decide_false _ Hblank), Hline, Hblock, (bool_decide_true _ Hstart), Hend.
  by destruct (tokenizer_from Top file).
Qed.

Lemma single_line_statement_witness :
  tokenizer ["  SELECT 1 ;  " +:+ nl; "SELECT 2;" +:+ nl]
  = (sql "SELECT 1 ;" :: (tokenizer ["SELECT 2;" +:+ nl]).1,
     (tokenizer ["SELECT 2;" +:+ nl]).2).
Proof.
  apply (single_line_statement ("  SELECT 1 ;  " +:+ nl) ["SELECT 2;" +:+ nl]).
  - vm_compute. apply list_elem_of_In. simpl. auto.
  - reflexivity.
Defined.

(** X3.  A statement over several lines: when the line of the starter does
    not end with a semicolon, the lines up to the first one which does are
    one statement token, whatever they are.  Its text is [cleandoc] of the
    lines joined with a space. *)
Theorem multi_line_statement line middle last file :
  PyStr.split_space_first (PyStr.lstrip line) ∈ SQL_STARTERS →
  PyStr.endswith SQL_END (PyStr.rstrip line) = false →
  Forall (λ l, PyStr.endswith SQL_END (PyStr.rstrip l) = false) middle →
  PyStr.endswith SQL_END (PyStr.rstrip last) = true →
  tokenizer (line :: middle ++ last :: file)
  = (sql (cleandoc (str_join " " (line :: middle ++ [last]))) :: (tokenizer file).1,
     (tokenizer file).2).
Proof.
  intros Hstart Hopen Hmiddle Hlast.
  destruct (starter_line _ Hstart) as (Hblank & Hline & Hblock).
  unfold tokenizer at 1. cbn [tokenizer_from].
  rewrite (bool_decide_false _ Hblank), Hline, Hblock, (bool_decide_true _ Hstart), Hopen.
  by rewrite tokenizer_from_InSql.
Qed.

Lemma multi_line_statement_witness :
  tokenizer (file_of ["SELECT a"; "/* ENDGROUP : g */"; "FROM t;"; "SELECT 2;"])
  = (sql ("SELECT a" +:+ nl +:+ "/* ENDGROUP : g */" +:+ nl +:+ "FROM t;")
       :: (tokenizer (file_of ["SELECT 2;"])).1,
     (tokenizer (file_of ["SELECT 2;"])).2).
Proof.
  refine (eq_trans (multi_line_statement ("SELECT a" +:+ nl) ["/* ENDGROUP : g */" +:+ nl]
                      ("FROM t;" +:+ nl) (file_of ["SELECT 2;"]) _ _ _ _) _).
  - vm_compute. apply list_elem_of_In. simpl. auto.
  - reflexivity.
  - by repeat constructor.
  - reflexivity.
  - reflexivity.
Defined.

(** X4.  A statement which no semicolon ends: when neither the line of the
    starter nor any later line ends with a semicolon, the generator ends
    with [StopIteration] and yields no token for these lines. *)
Theorem unterminated_statement line file :
  PyStr.split_space_first (PyStr.lstrip line) ∈ SQL_STARTERS →
  PyStr.endswith SQL_END (PyStr.rstrip line) = false →
  Forall (λ l, PyStr.endswith SQL_END (PyStr.rstrip l) = false) file →
  tokenizer (line :: file) = ([], StopIteration).
Proof.
  intros Hstart Hopen Hfile.
  destruct (starter_line _ Hstart) as (Hblank & Hline & Hblock).
  unfold tokenizer. cbn [tokenizer_from].
  rewrite (bool_decide_false _ Hblank), Hline, Hblock, (bool_decide_true _ Hstart), Hopen.
  by apply tokenizer_from_InSql_unterminated.
Qed.

Lemma unterminated_statement_witness :
  tokenizer (file_of ["SELECT a"; "FROM t"; "-- a comment"]) = ([], StopIteration).
Proof.
  apply (unterminated_statement ("SELECT a" +:+ nl) (file_of ["FROM t"; "-- a comment"])).
  - vm_compute. apply list_elem_of_In. simpl. auto.
  - reflexivity.
  - by repeat constructor.
Defined.

(** X5.  A block comment on one line is never a meta comment: the line
    yields a group tag or a plain block comment, whatever directives it
    holds, unless [BLOCK_COMMENT_REGEX] does not match it, in which case
    the generator ends with [TypeError]. *)
Theorem single_line_block_comment line file :
  PyStr.startswith BLOCK_COMMENT_START (PyStr.lstrip line) = true →
  PyStr.endswith BLOCK_COMMENT_END (PyStr.rstrip line) = true →
  (∃ token, tokenizer (line :: file) = (token :: (tokenizer file).1, (tokenizer file).2)
            ∧ (type token = GROUP_TAG ∨ type token = BLOCK_COMMENT))
  ∨ (tokenizer (line :: file) = ([], subscript_error)
     ∧ BLOCK_COMMENT_REGEX_match line = None).
Proof.
  intros Hstart Hend. destruct (block_comment_line _ Hstart) as (Hblank & Hline).
  unfold tokenizer. cbn [tokenizer_from].
  rewrite (bool_decide_false _ Hblank), Hline, Hstart, Hend.
  destruct (tokenizer_from Top file) as [tokens e].
  destruct (GROUP_REGEX_match line) as [[[tag name] out]|].
  { left. eexists. split; [done | by left]. }
  destruct (BLOCK_COMMENT_REGEX_match line) as [contents|]; [| by right].
  left. eexists. split; [done | by right].
Qed.

Lemma single_line_block_comment_witness :
  (∃ token, tokenizer (file_of ["/* EXCLUDE */"; "SELECT 1;"])
            = (token :: (tokenizer (file_of ["SELECT 1;"])).1,
               (tokenizer (file_of ["SELECT 1;"])).2)
            ∧ (type token = GROUP_TAG ∨ type token = BLOCK_COMMENT))
  ∨ (tokenizer (file_of ["/* EXCLUDE */"; "SELECT 1;"]) = ([], subscript_error)
     ∧ BLOCK_COMMENT_REGEX_match ("/* EXCLUDE */" +:+ nl) = None).
Proof.
  apply (single_line_block_comment ("/* EXCLUDE */" +:+ nl) (file_of ["SELECT 1;"]));
    reflexivity.
Defined.

(** X6.  A block comment over several lines which is never closed: when no
    later line ends, but for blanks, with the end of a block comment, the
    generator ends with [StopIteration] and yields no token for these
    lines. *)
Theorem unterminated_block_comment line file :
  PyStr.startswith BLOCK_COMMENT_START (PyStr.lstrip line) = true →
  PyStr.endswith BLOCK_COMMENT_END (PyStr.rstrip line) = false →
  Forall (λ l, PyStr.endswith BLOCK_COMMENT_END (PyStr.strip l) = false) file →
  tokenizer (line :: file) = ([], StopIteration).
Proof.
  intros Hstart Hopen Hfile. destruct (block_comment_line _ Hstart) as (Hblank & Hline).
  unfold tokenizer. cbn [tokenizer_from].
  rewrite (bool_decide_false _ Hblank), Hline, Hstart, Hopen.
  by apply tokenizer_from_InBlockComment_unterminated.
Qed.

Lemma unterminated_block_comment_witness :
  tokenizer (file_of ["/* a comment"; "SELECT 1;"; "SELECT 2;"]) = ([], StopIteration).
Proof.
  apply (unterminated_block_comment ("/* a comment" +:+ nl)
           (file_of ["SELECT 1;"; "SELECT 2;"])).
  - reflexivity.
  - reflexivity.
  - by repeat constructor.
Defined.

(** X7.  A line comment with no blank after its two dashes, which is not a
    header line, ends the generator with [TypeError]: nothing is yielded
    for the line nor for those after it. *)
Theorem line_comment_without_blank line file c rest :
  PyStr.lstrip line = String "-" (String "-" (String c rest)) →
  PyStr.isspace c = false →
  HEADER_REGEX_match line = None →
  tokenizer (line :: file) = ([], subscript_error).
Proof.
  intros Hl Hc Hheader. unfold tokenizer. cbn [tokenizer_from].
  unfold PyStr.strip, LINE_COMMENT_REGEX_match. rewrite Hheader, Hl.
  rewrite bool_decide_false by (by apply rstrip_not_empty).
  unfold LINE_COMMENT_START. cbn [PyStr.startswith PyStr.drop PyStr.span].
  rewrite !bool_decide_true by done. rewrite Hc. cbn [andb].
  destruct (PyStr.span _ _) as [l r2]. by rewrite (bool_decide_false ("" ≠ "")) by auto.
Qed.

Lemma line_comment_without_blank_witness :
  tokenizer (file_of ["--comment"; "SELECT 1;"]) = ([], subscript_error).
Proof.
  apply (line_comment_without_blank ("--comment" +:+ nl) (file_of ["SELECT 1;"])
           "c"%char ("omment" +:+ nl)); reflexivity.
Defined.

(** ** Block comments over several lines *)

Lemma lstrip_app s t : PyStr.lstrip s ≠ "" → PyStr.lstrip (s +:+ t) = PyStr.lstrip s +:+ t.
Proof.
  induction s as [|c s IH]; [done |]. rewrite app_cons. simpl.
  destruct (PyStr.isspace c); [exact IH | done].
Qed.

Lemma startswith_app prefix s t :
  PyStr.startswith prefix s = true → PyStr.startswith prefix (s +:+ t) = true.
Proof.
  revert s. induction prefix as [|a prefix IH]; intros [|b s]; try done.
  rewrite app_cons. simpl. intros [-> Hs]%andb_prop. by rewrite IH.
Qed.

Lemma contains_app_l sub s t :
  PyStr.contains sub s = true → PyStr.contains sub (s +:+ t) = true.
Proof.
  induction s as [|c s IH].
  - simpl. rewrite orb_false_r. destruct sub; [by destruct t | done].
  - rewrite app_cons. simpl. intros [H | H]%orb_prop.
    + apply (startswith_app _ _ t) in H. rewrite app_cons in H. by rewrite H.
    + rewrite IH by done. apply orb_true_r.
Qed.

Lemma contains_app_r sub s t :
  PyStr.contains sub t = true → PyStr.contains sub (s +:+ t) = true.
Proof.
  intros H. induction s as [|c s IH]; [done |].
  rewrite app_cons. simpl. rewrite IH. apply orb_true_r.
Qed.

Lemma startswith_refl s : PyStr.startswith s s = true.
Proof. induction s as [|c s IH]; [done |]. simpl. by rewrite bool_decide_true, IH. Qed.

Lemma endswith_contains sub s :
  PyStr.endswith sub s = true → PyStr.contains sub s = true.
Proof.
  induction s as [|c s IH].
  - simpl. rewrite orb_false_r. intros <-%bool_decide_eq_true. done.
  - rewrite endswith_cons. intros [<-%bool_decide_eq_true | H]%orb_prop.
    + cbn [PyStr.contains]. by rewrite startswith_refl.
    + cbn [PyStr.contains]. rewrite IH by done. apply orb_true_r.
Qed.

(** [s.rstrip()] is [s] without the blanks at its end. *)
Lemma rstrip_prefix s : ∃ w, s = PyStr.rstrip s +:+ w.
Proof.
  induction s as [|c s [w IH]]; [by exists "" |].
  simpl. destruct (PyStr.rstrip s) as [|d r].
  - destruct (PyStr.isspace c); [by exists (String c s) | by exists s].
  - exists w. by rewrite app_cons, <- IH.
Qed.

Lemma contains_of_lstrip sub s :
  PyStr.contains sub (PyStr.lstrip s) = true → PyStr.contains sub s = true.
Proof.
  induction s as [|c s IH]; [done |]. simpl.
  destruct (PyStr.isspace c); [| done].
  intros H. rewrite IH by done. apply orb_true_r.
Qed.

Lemma contains_of_strip sub s :
  PyStr.contains sub (PyStr.strip s) = true → PyStr.contains sub s = true.
Proof.
  unfold PyStr.strip. intros H. apply contains_of_lstrip.
  destruct (rstrip_prefix (PyStr.lstrip s)) as [w ->]. by apply contains_app_l.
Qed.

(** A text which does not start with a blank is found in [s.lstrip()] if it
    is found in [s]. *)
Lemma contains_in_lstrip a sub s :
  PyStr.isspace a = false →
  PyStr.contains (String a sub) s = true →
  PyStr.contains (String a sub) (PyStr.lstrip s) = true.
Proof.
  intros Ha. induction s as [|c s IH]; [done |].
  cbn [PyStr.lstrip]. destruct (PyStr.isspace c) eqn:Hc; [| done].
  cbn [PyStr.contains PyStr.startswith].
  rewrite bool_decide_false by (intros ->; congruence). exact IH.
Qed.

Lemma str_join_empty_cons line block : str_join "" (line :: block) = line +:+ str_join "" block.
Proof. destruct block; [by rewrite app_empty_r | done]. Qed.

Lemma contains_str_join sub block last :
  PyStr.contains sub last = true →
  PyStr.contains sub (str_join "" (block ++ [last])) = true.
Proof.
  intros H. induction block as [|l block IH]; [done |].
  cbn [app]. rewrite str_join_empty_cons. by apply contains_app_r.
Qed.

(** The lazy contents of [BLOCK_COMMENT_REGEX] stop before the first end
    of a block comment, if there is one. *)
Lemma lazy_any_block_end s :
  PyStr.contains BLOCK_COMMENT_END s = true →
  is_Some (lazy_any (λ s, if PyStr.startswith "*/" (PyStr.lstrip s) then Some () else None) s).
Proof.
  induction s as [|c s IH]; [done |].
  cbn [PyStr.contains lazy_any]. intros [H | H]%orb_prop.
  - assert (PyStr.lstrip (String c s) = String c s) as ->.
    { simpl in H. apply andb_prop in H as [<-%bool_decide_eq_true _]. done. }
    unfold BLOCK_COMMENT_END in H. rewrite H. by eexists.
  - destruct (PyStr.startswith "*/" (PyStr.lstrip (String c s))); [by eexists |].
    destruct (IH H) as [r ->]. by eexists.
Qed.

(** [BLOCK_COMMENT_REGEX] matches a text which starts a block comment and
    has the end of a block comment after its first line. *)
Lemma BLOCK_COMMENT_REGEX_match_block line more :
  PyStr.startswith BLOCK_COMMENT_START (PyStr.lstrip line) = true →
  PyStr.contains BLOCK_COMMENT_END more = true →
  is_Some (BLOCK_COMMENT_REGEX_match (line +:+ more)).
Proof.
  intros Hstart Hmore. unfold BLOCK_COMMENT_REGEX_match.
  rewrite lstrip_app by (by destruct (PyStr.lstrip line)).
  unfold BLOCK_COMMENT_START in Hstart.
  destruct (PyStr.lstrip line) as [|a [|b x]]; simpl in Hstart;
    [done | by rewrite andb_false_r in Hstart |]. apply andb_prop in Hstart as [<-%bool_decide_eq_true Hb].
  apply andb_prop in Hb as [<-%bool_decide_eq_true _].
  rewrite !app_cons. cbn [PyStr.span snd].
  rewrite bool_decide_true, (bool_decide_false ("*"%char = "/"%char)) by done.
  cbn [snd].
  destruct (lazy_any_block_end (PyStr.lstrip (x +:+ more))) as [r ->]; [| by eexists].
  by apply (contains_in_lstrip "*" "/"), contains_app_r.
Qed.

(** X8.  A block comment over several lines: when the line which starts it
    does not end it, the lines up to the first one which ends, but for
    blanks, with the end of a block comment are one token.
    [BLOCK_COMMENT_REGEX] matches their text, so no exception is raised;
    the token is a meta comment if [META_COMMENT_REGEX] is found in the
    text and a block comment otherwise, and its text is [cleandoc] of the
    contents matched. *)
Theorem multi_line_block_comment line middle last file :
  PyStr.startswith BLOCK_COMMENT_START (PyStr.lstrip line) = true →
  PyStr.endswith BLOCK_COMMENT_END (PyStr.rstrip line) = false →
  Forall (λ l, PyStr.endswith BLOCK_COMMENT_END (PyStr.strip l) = false) middle →
  PyStr.endswith BLOCK_COMMENT_END (PyStr.strip last) = true →
  let join_block := str_join "" (line :: middle ++ [last]) in
  ∃ contents,
    BLOCK_COMMENT_REGEX_match join_block = Some contents
    ∧ tokenizer (line :: middle ++ last :: file)
      = (mkToken (if META_COMMENT_REGEX_search join_block
                  then META_COMMENT else BLOCK_COMMENT)
                 (Text (cleandoc contents)) :: (tokenizer file).1,
         (tokenizer file).2).
Proof.
  intros Hstart Hopen Hmiddle Hlast join_block.
  destruct (block_comment_line _ Hstart) as (Hblank & Hline).
  destruct (BLOCK_COMMENT_REGEX_match_block line (str_join "" (middle ++ [last])) Hstart)
    as [contents Hmatch].
  { by apply contains_str_join, contains_of_strip, endswith_contains. }
  rewrite <- str_join_empty_cons in Hmatch.
  exists contents. split; [done |].
  unfold tokenizer at 1. cbn [tokenizer_from].
  rewrite (bool_decide_false _ Hblank), Hline, Hstart, Hopen.
  rewrite tokenizer_from_InBlockComment by done.
  subst join_block. cbn [app]. cbv zeta. by rewrite Hmatch.
Qed.

Lemma multi_line_block_comment_witness :
  tokenizer (file_of ["/*"; "OUTPUT: admin"; "EXCLUDE */"; "SELECT 1;"])
  = (meta_comment ("OUTPUT: admin" +:+ nl +:+ "EXCLUDE")
       :: (tokenizer (file_of ["SELECT 1;"])).1,
     (tokenizer (file_of ["SELECT 1;"])).2).
Proof.
  destruct (multi_line_block_comment ("/*" +:+ nl) ["OUTPUT: admin" +:+ nl]
              ("EXCLUDE */" +:+ nl) (file_of ["SELECT 1;"]))
    as (contents & Hmatch & Htokens).
  - reflexivity.
  - reflexivity.
  - by repeat constructor.
  - reflexivity.
  - vm_compute in Hmatch. injection Hmatch as <-. exact Htokens.
Defined.

(** ** The header: what is read, and what is kept *)

Lemma process_header_loop_no_endhead source cfg :
  Forall header_wf source →
  Forall (λ t, ¬ is_header_line END_HEADER_MARKER t) source →
  ∃ cfg', process_header_loop source cfg = (Raise StopIteration, cfg', []).
Proof.
  intros Hwf Hno. revert cfg.
  induction source as [|t source IH]; intros cfg; [by exists cfg |].
  apply Forall_cons in Hwf as [Hwt Hwf]. apply Forall_cons in Hno as [Hnt Hno].
  specialize (IH Hwf Hno). simpl.
  case_bool_decide as Hth; [apply IH |].
  destruct (Hwt ltac:(by destruct (decide (type t = HEADER)))) as (tg & vl & Hct).
  rewrite Hct. rewrite bool_decide_true; [apply IH |].
  intros Hend. apply Hnt. split; [by destruct (decide (type t = HEADER)) |]. by exists tg, vl.
Qed.

(** X9.  A source with no [endhead] line is read to its end by
    [process_header], which ends with [StopIteration]; in [output_tokens],
    whose generator this ends, the run returns normally, for
    [JSONConverter] as for any converter: every token has been discarded
    and no file has been opened or written. *)
Theorem source_without_endhead get_outfile output_token cwd self :
  Forall header_wf (token_source self) →
  Forall (λ t, ¬ is_header_line END_HEADER_MARKER t) (token_source self) →
  (process_header cwd self).1 = Raise StopIteration
  ∧ BaseConverter_output_tokens get_outfile output_token cwd self
    = (Return (), (process_header cwd self).2)
  ∧ (outfiles self = [] →
     JSONConverter_output_tokens cwd self = (Return (), (process_header cwd self).2))
  ∧ token_source (process_header cwd self).2 = []
  ∧ outfiles (process_header cwd self).2 = outfiles self.
Proof.
  intros Hwf Hno.
  destruct (process_header_loop_no_endhead _ (config self) Hwf Hno) as (cfg' & Hloop).
  unfold JSONConverter_output_tokens, BaseConverter_output_tokens, process_tokens_start,
    in_generator.
  run_M. unfold process_header. rewrite Hloop. cbn [fst snd outfiles set_token_source set_config].
  repeat split; try done. by intros ->.
Qed.

Lemma source_without_endhead_witness :
  let self := json_converter [dialect_line; version_line; sql "PREPARE q AS SELECT 1;"] in
  (process_header "/cwd" self).1 = Raise StopIteration
  ∧ BaseConverter_output_tokens JSONConverter_get_outfile JSONConverter_output_token "/cwd" self
    = (Return (), (process_header "/cwd" self).2)
  ∧ (outfiles self = [] →
     JSONConverter_output_tokens "/cwd" self = (Return (), (process_header "/cwd" self).2))
  ∧ token_source (process_header "/cwd" self).2 = []
  ∧ outfiles (process_header "/cwd" self).2 = outfiles self.
Proof.
  apply (source_without_endhead JSONConverter_get_outfile JSONConverter_output_token "/cwd"
           (json_converter [dialect_line; version_line; sql "PREPARE q AS SELECT 1;"])).
  - repeat constructor; intros H; first [discriminate H | by eexists _, _].
  - repeat constructor; rewrite is_header_line_spec; cbn; by intros ?.
Defined.

Lemma process_header_loop_filter source cfg :
  (process_header_loop source cfg).1
  = (process_header_loop (filter (λ t, type t = HEADER) source) cfg).1.
Proof.
  revert cfg. induction source as [|t source IH]; intros cfg; [done |].
  destruct (decide (type t = HEADER)) as [Hth | Hth].
  - rewrite filter_cons_True by done. simpl.
    rewrite bool_decide_false by (by intros ?).
    destruct (contents t); try done. case_bool_decide; [apply IH | done].
  - rewrite filter_cons_False by done. simpl. rewrite bool_decide_true by done. apply IH.
Qed.

(** X10.  [process_header] reads the header tokens only: the tokens of
    another type which come before the [endhead] line, statements and group
    tags among them, change neither how it ends nor the [config] it
    leaves. *)
Theorem process_header_reads_header_tokens_only cwd self :
  let self' := set_token_source (filter (λ t, type t = HEADER) (token_source self)) self in
  (process_header cwd self).1 = (process_header cwd self').1
  ∧ config (process_header cwd self).2 = config (process_header cwd self').2.
Proof.
  intros self'. pose proof (process_header_loop_filter (token_source self) (config self)) as H.
  unfold process_header. subst self'. cbn [token_source config set_token_source].
  destruct (process_header_loop (token_source self) _) as [[done1 cfg1] rest1].
  destruct (process_header_loop (filter _ _) _) as [[done2 cfg2] rest2].
  simpl in H. injection H as -> ->.
  destruct done2; [| done].
  destruct (cfg2 !! "output") as [[out | b] |]; try done;
    by destruct (check_required _ _).
Qed.

Lemma process_header_loop_app pre more cfg :
  Forall header_wf pre →
  Forall (λ t, ¬ is_header_line END_HEADER_MARKER t) pre →
  ∃ cfg1, process_header_loop (pre ++ more) cfg = process_header_loop more cfg1.
Proof.
  intros Hwf Hno. revert cfg.
  induction pre as [|t pre IH]; intros cfg; [by exists cfg |].
  apply Forall_cons in Hwf as [Hwt Hwf]. apply Forall_cons in Hno as [Hnt Hno].
  specialize (IH Hwf Hno). simpl.
  case_bool_decide as Hth; [apply IH |].
  destruct (Hwt ltac:(by destruct (decide (type t = HEADER)))) as (tg & vl & Hct).
  rewrite Hct. rewrite bool_decide_true; [apply IH |].
  intros Hend. apply Hnt. split; [by destruct (decide (type t = HEADER)) |]. by exists tg, vl.
Qed.

(** X11.  When several lines of the header set the same field, the last
    one wins: after [process_header], [config] holds for the field, named
    in lower case, the value of the last header line with that tag. *)
Theorem process_header_last_line_wins cwd self pre1 line pre2 end_ rest tag value :
  token_source self = pre1 ++ line :: pre2 ++ end_ :: rest →
  Forall header_wf (pre1 ++ pre2) →
  Forall (λ t, ¬ is_header_line END_HEADER_MARKER t) (pre1 ++ pre2) →
  is_header_line END_HEADER_MARKER end_ →
  type line = HEADER →
  contents line = HeaderDict tag value →
  PyStr.lower tag ≠ END_HEADER_MARKER →
  ¬ Exists (is_header_line (PyStr.lower tag)) pre2 →
  config (process_header cwd self).2 !! PyStr.lower tag = Some (VStr value).
Proof.
  intros Hsrc [Hwf1 Hwf2]%Forall_app [Hno1 Hno2]%Forall_app Hend Hty Hct Htag Hlast.
  destruct (process_header_loop_app pre1 (line :: pre2 ++ end_ :: rest) (config self)
              Hwf1 Hno1) as (cfg1 & Hpre1).
  destruct (process_header_loop_header pre2 end_ rest (<[PyStr.lower tag := VStr value]> cfg1)
              Hwf2 Hno2 Hend) as (cfg' & Hrun & Hkeep & _ & _).
  specialize (Hkeep _ Hlast). rewrite lookup_insert_eq in Hkeep.
  unfold process_header. rewrite Hsrc, Hpre1. cbn [process_header_loop].
  rewrite bool_decide_false by (by intros ?).
  rewrite Hct, (bool_decide_true _ Htag), Hrun.
  destruct (decide (PyStr.lower tag = "output")) as [Hout | Hout].
  - rewrite <- Hout, Hkeep. unfold osp.normcase.
    destruct (check_required _ _); apply lookup_insert_eq.
  - destruct (cfg' !! "output") as [[out | b] |]; [| done |];
      destruct (check_required _ _); cbn [snd config set_config];
      by rewrite lookup_insert_ne.
Qed.

Lemma process_header_last_line_wins_witness :
  config (process_header "/cwd"
            (json_converter [mkToken HEADER (HeaderDict "Version" "1"); dialect_line;
                             mkToken HEADER (HeaderDict "VERSION" "2"); sql "SELECT 1;";
                             endhead_line])).2
  !! "version" = Some (VStr "2").
Proof.
  apply (process_header_last_line_wins "/cwd"
           (json_converter [mkToken HEADER (HeaderDict "Version" "1"); dialect_line;
                            mkToken HEADER (HeaderDict "VERSION" "2"); sql "SELECT 1;";
                            endhead_line])
           [mkToken HEADER (HeaderDict "Version" "1"); dialect_line]
           (mkToken HEADER (HeaderDict "VERSION" "2")) [sql "SELECT 1;"] endhead_line []
           "VERSION" "2").
  - reflexivity.
  - repeat constructor; intros H; first [discriminate H | by eexists _, _].
  - repeat constructor; rewrite is_header_line_spec; cbn; by intros ?.
  - by rewrite is_header_line_spec.
  - reflexivity.
  - reflexivity.
  - done.
  - rewrite Exists_cons, Exists_nil, is_header_line_spec. by intros [? | ?].
Defined.

(** ** What [process_token] changes in the context *)

Lemma process_token_SQL_context token params self pt params' self' :
  process_token_SQL token params self = (Return (pt, params'), self') →
  params' = set_meta None params
  ∧ self' = self
  ∧ ∃ p, pt = Some p ∧ pt_existing_params p = params' ∧ pt_type p = type token.
Proof.
  unfold process_token_SQL. destruct (contents token) as [s | |]; try done.
  destruct (iter_contains "exclude" _) as [[] meta1];
    [| destruct (iter_contains "multiline" _) as [[] meta2]];
    destruct (iter_contains "clear_out" _) as [clear_out meta3];
    run_M; intros [= <- <- <-]; (do 2 (split; [done |])); by eexists.
Qed.

Lemma process_token_directives_context text params self raw_meta params1 self1 :
  process_token_directives text params self = (Return (raw_meta, params1), self1) →
  group params1 = group params
  ∧ allow_comments params1 = allow_comments params
  ∧ self1 = self.
Proof.
  unfold process_token_directives.
  destruct (index_containing_substring _ _) as [i|]; [| by intros [= <- <- <-]].
  destruct (META_OUTPUT_REGEX_match_value _) as [new_output|]; [| done].
  destruct (osp.splitext (output params)) as [base ext0].
  case_bool_decide; run_M; [by intros [= <- <- <-] |].
  unfold config_str. destruct (config self !! "outfile_type") as [[ext | b] |]; try done.
  by intros [= <- <- <-].
Qed.

Lemma process_token_GROUP_TAG_context token params self pt params' self' :
  process_token_GROUP_TAG token params self = (Return (pt, params'), self') →
  ∃ tag name out,
    contents token = GroupDict tag name out
    ∧ allow_comments params' = allow_comments params
    ∧ self' = self
    ∧ group params' = (if bool_decide (PyStr.lower tag = STARTGROUP_TAG)
                       then group params ++ [name] else removelast (group params))
    ∧ ∃ p, pt = Some p ∧ pt_existing_params p = params' ∧ pt_type p = type token.
Proof.
  unfold process_token_GROUP_TAG. destruct (contents token) as [| | tag name out]; try done.
  intros Hrun. exists tag, name, out. split; [done |]. revert Hrun.
  case_bool_decide as Hstart.
  - destruct out as [[|c o] |]; try case_bool_decide; run_M; unfold config_str;
      destruct (config self !! "outfile_type") as [[ext | b] |];
      intros ?; simplify_eq; (do 3 (split; [done |])); by eexists.
  - case_bool_decide as Hempty; [done |].
    case_bool_decide; run_M; unfold config_str;
      destruct (config self !! "outfile_type") as [[ext | b] |];
      intros ?; simplify_eq; (do 3 (split; [done |])); by eexists.
Qed.

Lemma process_token_META_COMMENT_context token params self pt params' self' :
  type token = META_COMMENT →
  process_token token params self = (Return (pt, params'), self') →
  group params' = group params
  ∧ allow_comments params' = allow_comments params
  ∧ meta params' = None
  ∧ ∃ p, pt = Some p ∧ pt_existing_params p = params' ∧ pt_type p = SQL.
Proof.
  unfold process_token. intros ->.
  destruct (contents token) as [text | |]; try done. run_M.
  destruct (process_token_directives text params self) as [[[raw params1] | e] self1] eqn:Hd;
    [| done].
  apply process_token_directives_context in Hd as (Hg & Ha & ->).
  unfold next_token. destruct (token_source self) as [|next rest]; [done |].
  case_bool_decide as Hnext; [done |].
  intros (-> & _ & p & -> & Hp & Hty)%process_token_SQL_context.
  (do 3 (split; [done |])). exists p. split; [done |]. split; [done |].
  rewrite Hty. by destruct (decide (type next = SQL)).
Qed.

(** X12.  What a call of [process_token] that returns leaves alone:
    [allow_comments], [config] and the output files always; the group
    stack unless the token is a group tag; the output path unless the token
    is a group tag or a meta comment.  A processed token carries the
    context which comes back with it.  For a statement and for a meta
    comment, a statement is produced and the context which comes back has
    no [meta] key: the directives of a meta comment reach one statement
    only. *)
Theorem process_token_frame token params self pt params' self' :
  process_token token params self = (Return (pt, params'), self') →
  allow_comments params' = allow_comments params
  ∧ (type token ≠ GROUP_TAG → group params' = group params)
  ∧ (type token ≠ GROUP_TAG → type token ≠ META_COMMENT → output params' = output params)
  ∧ (type token = SQL ∨ type token = META_COMMENT →
     meta params' = None ∧ ∃ p, pt = Some p ∧ pt_type p = SQL)
  ∧ (∀ p, pt = Some p → pt_existing_params p = params')
  ∧ config self' = config self
  ∧ outfiles self' = outfiles self.
Proof.
  intros Hrun.
  destruct (keeps_files_process_token token params self) as [Hconfig Hfiles].
  rewrite Hrun in Hconfig, Hfiles. cbn [snd] in Hconfig, Hfiles.
  destruct (type token) eqn:Hty.
  - unfold process_token in Hrun. rewrite Hty in Hrun.
    apply process_token_SQL_context in Hrun as (-> & _ & p & -> & Hp & Hpt).
    (do 3 (split; [done |])). split; [| split; [by intros ? [= <-] | done]].
    intros _. split; [done |]. exists p. split; [done | congruence].
  - unfold process_token in Hrun. rewrite Hty in Hrun. revert Hrun.
    destruct (allow_comments params) eqn:Ha; run_M; intros [= <- <- <-];
      (do 3 (split; [done |])); (split; [by intros [? | ?] |]);
      (split; [by intros ? [= <-] | done]).
  - unfold process_token in Hrun. rewrite Hty in Hrun. revert Hrun.
    destruct (allow_comments params) eqn:Ha; run_M; intros [= <- <- <-];
      (do 3 (split; [done |])); (split; [by intros [? | ?] |]);
      (split; [by intros ? [= <-] | done]).
  - unfold process_token in Hrun. by rewrite Hty in Hrun.
  - unfold process_token in Hrun. rewrite Hty in Hrun.
    apply process_token_GROUP_TAG_context in Hrun
      as (tag & name & out & _ & Ha & _ & _ & p & -> & Hp & _).
    (do 3 (split; [done |])). split; [by intros [? | ?] |].
    split; [by intros ? [= <-] | done].
  - apply process_token_META_COMMENT_context in Hrun as (Hg & Ha & Hm & p & -> & Hp & Hpt);
      [| done].
    (do 3 (split; [done |])). split; [| split; [by intros ? [= <-] | done]].
    intros _. split; [done |]. by exists p.
Qed.

Lemma process_token_frame_witness :
  ∃ pt params' self',
    process_token (meta_comment "OUTPUT: admin") params_in_group
      (json_converter [sql "SELECT 1;"; sql "SELECT 2;"])
    = (Return (pt, params'), self')
    ∧ allow_comments params' = false
    ∧ group params' = ["g"]
    ∧ meta params' = None
    ∧ (∀ p, pt = Some p → pt_existing_params p = params').
Proof.
  destruct (process_token (meta_comment "OUTPUT: admin") params_in_group
              (json_converter [sql "SELECT 1;"; sql "SELECT 2;"]))
    as [[[pt params'] | e] self'] eqn:Hrun; [| by vm_compute in Hrun].
  exists pt, params', self'.
  destruct (process_token_frame _ _ _ _ _ _ Hrun) as (Ha & Hg & _ & Hm & Hp & _).
  split; [reflexivity |].
  split; [exact Ha |]. split; [by apply Hg |].
  split; [by apply Hm; right | exact Hp].
Defined.

(** X13.  The group stack under a group tag, when [process_token]
    returns: a tag which is [startgroup] in lower case adds its name at the
    end of the stack; any other tag removes the last name of the stack,
    whatever name the tag itself gives. *)
Theorem group_stack_discipline token params self pt params' self' :
  type token = GROUP_TAG →
  process_token token params self = (Return (pt, params'), self') →
  ∃ tag name out,
    contents token = GroupDict tag name out
    ∧ group params' = (if bool_decide (PyStr.lower tag = STARTGROUP_TAG)
                       then group params ++ [name] else removelast (group params)).
Proof.
  unfold process_token. intros ->.
  intros (tag & name & out & Hc & _ & _ & Hg & _)%process_token_GROUP_TAG_context.
  by exists tag, name, out.
Qed.

Lemma group_stack_discipline_witness :
  ∃ pt params' self',
    process_token (endgroup "other") (mkParams "/out/a/b.json" ["a"; "b"] false None)
      (json_converter [])
    = (Return (pt, params'), self')
    ∧ group params' = ["a"].
Proof.
  destruct (process_token (endgroup "other") (mkParams "/out/a/b.json" ["a"; "b"] false None)
              (json_converter []))
    as [[[pt params'] | e] self'] eqn:Hrun; [| by vm_compute in Hrun].
  exists pt, params', self'.
  destruct (group_stack_discipline (endgroup "other") _ _ _ _ _ eq_refl Hrun)
    as (tag & name & out & Hc & Hg).
  split; [reflexivity |].
  cbn [endgroup contents] in Hc. injection Hc as <- <- <-. exact Hg.
Defined.

(** ** The directives of a meta comment *)

Lemma startswith_take prefix n s :
  PyStr.startswith prefix (PyStr.take n s) = true → PyStr.startswith prefix s = true.
Proof.
  revert n s. induction prefix as [|a prefix IH]; intros [|n] [|b s]; simpl; try done.
  intros [-> H]%andb_prop. by rewrite (IH n s H).
Qed.

Lemma output_at_contains x :
  output_at x = true → PyStr.contains "output" (PyStr.lower x) = true.
Proof.
  unfold output_at, PyStr.imatch. intros [H _]%andb_prop.
  rewrite lower_take in H. apply startswith_take in H.
  change (PyStr.lower "OUTPUT") with "output" in H.
  destruct (PyStr.lower x); cbn [PyStr.contains]; by rewrite H.
Qed.

(** The captures of [findall]: the item that [index_containing_substring]
    finds for [output] is the capture of the second group, which runs to
    the end of the text and has no keyword; all the other items are
    keywords and empty texts. *)
Lemma raw_meta_shape skip s :
  let raw_meta := flatten (RAW_META_COMMENT_REGEX_findall_from skip s) in
  match index_containing_substring raw_meta "output" with
  | Some i =>
      Forall keyword_item (delete i raw_meta)
      ∧ ∃ x pre, raw_meta !! i = Some x ∧ s = pre +:+ x
                 ∧ output_at x = true ∧ has_keyword x = false
  | None => Forall keyword_item raw_meta
  end.
Proof.
  revert skip. induction s as [|c s IH]; intros skip; [by constructor |].
  destruct skip as [|skip].
  2: { cbn [RAW_META_COMMENT_REGEX_findall_from]. specialize (IH skip). cbv zeta in IH.
       destruct (index_containing_substring _ _) as [i|]; [| done].
       destruct IH as (Hall & x & pre & Hx & -> & Hout & Hkw).
       split; [done |]. by exists x, (String c pre). }
  cbn [RAW_META_COMMENT_REGEX_findall_from].
  destruct (keyword_at (String c s)) as [kw|] eqn:Hkw.
  - specialize (IH (PyStr.len kw - 1)). cbv zeta in IH |- *.
    apply keyword_at_lower in Hkw.
    unfold flatten in *. cbn [mbind list_bind app fst snd].
    cbn [index_containing_substring].
    replace (PyStr.contains "output" (PyStr.lower kw)) with false
      by (by destruct Hkw as [-> | ->]).
    change (PyStr.contains "output" (PyStr.lower "")) with false. cbv iota.
    destruct (index_containing_substring _ _) as [i|]; cbn [fmap option_fmap option_map].
    + destruct IH as (Hall & x & pre & Hx & -> & Hout & Hk).
      split; [constructor; [by right | constructor; [by left | done]] |].
      by exists x, (String c pre).
    + constructor; [by right | constructor; [by left | done]].
  - destruct (negb (has_keyword s) && output_at (String c s)) eqn:Hcond.
    + apply andb_prop in Hcond as [Hno Hout]. apply negb_true_iff in Hno.
      cbv zeta. unfold flatten. cbn [mbind list_bind app fst snd].
      cbn [index_containing_substring].
      change (PyStr.contains "output" (PyStr.lower "")) with false. cbv iota.
      rewrite (output_at_contains _ Hout). cbn [fmap option_fmap option_map].
      split; [constructor; [by left | constructor] |].
      exists (String c s), "". repeat split; try done.
      cbn [has_keyword]. by rewrite Hkw.
    + specialize (IH 0). cbv zeta in IH |- *.
      destruct (index_containing_substring _ _) as [i|]; [| done].
      destruct IH as (Hall & x & pre & Hx & -> & Hout & Hk).
      split; [done |]. by exists x, (String c pre).
Qed.





Lemma every_output_before_keyword_suffix pre x :
  every_output_before_keyword (pre +:+ x) = true →
  output_at x = true → has_keyword x = true.
Proof.
  induction pre as [|c pre IH].
  - change ("" +:+ x) with x. destruct x; cbn [every_output_before_keyword];
      intros [H _]%andb_prop Hout; rewrite Hout in H; exact H.
  - rewrite app_cons. cbn [every_output_before_keyword]. intros [_ H]%andb_prop. by apply IH.
Qed.

(** X15.  The [OUTPUT] directive that a meta comment sets is one that no
    keyword follows: the text which [index_containing_substring] finds
    among the captures starts with [OUTPUT], runs to the end of the
    comment, and holds neither [EXCLUDE] nor [MULTILINE]. *)
Theorem output_directive_is_last text i :
  index_containing_substring (flatten (RAW_META_COMMENT_REGEX_findall text)) "output"
  = Some i →
  ∃ x pre,
    flatten (RAW_META_COMMENT_REGEX_findall text) !! i = Some x
    ∧ text = pre +:+ x
    ∧ output_at x = true
    ∧ has_keyword x = false.
Proof.
  intros Hi. pose proof (raw_meta_shape 0 text) as Hshape. cbv zeta in Hshape.
  fold (RAW_META_COMMENT_REGEX_findall text) in Hshape. rewrite Hi in Hshape.
  by destruct Hshape as (_ & x & pre & Hx & Ht & Hout & Hkw); exists x, pre.
Qed.

Lemma output_directive_is_last_witness :
  ∃ x pre,
    flatten (RAW_META_COMMENT_REGEX_findall ("EXCLUDE" +:+ nl +:+ "OUTPUT: admin")) !! 3
    = Some x
    ∧ "EXCLUDE" +:+ nl +:+ "OUTPUT: admin" = pre +:+ x
    ∧ output_at x = true
    ∧ has_keyword x = false.
Proof.
  apply (output_directive_is_last ("EXCLUDE" +:+ nl +:+ "OUTPUT: admin") 3). reflexivity.
Defined.

(** X16.  An [OUTPUT] directive which a keyword follows is ignored: when
    one of [EXCLUDE] and [MULTILINE] is found to the right of every
    [OUTPUT\s*:] of a meta comment, the context keeps its output path, and
    the captures are all kept as directives. *)
Theorem output_before_keyword_is_ignored text params self :
  every_output_before_keyword text = true →
  process_token_directives text params self
  = (Return (flatten (RAW_META_COMMENT_REGEX_findall text), params), self).
Proof.
  intros Hall. unfold process_token_directives.
  destruct (index_containing_substring _ _) as [i|] eqn:Hi; [| done].
  pose proof (raw_meta_shape 0 text) as Hshape. cbv zeta in Hshape.
  fold (RAW_META_COMMENT_REGEX_findall text) in Hshape. rewrite Hi in Hshape.
  destruct Hshape as (_ & x & pre & _ & -> & Hout & Hkw).
  by rewrite (every_output_before_keyword_suffix pre x Hall Hout) in Hkw.
Qed.

Lemma output_before_keyword_is_ignored_witness :
  process_token_directives ("OUTPUT: admin" +:+ nl +:+ "EXCLUDE") params_out (json_converter [])
  = (Return (["EXCLUDE"; ""], params_out), json_converter []).
Proof.
  apply (output_before_keyword_is_ignored ("OUTPUT: admin" +:+ nl +:+ "EXCLUDE") params_out
           (json_converter [])).
  reflexivity.
Defined.

(** ** Statements: instances *)

Lemma statement_after_meta_comment_witness :
  ∃ params2,
    process_token (meta_comment "EXCLUDE") params_in_group
      (json_converter [sql ("PREPARE  q AS" +:+ nl +:+ "SELECT 1;"); sql "SELECT 2;"])
    = (Return (Some (mkProcessed (Text "PREPARE q AS SELECT 1;") SQL params2), params2),
       set_token_source [sql "SELECT 2;"]
         (json_converter [sql ("PREPARE  q AS" +:+ nl +:+ "SELECT 1;"); sql "SELECT 2;"]))
    ∧ meta params2 = None.
Proof.
  exact (statement_after_meta_comment (meta_comment "EXCLUDE") "EXCLUDE" params_in_group
           (json_converter [sql ("PREPARE  q AS" +:+ nl +:+ "SELECT 1;"); sql "SELECT 2;"])
           (sql ("PREPARE  q AS" +:+ nl +:+ "SELECT 1;"))
           ("PREPARE  q AS" +:+ nl +:+ "SELECT 1;") [sql "SELECT 2;"] ".json"
           eq_refl eq_refl eq_refl eq_refl eq_refl eq_refl).
Defined.

Lemma format_sql_collapses_witness :
  format_sql ("  SELECT a" +:+ nl +:+ "   FROM t ;  ") = "SELECT a FROM t ;".
Proof.
  exact (format_sql_collapses ("  SELECT a" +:+ nl +:+ "   FROM t ;  ") eq_refl).
Defined.

(** ** Output files *)

Lemma outfiles_lookup_app_new path f files :
  outfiles_lookup path files = None →
  outfiles_lookup path (files ++ [(path, f)]) = Some f.
Proof.
  induction files as [|[p g] files IH]; simpl.
  - by rewrite bool_decide_true.
  - case_bool_decide; [done | exact IH].
Qed.

Lemma outfiles_lookup_app_other path path' f files :
  path' ≠ path →
  outfiles_lookup path (files ++ [(path', f)]) = outfiles_lookup path files.
Proof.
  intros Hne. induction files as [|[p g] files IH]; simpl.
  - by rewrite bool_decide_false.
  - case_bool_decide; [done | exact IH].
Qed.

Lemma outfiles_lookup_alter g path path' files :
  outfiles_lookup path (outfiles_alter g path' files)
  = if bool_decide (path' = path) then g <$> outfiles_lookup path files
    else outfiles_lookup path files.
Proof.
  induction files as [|[p f] files IH]; simpl; [by case_bool_decide |].
  repeat (case_bool_decide; simpl; simplify_eq; try done).
  all: rewrite IH; by repeat (case_bool_decide; simplify_eq).
Qed.

Lemma outfiles_lookup_None path files :
  outfiles_lookup path files = None ↔ path ∉ files.*1.
Proof.
  induction files as [|[p f] files IH]; simpl.
  - split; [intros _; apply not_elem_of_nil | done].
  - rewrite not_elem_of_cons. case_bool_decide as Hp.
    + split; [done | intros [Hne _]; by destruct Hne].
    + rewrite IH. split; [intros Hin; split; [by intros -> | done] | by intros [_ Hin]].
Qed.

(** Where the file system accepts the path, or the file is open already,
    the method is that of a file system which accepts every path. *)
Lemma get_outfile_on_disk open_error path self :
  is_Some (outfiles_lookup (osp.normcase path) (outfiles self))
  ∨ OnDisk.makedirs_open open_error (outfiles self) (osp.normcase path) = None →
  OnDisk.BaseConverter_get_outfile open_error path self = BaseConverter_get_outfile path self.
Proof.
  unfold OnDisk.BaseConverter_get_outfile, BaseConverter_get_outfile. run_M.
  destruct (outfiles_lookup _ _); [done |]. by intros [[? [=]] | ->].
Qed.

Lemma get_outfile_on_disk_error open_error path self e :
  outfiles_lookup (osp.normcase path) (outfiles self) = None →
  OnDisk.makedirs_open open_error (outfiles self) (osp.normcase path) = Some e →
  OnDisk.BaseConverter_get_outfile open_error path self = (Raise e, self).
Proof.
  intros Hnew He. unfold OnDisk.BaseConverter_get_outfile. run_M. by rewrite Hnew, He.
Qed.

Lemma JSONConverter_get_outfile_on_disk open_error path self :
  is_Some (outfiles_lookup (osp.normcase path) (outfiles self))
  ∨ OnDisk.makedirs_open open_error (outfiles self) (osp.normcase path) = None →
  OnDisk.JSONConverter_get_outfile open_error path self = JSONConverter_get_outfile path self.
Proof.
  intros H. unfold OnDisk.JSONConverter_get_outfile, JSONConverter_get_outfile.
  unfold mbind, M_bind. by rewrite get_outfile_on_disk.
Qed.

Lemma JSONConverter_get_outfile_on_disk_error open_error path self e :
  outfiles_lookup (osp.normcase path) (outfiles self) = None →
  OnDisk.makedirs_open open_error (outfiles self) (osp.normcase path) = Some e →
  OnDisk.JSONConverter_get_outfile open_error path self = (Raise e, self).
Proof.
  intros Hnew He. unfold OnDisk.JSONConverter_get_outfile.
  unfold mbind, M_bind. by rewrite (get_outfile_on_disk_error _ _ _ e).
Qed.

(** X19.  [BaseConverter.get_outfile] keeps one file for each path.  A
    call for a path which is open returns its handle and changes nothing,
    whatever the file system.  A call for a path which is not open raises
    what [os.makedirs] or [open] raise, and then changes nothing, or adds
    an empty file after those already open; a path without a directory
    part, as a bare file name, always raises [FileNotFoundError].  In all
    cases the files which were open are left as they are and no path is
    held twice, and after a call which returns, every further call for the
    path returns the same handle and changes nothing: a file is never
    emptied again. *)
Theorem BaseConverter_get_outfile_once open_error path self :
  let path' := osp.normcase path in
  let run := OnDisk.BaseConverter_get_outfile open_error path self in
  match outfiles_lookup path' (outfiles self) with
  | Some _ => run = (Return path', self)
  | None =>
      match OnDisk.makedirs_open open_error (outfiles self) path' with
      | Some e => run = (Raise e, self)
      | None =>
          run = (Return path',
                 set_outfiles (λ files, files ++ [(path', mkFile "" 0)]) self)
      end
      ∧ (osp.dirname path' = "" → run = (Raise (OSError "FileNotFoundError" ""), self))
  end
  ∧ (NoDup (outfiles self).*1 → NoDup (outfiles run.2).*1)
  ∧ (∀ p f, outfiles_lookup p (outfiles self) = Some f →
            outfiles_lookup p (outfiles run.2) = Some f)
  ∧ (∀ handle, run.1 = Return handle →
       ∀ open_error',
         OnDisk.BaseConverter_get_outfile open_error' path run.2 = (Return handle, run.2)).
Proof.
  intros path' run. subst run path'.
  destruct (outfiles_lookup (osp.normcase path) (outfiles self)) as [f|] eqn:Hf.
  { assert (Hrun : ∀ open_error',
              OnDisk.BaseConverter_get_outfile open_error' path self
              = (Return (osp.normcase path), self)).
    { intros open_error'. unfold OnDisk.BaseConverter_get_outfile. run_M. by rewrite Hf. }
    rewrite Hrun. cbn [fst snd]. split; [done |]. split; [done |]. split; [done |].
    by intros handle [= <-]. }
  destruct (OnDisk.makedirs_open open_error _ _) as [e|] eqn:He.
  { rewrite (get_outfile_on_disk_error _ _ _ e) by done. cbn [fst snd].
    split; [split; [done |] |].
    - intros Hdir. unfold OnDisk.makedirs_open in He.
      rewrite bool_decide_true in He by done. by injection He as <-.
    - split; [done |]. split; [done |]. by intros handle [=]. }
  assert (Hrun : OnDisk.BaseConverter_get_outfile open_error path self
                 = (Return (osp.normcase path),
                    set_outfiles (λ files, files ++ [(osp.normcase path, mkFile "" 0)]) self)).
  { unfold OnDisk.BaseConverter_get_outfile. run_M. by rewrite Hf, He. }
  rewrite Hrun. cbn [fst snd outfiles set_outfiles].
  split; [split; [done |] |].
  - intros Hdir. unfold OnDisk.makedirs_open in He.
    by rewrite bool_decide_true in He by done.
  - split; [| split].
    + intros Hnodup. rewrite fmap_app. apply NoDup_app. split; [done |].
      split; [| apply NoDup_singleton].
      intros p Hp Hin. apply list_elem_of_singleton in Hin as ->.
      by apply outfiles_lookup_None in Hf.
    + intros p g Hp. rewrite (outfiles_lookup_app_other p (osp.normcase path)); [done |].
      intros <-. congruence.
    + intros handle [= <-] open_error'. unfold OnDisk.BaseConverter_get_outfile. run_M.
      cbn [outfiles set_outfiles]. by rewrite (outfiles_lookup_app_new _ _ _ Hf).
Qed.

Lemma outfiles_alter_app_new g path f files :
  outfiles_lookup path files = None →
  outfiles_alter g path (files ++ [(path, f)]) = files ++ [(path, g f)].
Proof.
  induction files as [|[p h] files IH]; simpl.
  - by rewrite bool_decide_true.
  - case_bool_decide; [done |]. intros Hf. by rewrite IH.
Qed.

Lemma len_app s t : PyStr.len (s +:+ t) = PyStr.len s + PyStr.len t.
Proof.
  induction s as [|c s IH]; [done |]. rewrite app_cons. unfold PyStr.len in *. simpl.
  by rewrite IH.
Qed.

Lemma take_len s : PyStr.take (PyStr.len s) s = s.
Proof. induction s as [|c s IH]; [done |]. unfold PyStr.len in *. simpl. by rewrite IH. Qed.

Lemma drop_ge n s : PyStr.len s ≤ n → PyStr.drop n s = "".
Proof.
  revert n. induction s as [|c s IH]; intros [|n]; unfold PyStr.len in *; simpl; try done;
    try lia.
  intros H. apply IH. lia.
Qed.

(** A write at the end of a file adds the text to it. *)
Lemma File_write_at_end s f :
  pos f = PyStr.len (data f) →
  File_write s f = mkFile (data f +:+ s) (PyStr.len (data f +:+ s)).
Proof.
  intros Hpos. unfold File_write. rewrite Hpos, take_len, Nat.sub_diag, len_app.
  rewrite drop_ge by lia. cbn [zeros]. change ("" +:+ s +:+ "") with (s +:+ "").
  by rewrite app_empty_r.
Qed.

Lemma len_json_preamble js v : PyStr.len (json_preamble js v) ≠ 0.
Proof. unfold json_preamble. rewrite len_app. change (PyStr.len ("{" +:+ nl)) with 2. lia. Qed.

Lemma JSONConverter_get_outfile_new path self js v :
  config self !! "json_space" = Some (VStr js) →
  config self !! "version" = Some (VStr v) →
  outfiles_lookup path (outfiles self) = None →
  JSONConverter_get_outfile path self
  = (Return path,
     set_last_indent (Some js)
       (set_outfiles (λ files, files ++ [(path, mkFile (json_preamble js v)
                                                       (PyStr.len (json_preamble js v)))])
          self)).
Proof.
  intros Hjs Hv Hnew.
  unfold JSONConverter_get_outfile, BaseConverter_get_outfile, osp.normcase. run_M.
  rewrite Hnew. unfold tell. cbn [set_outfiles outfiles].
  rewrite (outfiles_lookup_app_new _ _ _ Hnew). cbn [pos].
  rewrite bool_decide_true by done.
  unfold write, modify, config_str. cbn [set_outfiles outfiles config].
  rewrite Hjs. cbn [set_outfiles config]. rewrite Hv.
  unfold set_last_indent, set_outfiles. cbn [config outfiles token_source last_line].
  rewrite (outfiles_alter_app_new _ _ _ _ Hnew), (outfiles_alter_app_new _ _ _ _ Hnew).
  rewrite (File_write_at_end _ (mkFile "" 0)) by done. cbn [data].
  change ("" +:+ ("{" +:+ nl)) with ("{" +:+ nl).
  by rewrite File_write_at_end by done.
Qed.

Lemma JSONConverter_get_outfile_open path self f :
  outfiles_lookup path (outfiles self) = Some f →
  pos f ≠ 0 →
  JSONConverter_get_outfile path self = (Return path, self).
Proof.
  intros Hf Hpos.
  unfold JSONConverter_get_outfile, BaseConverter_get_outfile, osp.normcase. run_M.
  rewrite Hf. unfold tell. rewrite Hf. by rewrite bool_decide_false.
Qed.

(** X20.  [JSONConverter.get_outfile] on a path which is not open yet,
    with a version and an indentation in [config].  Where [os.makedirs] or
    [open] raise, the exception goes through and nothing changes.
    Otherwise the file is added after those already open and holds the
    opening brace and the line of the version, [last_indent] is the
    indentation of [config], and every further call for the same path
    changes nothing, whatever the file system: the preamble is written
    once. *)
Theorem JSONConverter_get_outfile_preamble open_error path self js v :
  config self !! "json_space" = Some (VStr js) →
  config self !! "version" = Some (VStr v) →
  outfiles_lookup (osp.normcase path) (outfiles self) = None →
  let preamble := ("{" +:+ nl) +:+ (js +:+ dquote +:+ "version" +:+ dquote +:+ ": "
                                       +:+ json_dumps v +:+ "," +:+ nl) in
  let run := OnDisk.JSONConverter_get_outfile open_error path self in
  match OnDisk.makedirs_open open_error (outfiles self) (osp.normcase path) with
  | Some e => run = (Raise e, self)
  | None =>
      run.1 = Return (osp.normcase path)
      ∧ outfiles run.2
        = outfiles self ++ [(osp.normcase path, mkFile preamble (PyStr.len preamble))]
      ∧ last_indent run.2 = Some js
      ∧ ∀ open_error',
          OnDisk.JSONConverter_get_outfile open_error' path run.2
          = (Return (osp.normcase path), run.2)
  end.
Proof.
  intros Hjs Hv Hnew preamble run. subst run.
  destruct (OnDisk.makedirs_open _ _ _) as [e|] eqn:He.
  { by apply JSONConverter_get_outfile_on_disk_error. }
  rewrite JSONConverter_get_outfile_on_disk by (by right).
  unfold osp.normcase in *.
  rewrite (JSONConverter_get_outfile_new _ _ js v) by done.
  cbn [fst snd outfiles last_indent set_last_indent set_outfiles].
  split; [done |]. split; [done |]. split; [done |].
  intros open_error'.
  rewrite JSONConverter_get_outfile_on_disk.
  - apply (JSONConverter_get_outfile_open _ _ (mkFile preamble (PyStr.len preamble))).
    + cbn [outfiles set_last_indent set_outfiles]. by apply outfiles_lookup_app_new.
    + apply len_json_preamble.
  - left. unfold osp.normcase. cbn [outfiles set_last_indent set_outfiles].
    by rewrite outfiles_lookup_app_new.
Qed.

Lemma JSONConverter_get_outfile_preamble_witness :
  let self := set_config (λ config, <["version" := VStr "1"]> config) (json_converter []) in
  let preamble := "{" +:+ nl +:+ "    " +:+ dquote +:+ "version" +:+ dquote +:+ ": "
                  +:+ dquote +:+ "1" +:+ dquote +:+ "," +:+ nl in
  OnDisk.JSONConverter_get_outfile (λ _ _, None) "a.json" self
  = (Raise (OSError "FileNotFoundError" ""), self)
  ∧ (OnDisk.JSONConverter_get_outfile (λ _ _, None) "/out/a.json" self).1
    = Return "/out/a.json"
  ∧ outfiles (OnDisk.JSONConverter_get_outfile (λ _ _, None) "/out/a.json" self).2
    = [("/out/a.json", mkFile preamble 22)]
  ∧ OnDisk.JSONConverter_get_outfile (λ _ _, Some (OSError "PermissionError" "/out/a.json"))
      "/out/a.json" (OnDisk.JSONConverter_get_outfile (λ _ _, None) "/out/a.json" self).2
    = (Return "/out/a.json",
       (OnDisk.JSONConverter_get_outfile (λ _ _, None) "/out/a.json" self).2).
Proof.
  intros self preamble. split.
  - exact (JSONConverter_get_outfile_preamble (λ _ _, None) "a.json" self "    " "1"
             ltac:(reflexivity) ltac:(reflexivity) ltac:(reflexivity)).
  - destruct (JSONConverter_get_outfile_preamble (λ _ _, None) "/out/a.json" self "    " "1"
                ltac:(reflexivity) ltac:(reflexivity) ltac:(reflexivity))
      as (Hr & Hfiles & _ & Hagain).
    split; [exact Hr |]. split; [exact Hfiles |]. apply Hagain.
Defined.

(** ** The comma before a closing brace *)

Lemma take_app_add k s t : PyStr.take (PyStr.len s + k) (s +:+ t) = s +:+ PyStr.take k t.
Proof.
  induction s as [|c s IH]; [done |]. rewrite !app_cons. unfold PyStr.len in *. simpl.
  by rewrite IH.
Qed.

Lemma drop_app_add k s t : PyStr.drop (PyStr.len s + k) (s +:+ t) = PyStr.drop k t.
Proof.
  induction s as [|c s IH]; [done |]. rewrite !app_cons. unfold PyStr.len in *. simpl.
  by rewrite IH.
Qed.

(** The file that [comma_check] followed by the write of a closing brace
    leaves, from a file which ends with a comma and a line break and whose
    position is its end: the brace is written [seek_dist] characters
    before the end. *)
Lemma comma_check_close outfile self f indent :
  outfiles_lookup outfile (outfiles self) = Some f →
  PyStr.endswith "," (PyStr.rstrip (last_line self)) = true →
  last_indent self = Some indent →
  1 ≤ PyStr.len indent ≤ S (pos f) →
  ∃ self',
    (comma_check outfile;; write outfile "}") self = (Return (), self')
    ∧ outfiles_lookup outfile (outfiles self')
      = Some (File_write "}" (File_write nl
                (mkFile (data f) (pos f - (PyStr.len indent - 1))))).
Proof.
  intros Hf Hcomma Hindent Hlen. unfold comma_check. run_M. rewrite Hcomma, Hindent.
  unfold tell. rewrite Hf. unfold seek.
  rewrite bool_decide_false by lia.
  unfold write, modify. eexists. split; [reflexivity |].
  cbn [outfiles set_outfiles]. rewrite !outfiles_lookup_alter, !bool_decide_true by done.
  rewrite Hf. cbn [fmap option_fmap option_map]. do 4 f_equal. lia.
Qed.

(** A write within a file replaces as many characters as it has. *)
Lemma File_write_inside a old b s :
  PyStr.len old = PyStr.len s →
  File_write s (mkFile (a +:+ old +:+ b) (PyStr.len a))
  = mkFile (a +:+ s +:+ b) (PyStr.len a + PyStr.len s).
Proof.
  intros Hlen. unfold File_write. cbn [data pos].
  rewrite <- (Nat.add_0_r (PyStr.len a)) at 1. rewrite take_app_add.
  rewrite drop_app_add, <- Hlen, <- (Nat.add_0_r (PyStr.len old)), drop_app_add.
  rewrite len_app. replace (PyStr.len a - _) with 0 by lia.
  cbn [PyStr.take PyStr.drop zeros]. by rewrite app_empty_r.
Qed.

(** X21.  The comma that [comma_check] is to remove.  On a file which ends
    with a character [c], a comma and a line break, with the last line
    written ending with a comma, [comma_check] followed by the write of the
    closing brace leaves the text before the comma, a line break and the
    brace when [last_indent] has three characters; with the four
    characters of the default indentation, it is [c] which is replaced by
    the line break, and the brace takes the place of the comma: the
    character before the comma is lost. *)
Theorem comma_check_indentation outfile self body c indent :
  outfiles_lookup outfile (outfiles self)
  = Some (mkFile (body +:+ String c ("," +:+ nl)) (PyStr.len body + 3)) →
  PyStr.endswith "," (PyStr.rstrip (last_line self)) = true →
  last_indent self = Some indent →
  (PyStr.len indent = 3 →
   ∃ self',
     (comma_check outfile;; write outfile "}") self = (Return (), self')
     ∧ outfiles_lookup outfile (outfiles self')
       = Some (mkFile (body +:+ String c (nl +:+ "}")) (PyStr.len body + 3)))
  ∧ (PyStr.len indent = 4 →
     ∃ self',
       (comma_check outfile;; write outfile "}") self = (Return (), self')
       ∧ outfiles_lookup outfile (outfiles self')
         = Some (mkFile (body +:+ nl +:+ "}" +:+ nl) (PyStr.len body + 2))).
Proof.
  intros Hf Hcomma Hindent.
  split; intros Hlen;
    (destruct (comma_check_close outfile self _ indent Hf Hcomma Hindent)
       as (self' & Hrun & Hfile); [cbn [pos]; lia |]);
    exists self'; (split; [exact Hrun |]); rewrite Hfile, Hlen; cbn [data pos]; f_equal.
  - replace (PyStr.len body + 3 - (3 - 1)) with (PyStr.len (body +:+ String c "")); last first.
    { rewrite len_app. cbn. lia. }
    replace (body +:+ String c ("," +:+ nl)) with ((body +:+ String c "") +:+ "," +:+ nl)
      by (by rewrite app_assoc').
    rewrite File_write_inside by done.
    replace (PyStr.len (body +:+ String c "") + PyStr.len nl)
      with (PyStr.len ((body +:+ String c "") +:+ nl)) by (by rewrite !len_app).
    replace ((body +:+ String c "") +:+ nl +:+ nl)
      with (((body +:+ String c "") +:+ nl) +:+ nl +:+ "") by (by rewrite !app_assoc').
    rewrite File_write_inside by done.
    f_equal; [by rewrite !app_assoc' | rewrite !len_app; cbn; lia].
  - replace (PyStr.len body + 3 - (4 - 1)) with (PyStr.len body) by lia.
    change (body +:+ String c ("," +:+ nl)) with (body +:+ String c "" +:+ "," +:+ nl).
    rewrite File_write_inside by done.
    replace (PyStr.len body + PyStr.len nl) with (PyStr.len (body +:+ nl))
      by (by rewrite !len_app).
    replace (body +:+ nl +:+ "," +:+ nl) with ((body +:+ nl) +:+ "," +:+ nl)
      by (by rewrite !app_assoc').
    rewrite File_write_inside by done.
    f_equal; [by rewrite !app_assoc' | rewrite !len_app; cbn; lia].
Qed.

Lemma comma_check_indentation_witness :
  let self indent :=
    mkConverter ∅ [("/out/a.json", mkFile ("{" +:+ nl +:+ "}," +:+ nl) 5)] []
                (Some indent) ("}," +:+ nl) in
  (∃ self',
     (comma_check "/out/a.json";; write "/out/a.json" "}") (self "   ") = (Return (), self')
     ∧ outfiles_lookup "/out/a.json" (outfiles self')
       = Some (mkFile ("{" +:+ nl +:+ "}" +:+ nl +:+ "}") 5))
  ∧ (∃ self',
       (comma_check "/out/a.json";; write "/out/a.json" "}") (self "    ") = (Return (), self')
       ∧ outfiles_lookup "/out/a.json" (outfiles self')
         = Some (mkFile ("{" +:+ nl +:+ nl +:+ "}" +:+ nl) 4)).
Proof.
  split.
  - exact (proj1 (comma_check_indentation "/out/a.json"
                    (mkConverter ∅ [("/out/a.json", mkFile ("{" +:+ nl +:+ "}," +:+ nl) 5)] []
                                 (Some "   ") ("}," +:+ nl))
                    ("{" +:+ nl) "}" "   " eq_refl eq_refl eq_refl) eq_refl).
  - exact (proj2 (comma_check_indentation "/out/a.json"
                    (mkConverter ∅ [("/out/a.json", mkFile ("{" +:+ nl +:+ "}," +:+ nl) 5)] []
                                 (Some "    ") ("}," +:+ nl))
                    ("{" +:+ nl) "}" "    " eq_refl eq_refl eq_refl) eq_refl).
Defined.

(** ** A converter without [output_token] *)

Lemma process_tokens_start_outfiles cwd self :
  outfiles (process_tokens_start cwd self).2 = outfiles self.
Proof.
  unfold process_tokens_start, process_header. run_M.
  destruct (process_header_loop _ _) as [[[[] | e] cfg1] rest]; [| done].
  destruct (cfg1 !! "output") as [[out | b] |]; [| done |].
  all: destruct (check_required _ _); [| done].
  all: cbn [config set_config]; by rewrite lookup_insert_eq.
Qed.

Lemma BaseConverter_route_token token self :
  outfiles self = [] →
  let run := route_token BaseConverter_get_outfile BaseConverter_output_token token None self in
  ∃ e, run.1 = Raise e
       ∧ (outfiles run.2 = []
          ∨ (e = NotImplementedError "Should Be implemented via a subclass"
             ∧ ∃ path, outfiles run.2 = [(path, mkFile "" 0)])).
Proof.
  intros Hfiles. unfold route_token, BaseConverter_get_outfile, BaseConverter_output_token.
  destruct (bool_decide (pt_type token ≠ GROUP_TAG) || _).
  { run_M. rewrite Hfiles. cbn [fst snd outfiles set_outfiles outfiles_lookup].
    rewrite Hfiles. eexists. split; [done |]. right. eauto. }
  destruct (bool_decide (_ = ENDGROUP_TAG)); [| by eexists; split; [| left]].
  destruct (pt_contents token) as [| |? ? [[|c o]|]];
    run_M; rewrite Hfiles; cbn [fst snd outfiles set_outfiles outfiles_lookup];
    rewrite Hfiles; (eexists; split; [done |]); right; eauto.
Qed.

Lemma BaseConverter_output_tokens_loop rounds params self :
  outfiles self = [] →
  let run := output_tokens_loop BaseConverter_get_outfile BaseConverter_output_token
                                rounds params None self in
  outfiles run.2 = []
  ∨ (run.1 = Raise (NotImplementedError "Should Be implemented via a subclass")
     ∧ ∃ path, outfiles run.2 = [(path, mkFile "" 0)]).
Proof.
  revert params self. induction rounds as [|rounds IH]; intros params self Hfiles.
  { left. exact Hfiles. }
  cbn [output_tokens_loop]. run_M. unfold in_generator.
  destruct (token_source self) as [|token rest] eqn:Hsrc; [left; exact Hfiles |].
  destruct (keeps_files_process_token token params (set_token_source rest self))
    as [_ Hout].
  destruct (process_token token params (set_token_source rest self))
    as [[[processed params'] | e] self1]; cbn [fst snd] in *;
    [| left; destruct e; cbn [fst snd]; by rewrite Hout].
  assert (Hfiles1 : outfiles self1 = []) by (by rewrite Hout).
  destruct processed as [processed |]; [| by apply IH].
  destruct (BaseConverter_route_token processed self1 Hfiles1)
    as (e & He & [Hr | (-> & path & Hp)]);
    destruct (route_token _ _ processed None self1) as [[outfile | e'] self2];
    cbn [fst snd] in *; try discriminate He; injection He as ->.
  - by left.
  - right. eauto.
Qed.

(** X22.  A converter which does not override [output_token], as
    [JSConverter], writes nothing: started with no file open,
    [output_tokens] either opens no file at all, or ends with the
    [NotImplementedError] which the first token routed to a file raises,
    and the one file opened is empty. *)
Theorem JSConverter_writes_nothing cwd self :
  outfiles self = [] →
  outfiles (JSConverter_output_tokens cwd self).2 = []
  ∨ ((JSConverter_output_tokens cwd self).1
     = Raise (NotImplementedError "Should Be implemented via a subclass")
     ∧ ∃ path, outfiles (JSConverter_output_tokens cwd self).2 = [(path, mkFile "" 0)]).
Proof.
  intros Hfiles. unfold JSConverter_output_tokens, BaseConverter_output_tokens.
  run_M. unfold in_generator.
  pose proof (process_tokens_start_outfiles cwd self) as Hstart. rewrite Hfiles in Hstart.
  destruct (process_tokens_start cwd self) as [[params | e] self1]; cbn [snd] in Hstart;
    [| left; by destruct e].
  by apply BaseConverter_output_tokens_loop.
Qed.

Lemma JSConverter_writes_nothing_witness :
  let run := JSConverter_output_tokens "/cwd"
               (JSConverter_init [dialect_line; endhead_line; sql "SELECT 1;"]) in
  run.1 = Raise (NotImplementedError "Should Be implemented via a subclass")
  ∧ outfiles run.2 = [("/cwd", mkFile "" 0)].
Proof.
  destruct (JSConverter_writes_nothing "/cwd"
              (JSConverter_init [dialect_line; endhead_line; sql "SELECT 1;"]) eq_refl)
    as [Hr | (Hr & path & Hp)].
  - by vm_compute in Hr.
  - split; [exact Hr |]. cbv zeta. rewrite Hp. vm_compute in Hp. by injection Hp as <-.
Defined.

(** ** Group tags and the files of their lines *)

(** X23.  A StartGroup tag with an [OUTPUT] part sets the output path to
    [dirname(output)/<name><ext>], where [<name>] is the text of the
    [OUTPUT] part and [<ext>] the extension of the converter: a text which
    starts with a slash replaces the whole path, any other one names a
    file next to the current one.  The name of the group is added to the
    stack. *)
Theorem startgroup_output_override token tag name c o params self ext :
  type token = GROUP_TAG →
  contents token = GroupDict tag name (Some (String c o)) →
  PyStr.lower tag = STARTGROUP_TAG →
  config self !! "outfile_type" = Some (VStr ext) →
  ∃ params',
    process_token token params self
    = (Return (Some (mkProcessed (contents token) GROUP_TAG params'), params'), self)
    ∧ group params' = group params ++ [name]
    ∧ (c = "/"%char → output params' = String c o +:+ ext)
    ∧ (∀ dir file, c ≠ "/"%char →
         output params = dir +:+ String "/" file →
         PyStr.endswith "/" dir = false →
         PyStr.contains "/" file = false →
         output params' = dir +:+ String "/" (String c o +:+ ext)).
Proof.
  intros Hty Hc Htag Hcfg. unfold process_token, process_token_GROUP_TAG.
  rewrite Hty, Hc, (bool_decide_true _ Htag). run_M. unfold config_str. rewrite Hcfg.
  eexists. split; [reflexivity |]. cbn [group output set_group set_output].
  split; [done |]. unfold osp.normcase. split.
  - intros ->. unfold osp.join. by rewrite app_cons.
  - intros dir file Hslash -> Hdir Hfile. apply join_dirname; try done.
    rewrite app_cons. simpl. by rewrite bool_decide_false by congruence.
Qed.

Lemma startgroup_output_override_witness :
  ∃ params',
    process_token (mkToken GROUP_TAG (GroupDict "StartGroup" "g" (Some "/abs/admin")))
      (mkParams "/out/default.json" [] false None) (json_converter [])
    = (Return (Some (mkProcessed (GroupDict "StartGroup" "g" (Some "/abs/admin"))
                                 GROUP_TAG params'), params'),
       json_converter [])
    ∧ group params' = ["g"]
    ∧ output params' = "/abs/admin.json".
Proof.
  destruct (startgroup_output_override
              (mkToken GROUP_TAG (GroupDict "StartGroup" "g" (Some "/abs/admin")))
              "StartGroup" "g" "/"%char "abs/admin"
              (mkParams "/out/default.json" [] false None) (json_converter []) ".json"
              eq_refl eq_refl eq_refl eq_refl)
    as (params' & Hrun & Hg & Habs & _).
  exists params'. split; [exact Hrun |]. split; [exact Hg | by apply Habs].
Defined.

(** X24.  The file of the line of an EndGroup tag.  When the tag closes
    the only group of the stack, the token which [process_token] returns
    records the output path of the group, and [output_tokens] asks
    [get_outfile] for that path, provided it is not empty: the line is
    written to the file of the group, although the context already holds
    the default path.  When groups remain on the stack, the file is that
    of the path of the new context, which is the directory of the old path
    with the extension of the converter. *)
Theorem endgroup_file get_outfile output_token token tag name out params self ext :
  type token = GROUP_TAG →
  contents token = GroupDict tag name out →
  PyStr.lower tag = ENDGROUP_TAG →
  group params ≠ [] →
  output params ≠ "" →
  config self !! "outfile_type" = Some (VStr ext) →
  ∃ processed params',
    process_token token params self = (Return (Some processed, params'), self)
    ∧ group params' = removelast (group params)
    ∧ (group params' = [] →
       output params' = osp.join (osp.dirname (output params)) ("default" +:+ ext)
       ∧ ∀ outfile self1,
           route_token get_outfile output_token processed outfile self1
           = (handle ← get_outfile (output params);
              output_token processed handle;; mret (Some handle)) self1)
    ∧ (group params' ≠ [] →
       output params' = osp.dirname (output params) +:+ ext
       ∧ (out = None ∨ out = Some "" →
          ∀ outfile self1,
            route_token get_outfile output_token processed outfile self1
            = (handle ← get_outfile (output params');
               output_token processed handle;; mret (Some handle)) self1)).
Proof.
  intros Hty Hc Htag Hgroup Hout Hcfg. unfold process_token, process_token_GROUP_TAG.
  rewrite Hty, Hc.
  assert (Hne : PyStr.lower tag ≠ STARTGROUP_TAG) by (by rewrite Htag).
  rewrite (bool_decide_false _ Hne), (bool_decide_false _ Hgroup).
  cbn [group set_group]. case_bool_decide as Hempty;
    run_M; unfold config_str; rewrite Hcfg; eexists _, _;
    (split; [reflexivity |]); cbn [group output set_group set_output];
    (split; [done |]).
  - split; [| by intros ?]. intros _. split; [done |].
    intros outfile self1. unfold route_token. cbn [pt_type pt_contents pt_existing_params].
    rewrite Htag. destruct (output params) as [|c o] eqn:Ho; [done |].
    change (bool_decide (GROUP_TAG ≠ GROUP_TAG)) with false.
    change (bool_decide (ENDGROUP_TAG = STARTGROUP_TAG)) with false.
    change (bool_decide (ENDGROUP_TAG = ENDGROUP_TAG)) with true.
    run_M. cbn [orb]. cbv beta.
    destruct (get_outfile (String c o) self1) as [[handle | e] self2]; [| done].
    by destruct (output_token _ handle self2) as [[[] | e] self3].
  - split; [by intros ? |]. intros _. split; [done |].
    intros Hnone outfile self1. unfold route_token.
    cbn [pt_type pt_contents pt_existing_params output set_output set_group].
    rewrite Htag.
    change (bool_decide (GROUP_TAG ≠ GROUP_TAG)) with false.
    change (bool_decide (ENDGROUP_TAG = STARTGROUP_TAG)) with false.
    change (bool_decide (ENDGROUP_TAG = ENDGROUP_TAG)) with true.
    run_M. cbn [orb]. cbv beta.
    destruct Hnone as [-> | ->];
      (destruct (get_outfile _ self1) as [[handle | e] self2]; [| done]);
      by destruct (output_token _ handle self2) as [[[] | e] self3].
Qed.

Lemma endgroup_file_witness :
  ∃ processed params',
    process_token (endgroup "g") (mkParams "/out/admin.json" ["g"] false None)
      (json_converter [])
    = (Return (Some processed, params'), json_converter [])
    ∧ output params' = "/out/default.json"
    ∧ ∀ outfile self1,
        route_token JSONConverter_get_outfile JSONConverter_output_token processed outfile self1
        = (handle ← JSONConverter_get_outfile "/out/admin.json";
           JSONConverter_output_token processed handle;; mret (Some handle)) self1.
Proof.
  destruct (endgroup_file JSONConverter_get_outfile JSONConverter_output_token
              (endgroup "g") "ENDGROUP" "g" None
              (mkParams "/out/admin.json" ["g"] false None) (json_converter []) ".json"
              eq_refl eq_refl eq_refl ltac:(done) ltac:(done) eq_refl)
    as (processed & params' & Hrun & Hg & Hlast & _).
  exists processed, params'. split; [exact Hrun |].
  destruct (Hlast Hg) as [Hout Hroute]. split; [by rewrite Hout | exact Hroute].
Defined.

(** ** [index_containing_substring] *)

(** X25.  [index_containing_substring] returns the index of the first
    text of the list which holds the substring in lower case, and [-1]
    (here [None]) exactly when no text of the list does. *)
Theorem index_containing_substring_first the_list substring :
  match index_containing_substring the_list substring with
  | Some i =>
      (∃ s, the_list !! i = Some s ∧ PyStr.contains substring (PyStr.lower s) = true)
      ∧ ∀ j s, j < i → the_list !! j = Some s →
               PyStr.contains substring (PyStr.lower s) = false
  | None =>
      Forall (λ s, PyStr.contains substring (PyStr.lower s) = false) the_list
  end.
Proof.
  induction the_list as [|s rest IH]; simpl; [by constructor |].
  destruct (PyStr.contains substring (PyStr.lower s)) eqn:Hs.
  - split; [by exists s |]. intros j t Hj. lia.
  - destruct (index_containing_substring rest substring) as [i|]; simpl.
    + destruct IH as [Hi Hbefore]. split; [done |].
      intros [|j] t Hj; simpl; [by intros [= <-] |]. apply Hbefore. lia.
    + by constructor.
Qed.

(** ** The artifact of a document of statements *)

(** The branch of a statement in [JSONConverter.output_token], on a file
    whose position is its end. *)
Lemma JSONConverter_output_token_statement contents params path cfg f rest indent ll :
  pos f = PyStr.len (data f) →
  statement_wf contents →
  JSONConverter_output_token (mkProcessed (Text contents) SQL params) path
    (mkConverter cfg [(path, f)] rest (Some indent) ll)
  = (Return (),
     match json_entry indent contents with
     | Some line =>
         mkConverter cfg [(path, mkFile (data f +:+ line) (PyStr.len (data f +:+ line)))]
                     rest (Some indent) line
     | None => mkConverter cfg [(path, f)] rest (Some indent) ll
     end).
Proof.
  intros Hpos Hwf. unfold JSONConverter_output_token, json_entry, statement_wf in *.
  cbn [pt_type pt_contents].
  destruct (PyStr.startswith "prepare" (PyStr.lower contents)); [| done].
  destruct (Hwf eq_refl) as [[key query] ->]. cbn [negb]. run_M.
  unfold write, modify, set_last_line, set_outfiles, format_indent.
  cbn [config outfiles token_source last_indent last_line outfiles_alter default].
  rewrite bool_decide_true by done. by rewrite File_write_at_end.
Qed.

Lemma str_concat_cons line lines : str_concat (line :: lines) = line +:+ str_concat lines.
Proof. done. Qed.

(** The loop of [output_tokens] over statements, once their file is open:
    the lines of the statements are added to the file.  [get_outfile] is a
    method which returns the handle of a file which is open and holds
    text. *)
Lemma output_tokens_loop_statements get_outfile indent statements :
  (∀ path self f,
     outfiles_lookup path (outfiles self) = Some f → pos f ≠ 0 →
     get_outfile path self = (Return path, self)) →
  ∀ rounds params outfile cfg f ll,
    length statements ≤ rounds →
    Forall (λ s, statement_wf (format_sql s)) statements →
    pos f = PyStr.len (data f) →
    pos f ≠ 0 →
    output_tokens_loop get_outfile JSONConverter_output_token rounds params
      outfile (mkConverter cfg [(output params, f)] (sql <$> statements) (Some indent) ll)
    = (Return (),
       let text := data f +:+ str_concat (json_entries indent statements) in
       mkConverter cfg [(output params, mkFile text (PyStr.len text))] []
                   (Some indent) (default ll (last (json_entries indent statements)))).
Proof.
  intros Hget.
  induction statements as [|s statements IH];
    intros rounds params outfile cfg f ll Hrounds Hwf Hpos Hopen.
  - cbv zeta. cbn [fmap list_fmap json_entries omap list_omap str_concat foldr last default].
    rewrite app_empty_r, <- Hpos. destruct f as [d p].
    by destruct rounds.
  - apply Forall_cons in Hwf as [Hs Hwf].
    destruct rounds as [|rounds]; [simpl in Hrounds; lia |].
    rewrite fmap_cons. cbn [output_tokens_loop]. run_M.
    cbn [token_source set_token_source config outfiles last_indent last_line].
    unfold in_generator, process_token. cbn [type sql].
    rewrite (process_token_SQL_spec _ s) by done.
    unfold route_token. cbn [pt_type pt_contents pt_existing_params output set_meta type sql].
    change (bool_decide (SQL ≠ GROUP_TAG)) with true. cbn [orb]. run_M.
    unfold set_token_source. cbn [token_source config outfiles last_indent last_line].
    change (list_fmap string Token sql statements) with (sql <$> statements).
    rewrite (Hget _ _ f);
      [| by cbn [outfiles outfiles_lookup]; rewrite bool_decide_true | done].
    rewrite JSONConverter_output_token_statement by done.
    cbn [json_entries omap list_omap].
    fold (json_entries indent statements).
    destruct (json_entry indent (format_sql s)) as [line|].
    + specialize (IH rounds (set_meta None params) (Some (output params)) cfg
                     (mkFile (data f +:+ line) (PyStr.len (data f +:+ line))) line).
      cbn [output set_meta data pos] in IH.
      rewrite IH; [| simpl in Hrounds; lia | done | done | rewrite len_app; lia].
      cbv zeta. rewrite str_concat_cons, app_assoc'.
      do 2 f_equal. rewrite last_cons. by destruct (last (json_entries indent statements)).
    + specialize (IH rounds (set_meta None params) (Some (output params)) cfg f ll).
      cbn [output set_meta] in IH. by rewrite IH; [| simpl in Hrounds; lia | done..].
Qed.

(** The first round of the loop, when no file is open yet: the first
    statement asks for the file, and what [get_outfile] raises ends the
    loop. *)
Lemma output_tokens_loop_statements_error get_outfile e s statements rounds params cfg li ll :
  get_outfile (output params) (mkConverter cfg [] (sql <$> statements) li ll)
  = (Raise e, mkConverter cfg [] (sql <$> statements) li ll) →
  output_tokens_loop get_outfile JSONConverter_output_token (S rounds) params
    None (mkConverter cfg [] (sql <$> s :: statements) li ll)
  = (Raise e, mkConverter cfg [] (sql <$> statements) li ll).
Proof.
  intros Hget.
  rewrite fmap_cons. cbn [output_tokens_loop]. run_M.
  cbn [token_source set_token_source config outfiles last_indent last_line].
  unfold in_generator, process_token. cbn [type sql].
  rewrite (process_token_SQL_spec _ s) by done.
  unfold route_token. cbn [pt_type pt_contents pt_existing_params output set_meta type sql].
  change (bool_decide (SQL ≠ GROUP_TAG)) with true. cbn [orb]. run_M.
  unfold set_token_source. cbn [token_source config outfiles last_indent last_line].
  change (list_fmap string Token sql statements) with (sql <$> statements).
  by rewrite Hget.
Qed.

(** The same loop from its start, when [get_outfile] opens the file. *)
Lemma output_tokens_loop_statements_new get_outfile js v s statements rounds params cfg li ll :
  (∀ path self f,
     outfiles_lookup path (outfiles self) = Some f → pos f ≠ 0 →
     get_outfile path self = (Return path, self)) →
  get_outfile (output params) (mkConverter cfg [] (sql <$> statements) li ll)
  = (Return (output params),
     mkConverter cfg [(output params, mkFile (json_preamble js v)
                                             (PyStr.len (json_preamble js v)))]
                 (sql <$> statements) (Some js) ll) →
  length (s :: statements) ≤ rounds →
  Forall (λ s, statement_wf (format_sql s)) (s :: statements) →
  output_tokens_loop get_outfile JSONConverter_output_token rounds params
    None (mkConverter cfg [] (sql <$> s :: statements) li ll)
  = (Return (),
     let text := json_preamble js v +:+ str_concat (json_entries js (s :: statements)) in
     mkConverter cfg [(output params, mkFile text (PyStr.len text))] []
                 (Some js) (default ll (last (json_entries js (s :: statements))))).
Proof.
  intros Hopen Hnew Hrounds [Hs Hwf]%Forall_cons.
  destruct rounds as [|rounds]; [simpl in Hrounds; lia |].
  rewrite fmap_cons. cbn [output_tokens_loop]. run_M.
  cbn [token_source set_token_source config outfiles last_indent last_line].
  unfold in_generator, process_token. cbn [type sql].
  rewrite (process_token_SQL_spec _ s) by done.
  unfold route_token. cbn [pt_type pt_contents pt_existing_params output set_meta type sql].
  change (bool_decide (SQL ≠ GROUP_TAG)) with true. cbn [orb]. run_M.
  unfold set_token_source. cbn [token_source config outfiles last_indent last_line].
  change (list_fmap string Token sql statements) with (sql <$> statements).
  rewrite Hnew.
  rewrite JSONConverter_output_token_statement by done.
  cbn [json_entries omap list_omap data].
  fold (json_entries js statements).
  pose proof (len_json_preamble js v) as Hpre.
  destruct (json_entry js (format_sql s)) as [line|].
  - pose proof (output_tokens_loop_statements get_outfile js statements Hopen rounds
                  (set_meta None params) (Some (output params)) cfg
                  (mkFile (json_preamble js v +:+ line)
                          (PyStr.len (json_preamble js v +:+ line))) line) as Hloop.
    cbn [output set_meta data pos] in Hloop.
    rewrite Hloop; [| simpl in Hrounds; lia | done | done | rewrite len_app; lia].
    cbv zeta. rewrite str_concat_cons, app_assoc'.
    do 2 f_equal. rewrite last_cons. by destruct (last (json_entries js statements)).
  - pose proof (output_tokens_loop_statements get_outfile js statements Hopen rounds
                  (set_meta None params) (Some (output params)) cfg
                  (mkFile (json_preamble js v) (PyStr.len (json_preamble js v))) ll) as Hloop.
    cbn [output set_meta data pos] in Hloop.
    by rewrite Hloop; [| simpl in Hrounds; lia | done..].
Qed.

Lemma rstrip_comma_nl x : PyStr.rstrip (x +:+ "," +:+ nl) = x +:+ ",".
Proof.
  induction x as [|c x IH]; [done |].
  rewrite (app_cons c x ("," +:+ nl)), (app_cons c x ","). cbn [PyStr.rstrip]. rewrite IH.
  by destruct x.
Qed.

Lemma endswith_app suffix s : PyStr.endswith suffix (s +:+ suffix) = true.
Proof.
  induction s as [|c s IH].
  - change ("" +:+ suffix) with suffix.
    destruct suffix; cbn [PyStr.endswith]; by rewrite bool_decide_true.
  - rewrite app_cons, endswith_cons, IH. apply orb_true_r.
Qed.

(** A line of [json_entry] ends with a double quote, a comma and a line
    break. *)
Lemma json_entry_end indent contents line :
  json_entry indent contents = Some line →
  ∃ x, line = x +:+ dquote +:+ "," +:+ nl.
Proof.
  unfold json_entry. destruct (negb _); [done |].
  destruct (PREPARE_REGEX_match_groups contents) as [[key query]|]; [| done].
  intros [= <-]. unfold json_dumps.
  eexists (indent +:+ dquote +:+ key +:+ dquote +:+ ": " +:+ dquote +:+ json_escape _).
  by rewrite !app_assoc'.
Qed.

Lemma str_concat_last lines line :
  last lines = Some line → ∃ pre, str_concat lines = pre +:+ line.
Proof.
  induction lines as [|l lines IH]; [done |]. rewrite last_cons.
  destruct (last lines) as [l'|] eqn:Hlast.
  - intros [= ->]. rewrite str_concat_cons. destruct (IH eq_refl) as [pre ->].
    exists (l +:+ pre). by rewrite app_assoc'.
  - intros [= ->]. apply last_None in Hlast as ->.
    exists "". by rewrite str_concat_cons, app_empty_r.
Qed.

(** The header of a document, with its values. *)
Lemma process_tokens_start_header cwd d v out x body :
  ∃ cfg,
    process_tokens_start cwd
      (json_converter (mkToken HEADER (HeaderDict "DIALECT" d)
                       :: mkToken HEADER (HeaderDict "VERSION" v)
                       :: mkToken HEADER (HeaderDict "OUTPUT" out)
                       :: mkToken HEADER (HeaderDict "ENDHEAD" x) :: body))
    = (Return (mkParams out [] false None), mkConverter cfg [] body None "")
    ∧ cfg !! "json_space" = Some (VStr "    ")
    ∧ cfg !! "version" = Some (VStr v).
Proof.
  eexists. split; [reflexivity |]. split; reflexivity.
Qed.

Lemma outfiles_alter_singleton g path f :
  outfiles_alter g path [(path, f)] = [(path, g f)].
Proof. simpl. by rewrite bool_decide_true. Qed.

Lemma close_outfiles_one path self :
  close_outfiles [path] self = (comma_check path;; write path "}") self.
Proof.
  cbn [close_outfiles]. run_M.
  destruct (comma_check path self) as [[[] | e] self1]; [| done].
  by destruct (write path "}" self1) as [[[] | e] self2].
Qed.

(** With the default indentation, the brace which closes a file takes the
    place of the comma, and the line break that of the character before
    it. *)
Lemma File_write_close body c :
  File_write "}" (File_write nl (mkFile (body +:+ String c ("," +:+ nl)) (PyStr.len body)))
  = mkFile (body +:+ nl +:+ "}" +:+ nl) (PyStr.len body + 2).
Proof.
  change (body +:+ String c ("," +:+ nl)) with (body +:+ String c "" +:+ "," +:+ nl).
  rewrite File_write_inside by done.
  replace (PyStr.len body + PyStr.len nl) with (PyStr.len (body +:+ nl))
    by (by rewrite !len_app).
  replace (body +:+ nl +:+ "," +:+ nl) with ((body +:+ nl) +:+ "," +:+ nl)
    by (by rewrite !app_assoc').
  rewrite File_write_inside by done.
  f_equal; [by rewrite !app_assoc' | rewrite !len_app; cbn; lia].
Qed.

(** X26.  The artifact of a document of statements.  For a header which
    sets the dialect, the version and the output path, followed by
    statements only, each one a PREPARE statement that [PREPARE_REGEX]
    matches or no PREPARE statement at all, [JSONConverter(infile)] with
    its default indentation asks for the file of the output path at the
    first statement.  Where [os.makedirs] or [open] raise for that path, as
    they do for a bare file name, the exception ends the run and no file
    is written.  Otherwise the run returns normally and leaves one file,
    at the output path.  Where no statement is a PREPARE statement, the
    file holds the opening brace, the line of the version with its comma,
    and the closing brace.  Otherwise it holds that preamble and the lines
    of the PREPARE statements, but the end of the last line, a double
    quote, a comma and a line break, is replaced by a line break, the
    closing brace and a line break: the string of the last statement is not
    closed. *)
Theorem json_artifact_of_statements open_error cwd d v out x statements :
  statements ≠ [] →
  Forall (λ s, statement_wf (format_sql s)) statements →
  let run := OnDisk.JSONConverter_output_tokens open_error cwd
               (json_converter (mkToken HEADER (HeaderDict "DIALECT" d)
                                :: mkToken HEADER (HeaderDict "VERSION" v)
                                :: mkToken HEADER (HeaderDict "OUTPUT" out)
                                :: mkToken HEADER (HeaderDict "ENDHEAD" x)
                                :: (sql <$> statements))) in
  let text := json_preamble "    " v +:+ str_concat (json_entries "    " statements) in
  match OnDisk.makedirs_open open_error [] out with
  | Some e => run.1 = Raise e ∧ outfiles run.2 = []
  | None =>
      run.1 = Return ()
      ∧ (∃ file, outfiles run.2 = [(out, file)])
      ∧ (json_entries "    " statements = [] → artifact out run = Some (text +:+ "}"))
      ∧ (json_entries "    " statements ≠ [] →
         ∃ body, text = body +:+ dquote +:+ "," +:+ nl
                 ∧ artifact out run = Some (body +:+ nl +:+ "}" +:+ nl))
  end.
Proof.
  intros Hne Hwf run text.
  destruct (process_tokens_start_header cwd d v out x (sql <$> statements))
    as (cfg & Hstart & Hjs & Hv).
  destruct statements as [|s statements]; [done |]. clear Hne.
  destruct (OnDisk.makedirs_open open_error [] out) as [e|] eqn:He.
  { subst run. unfold OnDisk.JSONConverter_output_tokens, BaseConverter_output_tokens.
    unfold mbind, M_bind, in_generator. rewrite Hstart.
    unfold gets. cbn [token_source].
    change (length (sql <$> s :: statements)) with (S (length (sql <$> statements))).
    rewrite (output_tokens_loop_statements_error _ e); [done |].
    by apply JSONConverter_get_outfile_on_disk_error. }
  assert (Hrun : run = close_outfiles [out]
                         (mkConverter cfg [(out, mkFile text (PyStr.len text))] []
                            (Some "    ")
                            (default "" (last (json_entries "    " (s :: statements)))))).
  { subst run. unfold OnDisk.JSONConverter_output_tokens, BaseConverter_output_tokens.
    unfold mbind, M_bind, in_generator. rewrite Hstart.
    unfold gets. cbn [token_source].
    rewrite (output_tokens_loop_statements_new _ "    " v); try done.
    - intros path self f Hf Hpos.
      rewrite JSONConverter_get_outfile_on_disk by (left; unfold osp.normcase; by rewrite Hf).
      by apply (JSONConverter_get_outfile_open _ _ f).
    - cbn [output]. rewrite JSONConverter_get_outfile_on_disk by (by right).
      by rewrite (JSONConverter_get_outfile_new _ _ "    " v).
    - by rewrite length_fmap. }
  rewrite Hrun, close_outfiles_one. unfold artifact. clear Hrun run Hstart.
  destruct (last (json_entries "    " (s :: statements))) as [line|] eqn:Hlast.
  - destruct (str_concat_last _ _ Hlast) as [pre Hpre].
    assert (∃ x, json_entry "    " x = Some line) as [contents Hline].
    { apply last_Some_elem_of in Hlast. unfold json_entries in Hlast.
      apply list_elem_of_omap in Hlast as (s' & _ & Hs'). by eexists. }
    apply json_entry_end in Hline as [y ->].
    set (body := json_preamble "    " v +:+ pre +:+ y).
    assert (Htext : text = body +:+ String "034" ("," +:+ nl)).
    { subst text body. rewrite Hpre. by rewrite !app_assoc'. }
    clearbody text body. subst text.
    assert (Hends : PyStr.endswith "," (PyStr.rstrip (y +:+ dquote +:+ "," +:+ nl)) = true).
    { rewrite <- (app_assoc' y dquote ("," +:+ nl)), rstrip_comma_nl. apply endswith_app. }
    assert (Hlen : PyStr.len (body +:+ String "034" ("," +:+ nl)) = PyStr.len body + 3).
    { by rewrite len_app. }
    assert (Hclose :
      (comma_check out;; write out "}")
        (mkConverter cfg [(out, mkFile (body +:+ String "034" ("," +:+ nl))
                                       (PyStr.len (body +:+ String "034" ("," +:+ nl))))]
                     [] (Some "    ") (default "" (Some (y +:+ dquote +:+ "," +:+ nl))))
      = (Return (),
         mkConverter cfg [(out, mkFile (body +:+ nl +:+ "}" +:+ nl) (PyStr.len body + 2))]
                     [] (Some "    ") (y +:+ dquote +:+ "," +:+ nl))).
    { unfold comma_check. run_M. cbn [last_line last_indent from_option id]. rewrite Hends.
      cbn [last_indent]. unfold tell. cbn [outfiles outfiles_lookup].
      rewrite bool_decide_true by done.
      cbn [pos]. unfold seek. rewrite bool_decide_false by (rewrite Hlen; cbn; lia).
      unfold write, modify, set_outfiles.
      cbn [outfiles config token_source last_indent last_line].
      rewrite !outfiles_alter_singleton. cbn [data].
      replace (Z.to_nat _) with (PyStr.len body) by (rewrite Hlen; cbn; lia).
      by rewrite File_write_close. }
    rewrite Hclose. cbn [fst snd outfiles outfiles_lookup].
    rewrite bool_decide_true by done. cbn [data fmap option_fmap option_map].
    split; [done |]. split; [by eexists |]. split.
    + intros Hnone. by rewrite Hnone in Hlast.
    + intros _. by exists body.
  - apply last_None in Hlast. subst text. rewrite Hlast.
    cbn [str_concat foldr]. rewrite app_empty_r.
    assert (Hclose :
      (comma_check out;; write out "}")
        (mkConverter cfg [(out, mkFile (json_preamble "    " v)
                                       (PyStr.len (json_preamble "    " v)))]
                     [] (Some "    ") (default "" None))
      = (Return (),
         mkConverter cfg [(out, mkFile (json_preamble "    " v +:+ "}")
                                       (PyStr.len (json_preamble "    " v +:+ "}")))]
                     [] (Some "    ") "")).
    { unfold comma_check. run_M. cbn [last_line last_indent from_option id].
      change (PyStr.endswith "," (PyStr.rstrip "")) with false. cbv iota.
      unfold write, modify, set_outfiles.
      cbn [outfiles config token_source last_indent last_line].
      rewrite !outfiles_alter_singleton. by rewrite File_write_at_end by done. }
    rewrite Hclose. cbn [fst snd outfiles outfiles_lookup].
    rewrite bool_decide_true by done. cbn [data fmap option_fmap option_map].
    split; [done |]. split; [by eexists |]. split; [done |]. by intros [].
Qed.

Lemma json_artifact_of_statements_witness :
  let document out :=
    json_converter [dialect_line; version_line;
                    mkToken HEADER (HeaderDict "OUTPUT" out); endhead_line;
                    sql "PREPARE a AS SELECT 1;";
                    sql ("PREPARE b AS SELECT" +:+ nl +:+ "  2;")] in
  let run := OnDisk.JSONConverter_output_tokens (λ _ _, None) "/cwd"
               (document "/out/queries.json") in
  let bare := OnDisk.JSONConverter_output_tokens (λ _ _, None) "/cwd"
                (document "queries.json") in
  run.1 = Return ()
  ∧ artifact "/out/queries.json" run
    = Some ("{" +:+ nl +:+
            "    " +:+ dquote +:+ "version" +:+ dquote +:+ ": "
                   +:+ dquote +:+ "1" +:+ dquote +:+ "," +:+ nl +:+
            "    " +:+ dquote +:+ "a" +:+ dquote +:+ ": "
                   +:+ dquote +:+ "SELECT 1" +:+ dquote +:+ "," +:+ nl +:+
            "    " +:+ dquote +:+ "b" +:+ dquote +:+ ": "
                   +:+ dquote +:+ "SELECT 2" +:+ nl +:+
            "}" +:+ nl)
  ∧ bare.1 = Raise (OSError "FileNotFoundError" "")
  ∧ outfiles bare.2 = [].
Proof.
  intros document run bare.
  assert (Hwf : Forall (λ s, statement_wf (format_sql s))
                  ["PREPARE a AS SELECT 1;"; "PREPARE b AS SELECT" +:+ nl +:+ "  2;"]).
  { apply Forall_cons. split; [intros _; vm_compute; by eexists |].
    apply Forall_cons. split; [intros _; vm_compute; by eexists | constructor]. }
  pose proof (json_artifact_of_statements (λ _ _, None) "/cwd" "postgres" "1"
                "/out/queries.json" ":"
                ["PREPARE a AS SELECT 1;"; "PREPARE b AS SELECT" +:+ nl +:+ "  2;"]
                ltac:(done) Hwf) as Hrun.
  pose proof (json_artifact_of_statements (λ _ _, None) "/cwd" "postgres" "1"
                "queries.json" ":"
                ["PREPARE a AS SELECT 1;"; "PREPARE b AS SELECT" +:+ nl +:+ "  2;"]
                ltac:(done) Hwf) as Hbare.
  cbv zeta in Hrun, Hbare.
  change (OnDisk.makedirs_open _ [] "/out/queries.json") with (@None Exception) in Hrun.
  change (OnDisk.makedirs_open _ [] "queries.json")
    with (Some (OSError "FileNotFoundError" "")) in Hbare.
  cbv iota in Hrun, Hbare.
  destruct Hrun as (Hreturn & _ & _ & Hentries). destruct Hbare as [Hraise Hnone].
  split; [exact Hreturn |]. split; [| split; [exact Hraise | exact Hnone]].
  destruct Hentries as (body & Htext & Hfile); [by vm_compute |].
  by vm_compute.
Defined.

(** ** The indentation of the lines of a group *)

Lemma comma_check_last_indent outfile self :
  last_indent (comma_check outfile self).2 = last_indent self.
Proof.
  unfold comma_check. run_M. destruct (PyStr.endswith _ _); [| done].
  destruct (last_indent self) as [indent|] eqn:Hindent; [| done].
  unfold tell. destruct (outfiles_lookup _ _); [| done].
  unfold seek. by case_bool_decide.
Qed.

Lemma take_app_le n s t : n ≤ PyStr.len s → PyStr.take n (s +:+ t) = PyStr.take n s.
Proof.
  revert s. induction n as [|n IH]; intros s Hn.
  - by destruct s, t.
  - destruct s as [|c s]; [simpl in Hn; lia |].
    rewrite app_cons. cbn [PyStr.take]. rewrite IH; [done |].
    unfold PyStr.len in *. simpl in Hn. lia.
Qed.

(** X27.  The indentation after a group.  [JSONConverter.output_token]
    adds one level of indentation for a StartGroup tag; for an EndGroup
    tag it keeps the first level only, whatever the depth.  So a group
    opened and closed at once leaves [last_indent] with the first
    [len(json_space)] characters it had: the indentation is restored for a
    group of the top level, and is lost for a nested one. *)
Theorem group_pair_indentation outfile self js indent tag1 name1 out1 params1
        tag2 name2 out2 params2 :
  config self !! "json_space" = Some (VStr js) →
  last_indent self = Some indent →
  PyStr.len js ≤ PyStr.len indent →
  PyStr.lower tag1 = STARTGROUP_TAG →
  PyStr.lower tag2 ≠ STARTGROUP_TAG →
  let start := mkProcessed (GroupDict tag1 name1 out1) GROUP_TAG params1 in
  let end_ := mkProcessed (GroupDict tag2 name2 out2) GROUP_TAG params2 in
  (JSONConverter_output_token start outfile self).1 = Return ()
  ∧ last_indent (JSONConverter_output_token start outfile self).2 = Some (indent +:+ js)
  ∧ last_indent ((JSONConverter_output_token start outfile;;
                  JSONConverter_output_token end_ outfile) self).2
    = Some (PyStr.take (PyStr.len js) indent).
Proof.
  intros Hjs Hindent Hlen Hstart Hend start end_.
  assert (Hrun : JSONConverter_output_token start outfile self
                 = (Return (),
                    set_last_indent (Some (indent +:+ js))
                      (set_last_line (indent +:+ dquote +:+ name1 +:+ dquote +:+ ": {" +:+ nl)
                         (set_outfiles
                            (outfiles_alter
                               (File_write (indent +:+ dquote +:+ name1 +:+ dquote
                                            +:+ ": {" +:+ nl)) outfile) self)))).
  { unfold JSONConverter_output_token. cbn [start pt_type pt_contents].
    rewrite (bool_decide_true _ Hstart). run_M. rewrite Hindent.
    unfold write, modify, config_str. cbn [config set_last_line set_outfiles].
    by rewrite Hjs. }
  rewrite Hrun. split; [done |]. split; [done |].
  unfold mbind, M_bind. rewrite Hrun.
  unfold JSONConverter_output_token. cbn [end_ pt_type pt_contents].
  rewrite (bool_decide_false _ Hend). run_M.
  unfold config_str. cbn [config set_last_indent set_last_line set_outfiles last_indent].
  rewrite Hjs. cbn [last_indent set_last_indent].
  match goal with
  | |- context [comma_check outfile ?s] =>
      pose proof (comma_check_last_indent outfile s) as Hkeep;
      destruct (comma_check outfile s) as [[[] | e] s1]
  end; unfold write, modify; cbn [snd last_indent set_last_line set_outfiles] in *;
    rewrite Hkeep; by rewrite take_app_le.
Qed.

Lemma group_pair_indentation_witness :
  let self := mkConverter {[ "json_space" := VStr "    " ]} [] [] (Some "        ") "" in
  let pair := (JSONConverter_output_token
                 (mkProcessed (GroupDict "STARTGROUP" "inner" None) GROUP_TAG params_in_group)
                 "/out/default.json";;
               JSONConverter_output_token
                 (mkProcessed (GroupDict "ENDGROUP" "inner" None) GROUP_TAG params_in_group)
                 "/out/default.json") in
  last_indent (pair self).2 = Some "    ".
Proof.
  exact (proj2 (proj2 (group_pair_indentation "/out/default.json"
                  (mkConverter {[ "json_space" := VStr "    " ]} [] [] (Some "        ") "")
                  "    " "        " "STARTGROUP" "inner" None params_in_group
                  "ENDGROUP" "inner" None params_in_group
                  eq_refl eq_refl ltac:(cbn; lia) eq_refl ltac:(done)))).
Defined.

(** ** A meta comment and the statement after it *)





(** ** The case of the letters *)

Lemma lower_char_isspace c : PyStr.isspace (PyStr.lower_char c) = PyStr.isspace c.
Proof. destruct c as [[] [] [] [] [] [] [] []]; by vm_compute. Qed.

(** A character which is no letter is the lower case of itself only. *)
Lemma lower_char_punct a c :
  PyStr.isword a = false → PyStr.lower_char c = a ↔ c = a.
Proof.
  intros Ha. destruct (decide (PyStr.lower_char c = c)) as [-> | Hc]; [done |].
  split; intros <-; exfalso; destruct c as [[] [] [] [] [] [] [] []];
    vm_compute in Ha; first [discriminate Ha | by destruct Hc].
Qed.

Lemma bool_decide_lower_char a c :
  PyStr.isword a = false →
  bool_decide (PyStr.lower_char c = a) = bool_decide (c = a).
Proof. intros Ha. apply bool_decide_ext. by apply lower_char_punct. Qed.

Lemma bool_decide_lower_char' a c :
  PyStr.isword a = false →
  bool_decide (a = PyStr.lower_char c) = bool_decide (a = c).
Proof.
  intros Ha. apply bool_decide_ext.
  split; intros H; symmetry; apply (lower_char_punct a c Ha); by symmetry.
Qed.

Lemma lower_eq_empty s : PyStr.lower s = "" ↔ s = "".
Proof. by destruct s. Qed.

Lemma lower_len s : PyStr.len (PyStr.lower s) = PyStr.len s.
Proof. induction s as [|c s IH]; [done |]. unfold PyStr.len in *. simpl. by rewrite IH. Qed.

Lemma lower_lstrip s : PyStr.lstrip (PyStr.lower s) = PyStr.lower (PyStr.lstrip s).
Proof.
  induction s as [|c s IH]; [done |]. simpl. rewrite lower_char_isspace.
  by destruct (PyStr.isspace c).
Qed.

Lemma lower_drop n s : PyStr.drop n (PyStr.lower s) = PyStr.lower (PyStr.drop n s).
Proof. revert s. induction n as [|n IH]; intros [|c s]; simpl; by rewrite ?IH. Qed.

Lemma lower_span p s :
  (∀ c, p (PyStr.lower_char c) = p c) →
  PyStr.span p (PyStr.lower s) = prod_map PyStr.lower PyStr.lower (PyStr.span p s).
Proof.
  intros Hp. induction s as [|c s IH]; [done |]. simpl. rewrite Hp.
  destruct (p c); [| done]. rewrite IH. by destruct (PyStr.span p s).
Qed.

Lemma lower_line_of s : line_of (PyStr.lower s) = PyStr.lower (line_of s).
Proof.
  unfold line_of. rewrite lower_span; [done |].
  intros c. by rewrite bool_decide_lower_char.
Qed.

Lemma lower_startswith_1 a s :
  PyStr.isword a = false →
  PyStr.startswith (String a "") (PyStr.lower s) = PyStr.startswith (String a "") s.
Proof. intros Ha. destruct s as [|c s]; [done |]. simpl. by rewrite bool_decide_lower_char'. Qed.

Lemma lower_startswith_2 a b s :
  PyStr.isword a = false → PyStr.isword b = false →
  PyStr.startswith (String a (String b "")) (PyStr.lower s)
  = PyStr.startswith (String a (String b "")) s.
Proof.
  intros Ha Hb. destruct s as [|c [|d s]]; simpl; rewrite ?bool_decide_lower_char'; done.
Qed.

Lemma lower_contains_2 a b s :
  PyStr.isword a = false → PyStr.isword b = false →
  PyStr.contains (String a (String b "")) (PyStr.lower s)
  = PyStr.contains (String a (String b "")) s.
Proof.
  intros Ha Hb. induction s as [|c s IH]; [done |].
  change (PyStr.lower (String c s)) with (String (PyStr.lower_char c) (PyStr.lower s)).
  cbn [PyStr.contains]. rewrite <- IH.
  change (String (PyStr.lower_char c) (PyStr.lower s)) with (PyStr.lower (String c s)).
  by rewrite lower_startswith_2.
Qed.

(** A pattern which goes on with a colon. *)
Lemma colon_match {A} (F : string → A) (d : A) s :
  match s with String ":" s' => F s' | _ => d end
  = if PyStr.startswith ":" s then F (PyStr.drop 1 s) else d.
Proof.
  destruct s as [|c s]; [done |]. by destruct c as [[] [] [] [] [] [] [] []].
Qed.

Lemma lower_lazy_line {A} (rest : string → option A) (f : A → A) s :
  (∀ s, rest (PyStr.lower s) = f <$> rest s) →
  lazy_line rest (PyStr.lower s) = prod_map PyStr.lower f <$> lazy_line rest s.
Proof.
  intros Hrest. induction s as [|c s IH].
  - cbn [lazy_line PyStr.lower]. change "" with (PyStr.lower "") at 1. rewrite Hrest.
    by destruct (rest "").
  - cbn [PyStr.lower]. cbn [lazy_line].
    change (String (PyStr.lower_char c) (PyStr.lower s)) with (PyStr.lower (String c s)).
    rewrite Hrest.
    destruct (rest (String c s)) as [a|]; [done |]. cbn [fmap option_fmap option_map].
    rewrite bool_decide_lower_char by done.
    case_bool_decide; [done |]. rewrite IH. by destruct (lazy_line rest s) as [[x a]|].
Qed.

(** *** The patterns compiled with [re.I], on a text and on its lower case *)

Lemma HEADER_REGEX_match_lower line :
  HEADER_REGEX_match (PyStr.lower line)
  = prod_map PyStr.lower PyStr.lower <$> HEADER_REGEX_match line.
Proof.
  unfold HEADER_REGEX_match. cbv zeta.
  rewrite lower_lstrip, lower_startswith_2 by done.
  destruct (PyStr.startswith "--" (PyStr.lstrip line)); [| done].
  rewrite lower_drop, lower_lstrip.
  generalize (PyStr.lstrip (PyStr.drop 2 (PyStr.lstrip line))). intros s2.
  rewrite (list_filter_iff (λ field, PyStr.imatch field (PyStr.lower s2) = true)
                           (λ field, PyStr.imatch field s2 = true))
    by (intros field; by rewrite imatch_lower_text).
  destruct (filter _ HEADER_FIELDS) as [|field fields]; [done |].
  rewrite lower_drop, lower_lstrip, !colon_match, lower_startswith_1 by done.
  destruct (PyStr.startswith ":" _); [| done].
  cbn [fmap option_fmap option_map prod_map fst snd].
  by rewrite lower_drop, lower_lstrip, lower_line_of, lower_take.
Qed.

Lemma group_close_lower s : group_close (PyStr.lower s) = group_close s.
Proof.
  unfold group_close. cbv zeta.
  rewrite lower_lstrip, lower_startswith_2, lower_drop, lower_lstrip by done.
  by rewrite (bool_decide_ext _ _ (lower_eq_empty _)).
Qed.

Lemma group_output_lower s : group_output (PyStr.lower s) = PyStr.lower <$> group_output s.
Proof.
  unfold group_output. cbv zeta. rewrite lower_lstrip, imatch_lower_text.
  destruct (PyStr.imatch "OUTPUT" _); [| done].
  rewrite lower_drop, lower_lstrip, !colon_match, lower_startswith_1 by done.
  destruct (PyStr.startswith ":" _); [| done].
  rewrite lower_drop, lower_lstrip, (lower_lazy_line group_close id).
  - by destruct (lazy_line group_close _) as [[x []]|].
  - intros s'. rewrite group_close_lower. by destruct (group_close s') as [[]|].
Qed.

Lemma group_rest_lower s :
  group_rest (PyStr.lower s) = fmap (M:=option) PyStr.lower <$> group_rest s.
Proof.
  unfold group_rest. rewrite lower_lstrip, !colon_match, lower_startswith_1 by done.
  destruct (PyStr.startswith ":" _).
  - rewrite lower_drop, group_output_lower. by destruct (group_output _).
  - rewrite group_close_lower. by destruct (group_close s).
Qed.

Lemma GROUP_REGEX_match_lower line :
  GROUP_REGEX_match (PyStr.lower line)
  = prod_map (prod_map PyStr.lower PyStr.lower) (fmap (M:=option) PyStr.lower)
    <$> GROUP_REGEX_match line.
Proof.
  unfold GROUP_REGEX_match. cbv zeta.
  rewrite lower_lstrip, lower_startswith_2 by done.
  destruct (PyStr.startswith "/*" (PyStr.lstrip line)); [| done].
  rewrite lower_drop, lower_lstrip.
  generalize (PyStr.lstrip (PyStr.drop 2 (PyStr.lstrip line))). intros s2.
  rewrite (list_filter_iff (λ tag, PyStr.imatch tag (PyStr.lower s2) = true)
                           (λ tag, PyStr.imatch tag s2 = true))
    by (intros tag; by rewrite imatch_lower_text).
  destruct (filter _ [STARTGROUP_TAG; ENDGROUP_TAG]) as [|tag tags]; [done |].
  rewrite lower_drop, lower_lstrip, !colon_match, lower_startswith_1 by done.
  destruct (PyStr.startswith ":" _); [| done].
  rewrite lower_drop, lower_lstrip, (lower_lazy_line group_rest (fmap (M:=option) PyStr.lower))
    by apply group_rest_lower.
  destruct (lazy_line group_rest _) as [[name out]|]; [| done].
  cbn [fmap option_fmap option_map prod_map fst snd]. by rewrite lower_take.
Qed.

Lemma keyword_at_lower_text s : keyword_at (PyStr.lower s) = PyStr.lower <$> keyword_at s.
Proof.
  unfold keyword_at. rewrite !imatch_lower_text, <- !lower_take.
  by repeat destruct (PyStr.imatch _ _).
Qed.

Lemma has_keyword_lower s : has_keyword (PyStr.lower s) = has_keyword s.
Proof.
  induction s as [|c s IH]; [done |]. cbn [has_keyword].
  change (String (PyStr.lower_char c) (PyStr.lower s)) with (PyStr.lower (String c s)).
  cbn [PyStr.lower]. cbn [has_keyword].
  change (String (PyStr.lower_char c) (PyStr.lower s)) with (PyStr.lower (String c s)).
  rewrite keyword_at_lower_text, IH. by destruct (keyword_at (String c s)).
Qed.

Lemma output_at_lower s : output_at (PyStr.lower s) = output_at s.
Proof.
  unfold output_at.
  by rewrite imatch_lower_text, lower_drop, lower_lstrip, lower_startswith_1.
Qed.

Lemma output_before_close_lower s :
  output_before_close (PyStr.lower s) = output_before_close s.
Proof.
  induction s as [|c s IH]; [done |].
  cbn [PyStr.lower output_before_close]. rewrite IH.
  change (String (PyStr.lower_char c) (PyStr.lower s)) with (PyStr.lower (String c s)).
  by rewrite output_at_lower, !lower_drop, lower_lstrip, lower_drop, lower_contains_2.
Qed.

Lemma META_COMMENT_REGEX_search_lower text :
  META_COMMENT_REGEX_search (PyStr.lower text) = META_COMMENT_REGEX_search text.
Proof.
  unfold META_COMMENT_REGEX_search. by rewrite has_keyword_lower, output_before_close_lower.
Qed.

Lemma RAW_META_COMMENT_REGEX_findall_lower skip s :
  RAW_META_COMMENT_REGEX_findall_from skip (PyStr.lower s)
  = prod_map PyStr.lower PyStr.lower <$> RAW_META_COMMENT_REGEX_findall_from skip s.
Proof.
  revert skip. induction s as [|c s IH]; intros skip; [done |].
  cbn [PyStr.lower RAW_META_COMMENT_REGEX_findall_from].
  destruct skip as [|skip]; [| apply IH].
  change (String (PyStr.lower_char c) (PyStr.lower s)) with (PyStr.lower (String c s)).
  rewrite keyword_at_lower_text, has_keyword_lower, output_at_lower.
  destruct (keyword_at (String c s)) as [kw|].
  - cbn [fmap option_fmap option_map]. by rewrite fmap_cons, lower_len, IH.
  - cbn [fmap option_fmap option_map].
    destruct (negb (has_keyword s) && output_at (String c s)); [done | apply IH].
Qed.

Lemma meta_cmds_lower big_list :
  meta_cmds (flatten (prod_map PyStr.lower PyStr.lower <$> big_list))
  = meta_cmds (flatten big_list).
Proof.
  induction big_list as [|[a b] big_list IH]; [done |].
  change (flatten ((a, b) :: big_list)) with (a :: b :: flatten big_list).
  change (flatten (prod_map PyStr.lower PyStr.lower <$> (a, b) :: big_list))
    with (PyStr.lower a :: PyStr.lower b
            :: flatten (prod_map PyStr.lower PyStr.lower <$> big_list)).
  unfold meta_cmds in *.
  destruct a as [|ca a], b as [|cb b]; cbn [PyStr.lower]; rewrite !filter_cons;
    repeat case_decide; try done;
    rewrite ?fmap_cons, IH; cbn [PyStr.lower];
    by rewrite ?lower_char_idemp, ?lower_idemp.
Qed.

(** ** A line which starts with a statement starter in another case *)

Lemma variant_line_at_top line file :
  case_variant_of_starter (PyStr.split_space_first (PyStr.lstrip line)) →
  tokenizer_from Top (line :: file) = tokenizer_from Top file.
Proof.
  intros [Hnot Hvar]. cbn [tokenizer_from].
  rewrite (bool_decide_false _ Hnot).
  destruct (PyStr.lstrip line) as [|c s] eqn:Hl.
  { elem_cases Hvar. }
  pose proof (lstrip_first _ _ _ Hl) as Hc.
  simpl in Hvar. rewrite bool_decide_false in Hvar by (by intros ->).
  apply case_variant_first_char in Hvar as [Hdash Hslash].
  unfold PyStr.strip. rewrite Hl.
  rewrite bool_decide_false by (by apply rstrip_not_empty).
  unfold LINE_COMMENT_START, BLOCK_COMMENT_START. simpl.
  rewrite (bool_decide_false ("-"%char = c)), (bool_decide_false ("/"%char = c)) by done.
  reflexivity.
Qed.

(** The generator stands between two tokens before it reads any line, and
    after two lists of lines which each leave it there. *)
Lemma ends_between_tokens_nil : ends_between_tokens [].
Proof. intros file. unfold tokenizer. cbn. by destruct (tokenizer_from Top file). Qed.

Lemma ends_between_tokens_app pre1 pre2 :
  ends_between_tokens pre1 → ends_between_tokens pre2 → ends_between_tokens (pre1 ++ pre2).
Proof.
  intros H1 H2 file. rewrite <- (assoc_L (++)), H1, H2. cbn [fst snd].
  pose proof (H1 pre2) as H. rewrite H. cbn [fst]. by rewrite (assoc_L (++)).
Qed.

(** C9.  The test of the first word of a line against the statement
    starters is exact.  Where the generator stands between two tokens, a
    line whose first word, up to the first space, is a statement starter
    but for the case of its letters yields no token: the tokens of the file
    are those of the file without the line.  The patterns of the header
    lines, of the group tags and of the directives of a meta comment do not
    tell the case of the letters: on two ASCII texts which are equal in
    lower case they match alike, and what they capture is equal in lower
    case. *)
Theorem case_variant_line_is_dropped pre line file :
  forallb isascii (pre ++ line :: file) = true →
  ends_between_tokens pre →
  case_variant_of_starter (PyStr.split_space_first (PyStr.lstrip line)) →
  tokenizer (pre ++ line :: file) = tokenizer (pre ++ file)
  ∧ ∀ text1 text2,
      isascii text1 = true → isascii text2 = true →
      PyStr.lower text1 = PyStr.lower text2 →
      prod_map PyStr.lower PyStr.lower <$> HEADER_REGEX_match text1
      = prod_map PyStr.lower PyStr.lower <$> HEADER_REGEX_match text2
      ∧ prod_map (prod_map PyStr.lower PyStr.lower) (fmap (M:=option) PyStr.lower)
          <$> GROUP_REGEX_match text1
        = prod_map (prod_map PyStr.lower PyStr.lower) (fmap (M:=option) PyStr.lower)
            <$> GROUP_REGEX_match text2
      ∧ META_COMMENT_REGEX_search text1 = META_COMMENT_REGEX_search text2
      ∧ meta_cmds (flatten (RAW_META_COMMENT_REGEX_findall text1))
        = meta_cmds (flatten (RAW_META_COMMENT_REGEX_findall text2)).
Proof.
  intros _ Hpre Hvar. split.
  - rewrite (Hpre (line :: file)), (Hpre file). unfold tokenizer at 2 3.
    by rewrite variant_line_at_top.
  - intros text1 text2 _ _ Heq.
    rewrite <- !HEADER_REGEX_match_lower, <- !GROUP_REGEX_match_lower.
    rewrite <- (META_COMMENT_REGEX_search_lower text1),
      <- (META_COMMENT_REGEX_search_lower text2).
    rewrite <- (meta_cmds_lower (RAW_META_COMMENT_REGEX_findall text1)),
      <- (meta_cmds_lower (RAW_META_COMMENT_REGEX_findall text2)).
    unfold RAW_META_COMMENT_REGEX_findall.
    rewrite <- !RAW_META_COMMENT_REGEX_findall_lower. by rewrite Heq.
Qed.

Lemma case_variant_line_is_dropped_witness :
  tokenizer (file_of ["-- Dialect : postgres"; "SELECT 1;"; "select 2;"; "SELECT 3;"])
  = tokenizer (file_of ["-- Dialect : postgres"; "SELECT 1;"; "SELECT 3;"])
  ∧ HEADER_REGEX_match "-- Dialect : postgres" = Some ("Dialect", "postgres")
  ∧ HEADER_REGEX_match "-- dialect : POSTGRES" = Some ("dialect", "POSTGRES").
Proof.
  destruct (case_variant_line_is_dropped
              (file_of ["-- Dialect : postgres"; "SELECT 1;"])
              ("select 2;" +:+ nl) (file_of ["SELECT 3;"])) as [Hdrop Hcase].
  - reflexivity.
  - intros file. unfold tokenizer.
    change (file_of ["-- Dialect : postgres"; "SELECT 1;"] ++ file)
      with (("-- Dialect : postgres" +:+ nl) :: ("SELECT 1;" +:+ nl) :: file).
    cbn [tokenizer_from]. generalize (tokenizer_from Top file). intros [tokens e].
    by vm_compute.
  - split; [| by vm_compute; apply list_elem_of_In; simpl; auto].
    intros H. elem_cases H.
  - split; [exact Hdrop |].
    destruct (Hcase "-- Dialect : postgres" "-- dialect : POSTGRES" eq_refl eq_refl eq_refl)
      as [Hheader _].
    by vm_compute.
Defined.

(** C9, as stated, fails: a line which the generator reads inside a
    statement or a block comment is part of the token of that block,
    whatever its first word.  After [CREATE VIEW v AS], the line
    [select a from t;] ends the statement and is part of its text; the
    tokens are not those of the file without the line. *)
Lemma case_variant_line_in_statement :
  case_variant_of_starter
    (PyStr.split_space_first (PyStr.lstrip ("select a from t;" +:+ nl)))
  ∧ tokenizer (file_of ["CREATE VIEW v AS"; "select a from t;"; "SELECT 1;"])
    = ([sql ("CREATE VIEW v AS" +:+ nl +:+ "select a from t;"); sql "SELECT 1;"],
       StopIteration)
  ∧ tokenizer (file_of ["CREATE VIEW v AS"; "SELECT 1;"])
    = ([sql ("CREATE VIEW v AS" +:+ nl +:+ "SELECT 1;")], StopIteration)
  ∧ tokenizer (file_of ["/*"; "select a from t;"; "*/"])
    = ([mkToken BLOCK_COMMENT (Text "select a from t;")], StopIteration).
Proof.
  split; [| by vm_compute].
  split; [| by vm_compute; apply list_elem_of_In; simpl; auto].
  intros H. elem_cases H.
Qed.
